(** * privy-aptos-demo: the client-side transaction pipeline

    A shallow embedding of the TypeScript sources

      - [src/lib/aptos-utils.ts]   (unit conversion, key normalisation,
                                    address validation, error messages),
      - [src/lib/aptos-hooks.ts]   ([useAptosWallet], [useAptosBalance]),
      - [src/app/page.tsx]         (the coin-flip page: [fetchPotBalance],
                                    [handlePlay]),
      - the Movement transfer page that uses these utilities
                                   ([fetchWalletBalance], [handleTransaction]),

    followed by the properties the specification states about them.

    Conventions.  A JavaScript [string] is a [String.string]; its characters
    stand for UTF-16 code units in the ASCII range, and a literal of the
    sources that has other characters is kept as the bytes of the source
    file.  A JavaScript [number] is
    a binary64 [float]; a [bigint] is a [Z].  A computation that can throw
    returns [Exc A]; asynchronous handlers run in the monad [M], which
    threads the React state of the component and records every remote call
    (network client, signer) together with the state displayed at that time. *)

From Stdlib Require Import ZArith List String Ascii Bool Floats Lia DecimalString.
Import ListNotations.

Set Warnings "-inexact-float,-register-all".

Local Open Scope string_scope.

(** ** JavaScript strings *)

Module JSString.

(** [s.slice(n)] and [s.substring(n)] for a literal [n >= 0]: the string
    without its first [n] code units (empty when [n] exceeds the length). *)
Fixpoint slice (n : nat) (s : string) : string :=
  match n, s with
  | O, _ => s
  | S _, EmptyString => EmptyString
  | S n', String _ rest => slice n' rest
  end.

(** [s.startsWith(p)]. *)
Fixpoint startsWith (p s : string) : bool :=
  match p, s with
  | EmptyString, _ => true
  | String _ _, EmptyString => false
  | String a p', String b s' => Ascii.eqb a b && startsWith p' s'
  end.

(** [s.slice(-n)]: the last [n] code units (all of [s] when it is shorter). *)
Definition lastChars (n : nat) (s : string) : string :=
  slice (String.length s - n) s.

Definition lowerChar (c : ascii) : ascii :=
  let n := nat_of_ascii c in
  if (65 <=? n)%nat && (n <=? 90)%nat then ascii_of_nat (n + 32) else c.

(** [s.toLowerCase()]. *)
Fixpoint toLowerCase (s : string) : string :=
  match s with
  | EmptyString => EmptyString
  | String c rest => String (lowerChar c) (toLowerCase rest)
  end.

(** The white space that [trim], [parseInt] and [parseFloat] skip (its ASCII
    members). *)
Definition isWhiteSpace (c : ascii) : bool :=
  let n := nat_of_ascii c in
  ((9 <=? n)%nat && (n <=? 13)%nat) || (n =? 32)%nat.

Fixpoint trimStart (s : string) : string :=
  match s with
  | String c rest => if isWhiteSpace c then trimStart rest else s
  | EmptyString => EmptyString
  end.

Definition rev (s : string) : string :=
  string_of_list_ascii (List.rev (list_ascii_of_string s)).

(** [s.trim()]. *)
Definition trim (s : string) : string := rev (trimStart (rev (trimStart s))).

(** Truthiness of a string: [!s] is [true] exactly on the empty string. *)
Definition isEmpty (s : string) : bool :=
  match s with EmptyString => true | _ => false end.

Definition isHexDigit (c : ascii) : bool :=
  let n := nat_of_ascii c in
  ((48 <=? n)%nat && (n <=? 57)%nat)
  || ((97 <=? n)%nat && (n <=? 102)%nat)
  || ((65 <=? n)%nat && (n <=? 70)%nat).

Fixpoint isHexString (s : string) : bool :=
  match s with
  | EmptyString => true
  | String c rest => isHexDigit c && isHexString rest
  end.

(** Template interpolation of a natural number, [`${n}`]. *)
Definition ofNat (n : nat) : string := NilZero.string_of_uint (Nat.to_uint n).

End JSString.

(** ** Exceptions *)

(** What a [throw] carries, as far as [getErrorMessage] tells values apart. *)
Inductive Thrown : Type :=
| ThrownError (message : string)          (* an instance of [Error] *)
| ThrownString (s : string)               (* a thrown string *)
| ThrownObject (message : option string)  (* another object; [String(o.message)] when it has one *)
| ThrownOther.                            (* undefined, null, a number, ... *)

(** A computation that returns an [A] or throws. *)
Definition Exc (A : Type) : Type := (Thrown + A)%type.

Definition returns {A : Type} (x : Exc A) : bool :=
  match x with inr _ => true | inl _ => false end.

Module Exn.

Definition bind {A B : Type} (x : Exc A) (k : A -> Exc B) : Exc B :=
  match x with
  | inr a => k a
  | inl e => inl e
  end.

(** [try { body } catch (error) { handler }]. *)
Definition tryCatch {A : Type} (body : Exc A) (handler : Thrown -> Exc A) : Exc A :=
  match body with
  | inr a => inr a
  | inl e => handler e
  end.

End Exn.

(** ** JavaScript numbers *)

Module JSNumber.
Import JSString.
Local Open Scope Z_scope.

(** Round-to-nearest-even of the integer [z] to binary64: [Number(z)] for a
    [bigint], and the last step of [parseInt]. *)
Definition ofZ (z : Z) : float :=
  SF2Prim (binary_normalize 53 1024 z 0 false).

Definition negZero : float := PrimFloat.opp PrimFloat.zero.

(** Round-to-nearest-even of the rational [p / q] ([0 <= p], [0 < q]) with
    the given sign: the quotient is computed with at least 64 significant
    bits and a sticky bit before the final rounding. *)
Definition ofRatio (neg : bool) (p q : Z) : float :=
  if p =? 0 then (if neg then negZero else PrimFloat.zero)
  else
    let s := Z.max 0 (64 + Z.log2 q - Z.log2 p) in
    let n := Z.shiftl p s in
    let m := 2 * (n / q) + (if n mod q =? 0 then 0 else 1) in
    SF2Prim (binary_normalize 53 1024 (if neg then - m else m) (- s - 1) false).

(** [Math.floor(x)] followed by [BigInt(...)]: the integer below a finite
    number; [BigInt] throws a [RangeError] on [NaN] and the infinities. *)
Definition floorToBigInt (x : float) : Exc Z :=
  match Prim2SF x with
  | S754_zero _ => inr 0
  | S754_finite s m e => inr (Z.shiftl (if s then Z.neg m else Z.pos m) e)
  | S754_infinity _ | S754_nan =>
      inl (ThrownError "The number cannot be converted to a BigInt because it is not an integer")
  end.

(** Truthiness of a number: [0], [-0] and [NaN] are falsy. *)
Definition truthy (x : float) : bool :=
  negb (PrimFloat.eqb x PrimFloat.zero) && negb (PrimFloat.is_nan x).

(** [x || 0]. *)
Definition orZero (x : float) : float := if truthy x then x else PrimFloat.zero.

Definition digitValue (radix : Z) (c : ascii) : option Z :=
  let n := Z.of_nat (nat_of_ascii c) in
  let v := if (48 <=? n) && (n <=? 57) then Some (n - 48)
           else if (97 <=? n) && (n <=? 122) then Some (n - 87)
           else if (65 <=? n) && (n <=? 90) then Some (n - 55)
           else None in
  match v with
  | Some d => if d <? radix then Some d else None
  | None => None
  end.

(** The longest prefix of radix-[radix] digits of [s]: how many there are,
    their value, and the rest of the string. *)
Fixpoint digits (radix : Z) (s : string) (count : nat) (acc : Z) : nat * Z * string :=
  match s with
  | String c rest =>
      match digitValue radix c with
      | Some d => digits radix rest (S count) (acc * radix + d)
      | None => (count, acc, s)
      end
  | EmptyString => (count, acc, s)
  end.

Definition signOf (s : string) : bool * string :=
  match s with
  | String "-" rest => (true, rest)
  | String "+" rest => (false, rest)
  | _ => (false, s)
  end.

(** [parseInt(s)] with no radix argument. *)
Definition parseInt (s : string) : float :=
  let '(neg, s1) := signOf (trimStart s) in
  let '(radix, s2) :=
    if startsWith "0x" s1 || startsWith "0X" s1 then (16, slice 2 s1) else (10, s1) in
  let '(count, mathInt, _) := digits radix s2 0%nat 0 in
  match count with
  | O => PrimFloat.nan
  | _ => if mathInt =? 0 then (if neg then negZero else PrimFloat.zero)
         else ofZ (if neg then - mathInt else mathInt)
  end.

(** The exponent part [e[+-]digits] of a decimal literal, [0] when absent
    or malformed. *)
Definition exponentPart (s : string) : Z :=
  match s with
  | String c rest =>
      if Ascii.eqb c "e" || Ascii.eqb c "E" then
        let '(neg, digs) := signOf rest in
        let '(count, e, _) := digits 10 digs 0%nat 0 in
        match count with O => 0 | _ => if neg then - e else e end
      else 0
  | EmptyString => 0
  end.

(** [parseFloat(s)]: the longest prefix of [s], after leading white space,
    that is a decimal literal, rounded to the nearest binary64. *)
Definition parseFloat (s : string) : float :=
  let '(neg, s1) := signOf (trimStart s) in
  if startsWith "Infinity" s1
  then (if neg then PrimFloat.neg_infinity else PrimFloat.infinity)
  else
    let '(ci, int, s2) := digits 10 s1 0%nat 0 in
    let '(cf, mant, s3) :=
      match s2 with
      | String "." rest => digits 10 rest 0%nat int
      | _ => (0%nat, int, s2)
      end in
    match (ci + cf)%nat with
    | O => PrimFloat.nan
    | _ =>
        let e := exponentPart s3 - Z.of_nat cf in
        if 0 <=? e then ofRatio neg (mant * 10 ^ e) 1
        else ofRatio neg mant (10 ^ (- e))
    end.

End JSNumber.

(** ** src/lib/aptos-utils.ts *)

Module AptosUtils.
Import JSString JSNumber.

(** The argument of [octasToAPT]: [string | number | bigint]. *)
Inductive Octas : Type :=
| OctasBigInt (n : Z)
| OctasString (s : string)
| OctasNumber (x : float).

(** [octasToAPT(octas)]. *)
Definition octasToAPT (octas : Octas) : float :=
  let octasNumber :=
    match octas with
    | OctasBigInt n => ofZ n
    | OctasString s => parseInt s
    | OctasNumber x => x
    end in
  (octasNumber / 100000000)%float.

(** [aptToOctas(apt)]. *)
Definition aptToOctas (apt : float) : Exc Z :=
  floorToBigInt (apt * 100000000)%float.

(** [cleanPublicKey(publicKeyHex)]. *)
Definition cleanPublicKey (publicKeyHex : string) : Exc string :=
  let cleaned := publicKeyHex in
  let cleaned :=
    if startsWith "0x" (toLowerCase cleaned) then slice 2 cleaned else cleaned in
  let cleaned :=
    if (String.length cleaned =? 66)%nat && startsWith "00" cleaned
    then slice 2 cleaned else cleaned in
  if negb (String.length cleaned =? 64)%nat
  then inl (ThrownError ("Invalid public key length: "
                           ++ ofNat (String.length cleaned) ++ ", expected 64"))
  else inr cleaned.

(** [getErrorMessage(error)]. *)
Definition getErrorMessage (error : Thrown) : string :=
  match error with
  | ThrownError message => message
  | ThrownString s => s
  | ThrownObject (Some message) => message
  | _ => "An unknown error occurred"
  end.

(** [getExplorerLink(transactionHash, network)]. *)
Definition getExplorerLink (transactionHash network : string) : string :=
  "https://explorer.aptoslabs.com" ++ "/txn/" ++ transactionHash
    ++ "?network=" ++ network.

(** [getMovementExplorerLink(transactionHash)]. *)
Definition getMovementExplorerLink (transactionHash : string) : string :=
  "https://explorer.movementnetwork.xyz/txn/" ++ transactionHash
    ++ "?network=bardock+testnet".

End AptosUtils.

(** The normalisation every handler applies to the signer's answer before it
    builds the authenticator: [rawSignature.slice(2)]. *)
Definition signatureHex (rawSignature : string) : string :=
  JSString.slice 2 rawSignature.


(** ** JavaScript values and the records of the identity provider *)

Inductive JSValue : Type :=
| JSUndefined
| JSNull
| JSBool (b : bool)
| JSNum (x : float)
| JSStr (s : string)
| JSObject (props : list (string * JSValue)).

Module JSObj.

(** [typeof v === "object" && v !== null]. *)
Definition isObject (v : JSValue) : bool :=
  match v with JSObject _ => true | _ => false end.

Definition lookup (key : string) (props : list (string * JSValue)) : option JSValue :=
  match List.find (fun kv => String.eqb (fst kv) key) props with
  | Some kv => Some (snd kv)
  | None => None
  end.

(** [key in v], evaluated only once [v] is known to be an object. *)
Definition hasProperty (key : string) (v : JSValue) : bool :=
  match v with
  | JSObject props => match lookup key props with Some _ => true | None => false end
  | _ => false
  end.

(** [v[key]]: [undefined] when the property is missing. *)
Definition getProperty (key : string) (v : JSValue) : JSValue :=
  match v with
  | JSObject props => match lookup key props with Some x => x | None => JSUndefined end
  | _ => JSUndefined
  end.

(** [typeof v === "string"]. *)
Definition isString (v : JSValue) : bool :=
  match v with JSStr _ => true | _ => false end.

(** [v === s] for a string literal [s]. *)
Definition strictEqStr (v : JSValue) (s : string) : bool :=
  match v with JSStr t => String.eqb t s | _ => false end.

(** Truthiness: what [!v] negates. *)
Definition truthy (v : JSValue) : bool :=
  match v with
  | JSUndefined | JSNull => false
  | JSBool b => b
  | JSNum x => JSNumber.truthy x
  | JSStr s => negb (JSString.isEmpty s)
  | JSObject _ => true
  end.

End JSObj.

(** The authenticated user, as far as the pipeline reads it:
    [user.linkedAccounts] may be missing. *)
Record User : Type := { linkedAccounts : option (list JSValue) }.

(** The predicate every [linkedAccounts.find(...)] of the repository uses. *)
Definition hasAptosChainType (account : JSValue) : bool :=
  JSObj.isObject account
  && JSObj.hasProperty "chainType" account
  && JSObj.strictEqStr (JSObj.getProperty "chainType" account) "aptos".

(** ** src/lib/aptos-hooks.ts: the account resolver *)

Module AptosHooks.

(** [interface AptosWallet { address: string; publicKey: string }].  The
    hook fills the fields with unchecked casts, so at run time a field
    holds whatever the record held under that name. *)
Record AptosWallet : Type := { address : JSValue; publicKey : JSValue }.

(** [useAptosWallet()], as a function of the [user] that [usePrivy] gives. *)
Definition useAptosWallet (user : option User) : option AptosWallet :=
  match user with
  | None => None
  | Some u =>
      match linkedAccounts u with
      | None => None
      | Some accounts =>
          match List.find hasAptosChainType accounts with
          | Some aptosWallet =>
              Some {| address := JSObj.getProperty "address" aptosWallet;
                      publicKey := JSObj.getProperty "publicKey" aptosWallet |}
          | None => None
          end
      end
  end.

(** A pair is fully populated when both fields are strings. *)
Definition fullyPopulated (w : AptosWallet) : bool :=
  JSObj.isString (address w) && JSObj.isString (publicKey w).

End AptosHooks.

(** ** The inline resolver of the pages *)

Module InlineResolver.

(** [interface AptosLinkedAccount]; [chainType] is ["aptos"] by the guard. *)
Record AptosLinkedAccount : Type := { address : string; publicKey : string }.

(** [isAptosAccount(account)], returning the narrowed account. *)
Definition isAptosAccount (account : JSValue) : option AptosLinkedAccount :=
  if hasAptosChainType account
     && JSObj.hasProperty "address" account
     && JSObj.hasProperty "publicKey" account
  then
    match JSObj.getProperty "address" account, JSObj.getProperty "publicKey" account with
    | JSStr a, JSStr k => Some {| address := a; publicKey := k |}
    | _, _ => None
    end
  else None.

(** [const foundAccount = user.linkedAccounts?.find(...);
     const aptosWallet = foundAccount && isAptosAccount(foundAccount)
                           ? foundAccount : undefined]. *)
Definition resolve (user : User) : option AptosLinkedAccount :=
  match linkedAccounts user with
  | None => None
  | Some accounts =>
      match List.find hasAptosChainType accounts with
      | Some foundAccount => isAptosAccount foundAccount
      | None => None
      end
  end.

End InlineResolver.

(** ** External collaborators *)

(** An [AccountAddress], by its canonical string. *)
Definition Address : Type := string.

(** A value argument of an entry function. *)
Inductive Arg : Type :=
| ArgNumber (x : float)
| ArgString (s : string)
| ArgAddress (a : Address)
| ArgBigInt (n : Z).

(** [{ function, typeArguments, functionArguments }]. *)
Record EntryCall : Type :=
  { function : string; typeArguments : list string; functionArguments : list Arg }.

(** The transaction the builder returns, by its serialised bytes. *)
Definition RawTxn : Type := string.

(** [new AccountAuthenticatorEd25519(new Ed25519PublicKey(k), new Ed25519Signature(s))],
    by the hex strings its two parts were constructed from. *)
Record Authenticator : Type := { authPublicKey : string; authSignature : string }.

(** The calls that leave the browser: the chain network client and the
    remote signer. *)
Inductive Call : Type :=
| BuildSimple (sender : Address) (data : EntryCall)
| SignRawHash (address : JSValue) (chainType : string) (hash : string)
| SubmitSimple (transaction : RawTxn) (senderAuthenticator : Authenticator)
| WaitForTransaction (transactionHash : string)
| View (payload : EntryCall)
| GetAccountAPTAmount (accountAddress : JSValue).

(** How the collaborators answer.  The local SDK functions are functions of
    their argument; a remote call also depends on when it is made, which is
    counted in calls made so far. *)
Record Env : Type :=
  { accountAddressFrom : JSValue -> Exc Address;        (* AccountAddress.from *)
    signingMessageHex : RawTxn -> string;               (* toHex(generateSigningMessageForTransaction(t)) *)
    rejectsPublicKey : string -> option Thrown;         (* what new Ed25519PublicKey(hex) throws, if anything *)
    rejectsSignature : string -> option Thrown;         (* what new Ed25519Signature(hex) throws, if anything *)
    buildSimple : nat -> Address -> EntryCall -> Exc RawTxn;
    signRawHash : nat -> JSValue -> string -> string -> Exc string;
    submitSimple : nat -> RawTxn -> Authenticator -> Exc string;
    waitForTransaction : nat -> string -> Exc string;
    view : nat -> EntryCall -> Exc (list string);
    getAccountAPTAmount : nat -> JSValue -> Exc Z }.

(** ** The monad of the handlers *)

Section Effects.
Context {UI : Type}.

(** The React state of the component, and the remote calls made so far,
    oldest first, each with the state on display when it was issued. *)
Record World : Type := { ui : UI; trace : list (Call * UI) }.

Definition M (A : Type) : Type := World -> Exc A * World.

Definition ret {A : Type} (x : A) : M A := fun w => (inr x, w).

Definition bind {A B : Type} (m : M A) (k : A -> M B) : M B :=
  fun w =>
    match m w with
    | (inr x, w') => k x w'
    | (inl e, w') => (inl e, w')
    end.

(** A local computation that may throw. *)
Definition lift {A : Type} (x : Exc A) : M A := fun w => (x, w).

(** [try { body } catch (error) { handler }]. *)
Definition tryCatch {A : Type} (body : M A) (handler : Thrown -> M A) : M A :=
  fun w =>
    match body w with
    | (inr x, w') => (inr x, w')
    | (inl e, w') => handler e w'
    end.

(** [try { body } finally { final }]. *)
Definition tryFinally {A : Type} (body : M A) (final : M unit) : M A :=
  fun w =>
    match body w with
    | (r, w') =>
        match final w' with
        | (inr _, w'') => (r, w'')
        | (inl e, w'') => (inl e, w'')
        end
    end.

(** A state setter. *)
Definition update (f : UI -> UI) : M unit :=
  fun w => (inr tt, {| ui := f (ui w); trace := trace w |}).

(** The state cells as the handler reads them.  A handler sees the cells of
    the render it was created in; the handlers below read only cells they
    have not written since they started. *)
Definition current : M UI := fun w => (inr (ui w), w).

(** [await] of a remote call: it is recorded, and answered by the
    collaborator. *)
Definition await {A : Type} (c : Call) (answer : nat -> Exc A) : M A :=
  fun w => (answer (List.length (trace w)),
            {| ui := ui w; trace := trace w ++ [(c, ui w)] |}).

(** [callback(); setInterval(callback, ...)] observed for [ticks] periods,
    each poll taken to be answered before the next period begins ([Polling]
    below drops that assumption).  A callback that throws stops the run: the
    model lets nothing that escapes a poll go unnoticed. *)
Fixpoint everyInterval (ticks : nat) (callback : M unit) : M unit :=
  match ticks with
  | O => ret tt
  | S n => bind callback (fun _ => everyInterval n callback)
  end.

End Effects.

Arguments World : clear implicits.
Arguments M : clear implicits.

Declare Scope monad_scope.
Delimit Scope monad_scope with monad.
Notation "x <- m ;; k" := (bind m (fun x => k))
  (at level 61, m at next level, right associativity) : monad_scope.
Notation "m ;; k" := (bind m (fun _ => k))
  (at level 61, right associativity) : monad_scope.

(** A status line: a template literal, with the numbers interpolated into it
    kept as numbers. *)
Inductive Piece : Type :=
| Lit (s : string)
| Num (x : float).

Definition StatusLine : Type := list Piece.

(** [const pk = new Ed25519PublicKey(k); const sig = new Ed25519Signature(s);
    new AccountAuthenticatorEd25519(pk, sig)], the arguments evaluated in
    order. *)
Definition newAuthenticator (env : Env) (publicKeyHex signature : string) : Exc Authenticator :=
  match rejectsPublicKey env publicKeyHex with
  | Some e => inl e
  | None =>
      match rejectsSignature env signature with
      | Some e => inl e
      | None => inr {| authPublicKey := publicKeyHex; authSignature := signature |}
      end
  end.

(** [isValidAddress(address)] of aptos-utils.ts:
    [try { AccountAddress.from(address); return true; } catch { return false; }]. *)
Definition isValidAddress (env : Env) (address : string) : Exc bool :=
  Exn.tryCatch
    (Exn.bind (accountAddressFrom env (JSStr address)) (fun _ => inr true))
    (fun _ => inr false).

(** [result[0] as string]: a missing element reads as [undefined], which
    every later use turns into the string ["undefined"]. *)
Definition first (result : list string) : string :=
  match result with
  | x :: _ => x
  | [] => "undefined"
  end.

(** [n.toString()] for an integral amount. *)
Definition amountToString (n : Z) : string := NilZero.string_of_int (Z.to_int n).

(** ** src/app/page.tsx: the coin-flip page *)

Module Home.
Import JSString JSNumber.
Local Open Scope monad_scope.

Definition CONTRACT_ADDRESS : string :=
  "0x10bcbbc693740204b97bff6a76c344a9aed7f8c1bbd2b2482b9a0fd947b2b55e".

Definition BET_AMOUNT : float := 1000000%float.

Inductive GameResult : Type := win | lose.

(** The [useState] cells of [Home]. *)
Record UI : Type :=
  { choice : float;
    potBalance : string;
    isLoading : bool;
    txStatus : StatusLine;
    lastResult : option GameResult;
    txHash : string;
    creatingWallet : bool }.

(** The state of a freshly mounted component. *)
Definition initial : UI :=
  {| choice := 0%float; potBalance := "0"; isLoading := false; txStatus := [];
     lastResult := None; txHash := ""; creatingWallet := false |}.

Definition setPotBalance (v : string) : M UI unit :=
  update (fun u => {| choice := choice u; potBalance := v; isLoading := isLoading u;
                      txStatus := txStatus u; lastResult := lastResult u;
                      txHash := txHash u; creatingWallet := creatingWallet u |}).

Definition setIsLoading (v : bool) : M UI unit :=
  update (fun u => {| choice := choice u; potBalance := potBalance u; isLoading := v;
                      txStatus := txStatus u; lastResult := lastResult u;
                      txHash := txHash u; creatingWallet := creatingWallet u |}).

Definition setTxStatus (v : StatusLine) : M UI unit :=
  update (fun u => {| choice := choice u; potBalance := potBalance u;
                      isLoading := isLoading u; txStatus := v;
                      lastResult := lastResult u; txHash := txHash u;
                      creatingWallet := creatingWallet u |}).

Definition setLastResult (v : option GameResult) : M UI unit :=
  update (fun u => {| choice := choice u; potBalance := potBalance u;
                      isLoading := isLoading u; txStatus := txStatus u;
                      lastResult := v; txHash := txHash u;
                      creatingWallet := creatingWallet u |}).

Definition setTxHash (v : string) : M UI unit :=
  update (fun u => {| choice := choice u; potBalance := potBalance u;
                      isLoading := isLoading u; txStatus := txStatus u;
                      lastResult := lastResult u; txHash := v;
                      creatingWallet := creatingWallet u |}).

Definition getPotBalance : EntryCall :=
  {| function := CONTRACT_ADDRESS ++ "::coin_flip::get_pot_balance";
     typeArguments := [];
     functionArguments := [ArgString CONTRACT_ADDRESS] |}.

(** [fetchPotBalance()]. *)
Definition fetchPotBalance (env : Env) : M UI unit :=
  tryCatch
    (result <- await (View getPotBalance) (fun t => view env t getPotBalance) ;;
     setPotBalance (first result))
    (fun error => ret tt (* console.error *)).

(** The effect that polls the pot:
    [if (authenticated) { fetchPotBalance(); setInterval(fetchPotBalance, 5000); }],
    observed for [ticks] periods. *)
Definition pollPot (env : Env) (authenticated : bool) (ticks : nat) : M UI unit :=
  if authenticated
  then fetchPotBalance env ;; everyInterval ticks (fetchPotBalance env)
  else ret tt.

(** The comparison that ends [handlePlay]. *)
Definition inferResult (potAfterValue potBefore : string) : M UI unit :=
  if PrimFloat.eqb (parseInt potAfterValue) 0 && PrimFloat.ltb 0 (parseInt potBefore)
  then
    setLastResult (Some win) ;;
    setTxStatus [Lit "🎉 YOU WON! You took ";
                 Num ((parseInt potBefore + BET_AMOUNT) / 100000000)%float;
                 Lit " APT!"]
  else if PrimFloat.ltb (parseInt potBefore) (parseInt potAfterValue)
  then
    setLastResult (Some lose) ;;
    setTxStatus [Lit "😢 You lost. Your 0.01 APT is now in the pot."]
  else
    setLastResult (Some win) ;;
    setTxStatus [Lit "🎉 YOU WON THE JACKPOT!"].

Definition playCall (choice : float) : EntryCall :=
  {| function := CONTRACT_ADDRESS ++ "::coin_flip::play";
     typeArguments := [];
     functionArguments := [ArgNumber choice; ArgString CONTRACT_ADDRESS] |}.

(** The body of the outer [try] of [handlePlay], after the public key was
    cleaned. *)
Definition play (env : Env) (walletAddress publicKeyHex potBefore : string)
    (choice : float) : M UI unit :=
  address <- lift (accountAddressFrom env (JSStr walletAddress)) ;;
  let data := playCall choice in
  rawTxn <- await (BuildSimple address data) (fun t => buildSimple env t address data) ;;
  let hash := signingMessageHex env rawTxn in
  rawSignature <- await (SignRawHash (JSStr walletAddress) "aptos" hash)
                        (fun t => signRawHash env t (JSStr walletAddress) "aptos" hash) ;;
  senderAuthenticator <- lift (newAuthenticator env publicKeyHex (signatureHex rawSignature)) ;;
  pending <- await (SubmitSimple rawTxn senderAuthenticator)
                   (fun t => submitSimple env t rawTxn senderAuthenticator) ;;
  _ <- await (WaitForTransaction pending) (fun t => waitForTransaction env t pending) ;;
  setTxHash pending ;;
  fetchPotBalance env ;;
  potAfter <- await (View getPotBalance) (fun t => view env t getPotBalance) ;;
  let potAfterValue := first potAfter in
  inferResult potAfterValue potBefore.

(** [handlePlay()]. *)
Definition handlePlay (env : Env) (authenticated : bool) (user : option User) : M UI unit :=
  match authenticated, user with
  | true, Some user =>
      match InlineResolver.resolve user with
      | None => setTxStatus [Lit "Please create an Aptos wallet first"]
      | Some aptosWallet =>
          let walletAddress := InlineResolver.address aptosWallet in
          let publicKeyHex := InlineResolver.publicKey aptosWallet in
          if isEmpty walletAddress || isEmpty publicKeyHex
          then setTxStatus [Lit "Wallet not properly configured"]
          else
            setIsLoading true ;;
            setLastResult None ;;
            tryFinally
              (tryCatch
                 (state <- current ;;
                  let potBefore := potBalance state in
                  match AptosUtils.cleanPublicKey publicKeyHex with
                  | inl _ =>
                      setTxStatus [Lit "Invalid public key format"] ;;
                      setIsLoading false
                  | inr publicKeyHex =>
                      play env walletAddress publicKeyHex potBefore (choice state)
                  end)
                 (fun error =>
                    setTxStatus [Lit ("Error: " ++ AptosUtils.getErrorMessage error)] ;;
                    setLastResult None))
              (setIsLoading false)
      end
  | _, _ => setTxStatus [Lit "Please connect your wallet first"]
  end.

End Home.

(** ** src/lib/aptos-hooks.ts: the balance hook *)

Module BalanceHook.
Import JSNumber AptosUtils.
Local Open Scope monad_scope.

(** The [useState] cells of [useAptosBalance]. *)
Record UI : Type := { balance : float; loading : bool; error : option string }.

Definition initial : UI := {| balance := 0%float; loading := false; error := None |}.

Definition setBalance (v : float) : M UI unit :=
  update (fun u => {| balance := v; loading := loading u; error := error u |}).

Definition setLoading (v : bool) : M UI unit :=
  update (fun u => {| balance := balance u; loading := v; error := error u |}).

Definition setError (v : option string) : M UI unit :=
  update (fun u => {| balance := balance u; loading := loading u; error := v |}).

(** [wallet?.address], tested for truthiness. *)
Definition walletAddress (wallet : option AptosHooks.AptosWallet) : option JSValue :=
  match wallet with
  | Some w => if JSObj.truthy (AptosHooks.address w) then Some (AptosHooks.address w) else None
  | None => None
  end.

(** [fetchBalance()]. *)
Definition fetchBalance (env : Env) (wallet : option AptosHooks.AptosWallet) : M UI unit :=
  match walletAddress wallet with
  | None => setBalance 0%float
  | Some address =>
      setLoading true ;;
      setError None ;;
      tryFinally
        (tryCatch
           (accountAddress <- lift (accountAddressFrom env address) ;;
            balanceOctas <- await (GetAccountAPTAmount (JSStr accountAddress))
                                  (fun t => getAccountAPTAmount env t (JSStr accountAddress)) ;;
            setBalance (octasToAPT (OctasString (amountToString balanceOctas))))
           (fun err =>
              let errorMessage :=
                match err with
                | ThrownError message => message
                | _ => "Failed to fetch balance"
                end in
              setError (Some errorMessage) (* console.error *)))
        (setLoading false)
  end.

(** The effect: [fetchBalance(); setInterval(fetchBalance, 5000)], observed
    for [ticks] periods. *)
Definition pollBalance (env : Env) (wallet : option AptosHooks.AptosWallet)
    (ticks : nat) : M UI unit :=
  fetchBalance env wallet ;; everyInterval ticks (fetchBalance env wallet).

End BalanceHook.

(** ** The Movement transfer page *)

Module MovementTx.
Import JSString JSNumber AptosUtils.
Local Open Scope monad_scope.

(** The [useState] cells of [MovementTxPage]. *)
Record UI : Type :=
  { recipientAddress : string;
    amount : string;
    isLoading : bool;
    txStatus : StatusLine;
    txHash : string;
    walletBalance : string;
    creatingWallet : bool;
    addressError : string }.

Definition initial : UI :=
  {| recipientAddress := ""; amount := "1"; isLoading := false; txStatus := [];
     txHash := ""; walletBalance := "0"; creatingWallet := false; addressError := "" |}.

Definition setIsLoading (v : bool) : M UI unit :=
  update (fun u => {| recipientAddress := recipientAddress u; amount := amount u;
                      isLoading := v; txStatus := txStatus u; txHash := txHash u;
                      walletBalance := walletBalance u;
                      creatingWallet := creatingWallet u;
                      addressError := addressError u |}).

Definition setTxStatus (v : StatusLine) : M UI unit :=
  update (fun u => {| recipientAddress := recipientAddress u; amount := amount u;
                      isLoading := isLoading u; txStatus := v; txHash := txHash u;
                      walletBalance := walletBalance u;
                      creatingWallet := creatingWallet u;
                      addressError := addressError u |}).

Definition setTxHash (v : string) : M UI unit :=
  update (fun u => {| recipientAddress := recipientAddress u; amount := amount u;
                      isLoading := isLoading u; txStatus := txStatus u; txHash := v;
                      walletBalance := walletBalance u;
                      creatingWallet := creatingWallet u;
                      addressError := addressError u |}).

Definition setWalletBalance (v : string) : M UI unit :=
  update (fun u => {| recipientAddress := recipientAddress u; amount := amount u;
                      isLoading := isLoading u; txStatus := txStatus u;
                      txHash := txHash u; walletBalance := v;
                      creatingWallet := creatingWallet u;
                      addressError := addressError u |}).

Definition setAddressError (v : string) : M UI unit :=
  update (fun u => {| recipientAddress := recipientAddress u; amount := amount u;
                      isLoading := isLoading u; txStatus := txStatus u;
                      txHash := txHash u; walletBalance := walletBalance u;
                      creatingWallet := creatingWallet u;
                      addressError := v |}).

(** [fetchWalletBalance(address)]. *)
Definition fetchWalletBalance (env : Env) (address : JSValue) : M UI unit :=
  tryCatch
    (result <- await (GetAccountAPTAmount address)
                     (fun t => getAccountAPTAmount env t address) ;;
     setWalletBalance (amountToString result))
    (fun error => (* console.error *) setWalletBalance "0").

(** [cleanPublicKey] applied to the unchecked [publicKey] of the hook's
    wallet: a value that is not a string has no [toLowerCase] to call. *)
Definition cleanPublicKeyOf (publicKeyHex : JSValue) : Exc string :=
  match publicKeyHex with
  | JSStr s => AptosUtils.cleanPublicKey s
  | _ => inl (ThrownError "cleaned.toLowerCase is not a function")
  end.

Definition coinTransfer (recipientAddr : Address) (amountInOctas : Z) : EntryCall :=
  {| function := "0x1::coin::transfer";
     typeArguments := ["0x1::aptos_coin::AptosCoin"];
     functionArguments := [ArgAddress recipientAddr; ArgBigInt amountInOctas] |}.

(** The body of the outer [try] of [handleTransaction], after the public
    key was cleaned.  The status literals of this page are kept code unit
    for code unit: the source file holds them in a garbled encoding, and
    that is what the page displays. *)
Definition transfer (env : Env) (walletAddress : JSValue) (publicKeyHex : string)
    (recipientAddress amount : string) : M UI unit :=
  address <- lift (accountAddressFrom env walletAddress) ;;
  recipientAddr <- lift (accountAddressFrom env (JSStr (trim recipientAddress))) ;;
  amountInOctas <- lift (aptToOctas (orZero (parseFloat amount))) ;;
  let data := coinTransfer recipientAddr amountInOctas in
  rawTxn <- await (BuildSimple address data) (fun t => buildSimple env t address data) ;;
  let hash := signingMessageHex env rawTxn in
  rawSignature <- await (SignRawHash walletAddress "aptos" hash)
                        (fun t => signRawHash env t walletAddress "aptos" hash) ;;
  senderAuthenticator <- lift (newAuthenticator env publicKeyHex (signatureHex rawSignature)) ;;
  pending <- await (SubmitSimple rawTxn senderAuthenticator)
                   (fun t => submitSimple env t rawTxn senderAuthenticator) ;;
  setTxHash pending ;;
  setTxStatus [Lit "Transaction submitted! Waiting for confirmation..."] ;;
  executed <- await (WaitForTransaction pending) (fun t => waitForTransaction env t pending) ;;
  setTxStatus [Lit ("‚úÖ Transaction successful! Hash: " ++ executed)] ;;
  fetchWalletBalance env walletAddress.

(** [handleTransaction()]; [moveWallet] is [useAptosWallet()]. *)
Definition handleTransaction (env : Env) (authenticated : bool) (user : option User)
  : M UI unit :=
  let moveWallet := AptosHooks.useAptosWallet user in
  match authenticated, user with
  | true, Some _ =>
      match moveWallet with
      | None => setTxStatus [Lit "Please create a Move wallet first"]
      | Some moveWallet =>
          state <- current ;;
          if isEmpty (trim (recipientAddress state))
          then
            setTxStatus [Lit "Please enter a recipient address"] ;;
            setAddressError "Recipient address is required"
          else
            valid <- lift (isValidAddress env (trim (recipientAddress state))) ;;
            if negb valid
            then
              setTxStatus [Lit "Invalid recipient address format"] ;;
              setAddressError "Please enter a valid Aptos address"
            else
              setAddressError "" ;;
              let walletAddress := AptosHooks.address moveWallet in
              let publicKeyHex := AptosHooks.publicKey moveWallet in
              if negb (JSObj.truthy walletAddress) || negb (JSObj.truthy publicKeyHex)
              then setTxStatus [Lit "Wallet not properly configured"]
              else
                setIsLoading true ;;
                setTxStatus [] ;;
                tryFinally
                  (tryCatch
                     match cleanPublicKeyOf publicKeyHex with
                     | inl _ =>
                         setTxStatus [Lit "Invalid public key format"] ;;
                         setIsLoading false
                     | inr publicKeyHex =>
                         transfer env walletAddress publicKeyHex
                                  (recipientAddress state) (amount state)
                     end
                     (fun error =>
                        setTxStatus [Lit ("‚ùå Error: " ++ AptosUtils.getErrorMessage error)]
                        (* console.error *)))
                  (setIsLoading false)
      end
  | _, _ => setTxStatus [Lit "Please connect your wallet first"]
  end.

End MovementTx.

(** Running a handler from the state on display, with no call made yet. *)
Definition run {UI A : Type} (m : M UI A) (u : UI) : Exc A * World UI :=
  m {| ui := u; trace := [] |}.

(** The state a handler leaves on display, and the calls it made. *)
Definition finalUI {UI A : Type} (m : M UI A) (u : UI) : UI := ui (snd (run m u)).
Definition calls {UI A : Type} (m : M UI A) (u : UI) : list Call :=
  List.map fst (trace (snd (run m u))).

(** The two prefix-stripping steps of [cleanPublicKey], before the length
    check. *)
Definition strippedKey (publicKeyHex : string) : string :=
  let cleaned :=
    if JSString.startsWith "0x" (JSString.toLowerCase publicKeyHex)
    then JSString.slice 2 publicKeyHex else publicKeyHex in
  if (String.length cleaned =? 66)%nat && JSString.startsWith "00" cleaned
  then JSString.slice 2 cleaned else cleaned.

(** ** Scenarios

    Concrete collaborators and users, on which the properties below are
    exercised. *)

Module Scenario.
Import JSString.

Definition key64 : string :=
  "a1b2c3d4e5f60718293a4b5c6d7e8f90a1b2c3d4e5f60718293a4b5c6d7e8f90".

(** A 70-character hex key: no prefix to strip, and not 64 characters. *)
Definition key70 : string := "abcdef" ++ key64.

(** A 66-character hex key that begins with the byte [00]. *)
Definition key66 : string := "00" ++ key64.

(** A string on which [cleanPublicKey] succeeds once and fails the second
    time: [0x0x] followed by 62 hex digits. *)
Definition keyTwicePrefixed : string := "0x0x" ++ slice 2 key64.

(** A parser that accepts the strings that begin with [0x]. *)
Definition parseAddress (input : JSValue) : Exc Address :=
  match input with
  | JSStr s => if startsWith "0x" s then inr s
               else inl (ThrownError "Invalid address")
  | _ => inl (ThrownError "Invalid address input")
  end.

(** Collaborators that all answer: the pot reads [potNow] from now on, the
    signer returns [0xSIG], the submission returns [0xHASH]. *)
Definition answering (potNow : string) : Env :=
  {| accountAddressFrom := parseAddress;
     signingMessageHex := fun rawTxn => "0x" ++ rawTxn;
     rejectsPublicKey := fun _ => None;
     rejectsSignature := fun _ => None;
     buildSimple := fun _ _ _ => inr "b5e97db07fa0bd0e";
     signRawHash := fun _ _ _ _ => inr "0xSIG";
     submitSimple := fun _ _ _ => inr "0xHASH";
     waitForTransaction := fun _ h => inr h;
     view := fun _ _ => inr [potNow];
     getAccountAPTAmount := fun _ _ => inr 250000000%Z |}.

(** Collaborators that answer, except that the confirmation wait fails. *)
Definition unconfirmed (potNow : string) : Env :=
  {| accountAddressFrom := parseAddress;
     signingMessageHex := fun rawTxn => "0x" ++ rawTxn;
     rejectsPublicKey := fun _ => None;
     rejectsSignature := fun _ => None;
     buildSimple := fun _ _ _ => inr "b5e97db07fa0bd0e";
     signRawHash := fun _ _ _ _ => inr "0xSIG";
     submitSimple := fun _ _ _ => inr "0xHASH";
     waitForTransaction := fun _ _ => inl (ThrownError "Transaction timed out");
     view := fun _ _ => inr [potNow];
     getAccountAPTAmount := fun _ _ => inr 250000000%Z |}.

(** A network that is down: every remote call throws. *)
Definition down : Env :=
  {| accountAddressFrom := parseAddress;
     signingMessageHex := fun rawTxn => "0x" ++ rawTxn;
     rejectsPublicKey := fun _ => None;
     rejectsSignature := fun _ => None;
     buildSimple := fun _ _ _ => inl (ThrownError "Network Error");
     signRawHash := fun _ _ _ _ => inl (ThrownError "Network Error");
     submitSimple := fun _ _ _ => inl (ThrownError "Network Error");
     waitForTransaction := fun _ _ => inl (ThrownError "Network Error");
     view := fun _ _ => inl (ThrownError "Network Error");
     getAccountAPTAmount := fun _ _ => inl (ThrownError "Network Error") |}.

(** Collaborators that all answer, with a signer whose answer carries no
    [0x] prefix. *)
Definition unprefixedSigner : Env :=
  {| accountAddressFrom := parseAddress;
     signingMessageHex := fun rawTxn => "0x" ++ rawTxn;
     rejectsPublicKey := fun _ => None;
     rejectsSignature := fun _ => None;
     buildSimple := fun _ _ _ => inr "b5e97db07fa0bd0e";
     signRawHash := fun _ _ _ _ => inr "a1b2c3";
     submitSimple := fun _ _ _ => inr "0xHASH";
     waitForTransaction := fun _ h => inr h;
     view := fun _ _ => inr ["0"];
     getAccountAPTAmount := fun _ _ => inr 250000000%Z |}.

(** Collaborators that answer, with an [Ed25519PublicKey] constructor that
    throws on a string that is not hexadecimal. *)
Definition checkingKeys : Env :=
  {| accountAddressFrom := parseAddress;
     signingMessageHex := fun rawTxn => "0x" ++ rawTxn;
     rejectsPublicKey :=
       fun k => if isHexString k then None
                else Some (ThrownError "Hex string contains invalid hex characters.");
     rejectsSignature := fun _ => None;
     buildSimple := fun _ _ _ => inr "b5e97db07fa0bd0e";
     signRawHash := fun _ _ _ _ => inr "0xSIG";
     submitSimple := fun _ _ _ => inr "0xHASH";
     waitForTransaction := fun _ h => inr h;
     view := fun _ _ => inr ["0"];
     getAccountAPTAmount := fun _ _ => inr 250000000%Z |}.

(** A pot that reads [1000000] at the first read and [2000000] at every
    later one. *)
Definition refilled : Env :=
  {| accountAddressFrom := parseAddress;
     signingMessageHex := fun rawTxn => "0x" ++ rawTxn;
     rejectsPublicKey := fun _ => None;
     rejectsSignature := fun _ => None;
     buildSimple := fun _ _ _ => inr "b5e97db07fa0bd0e";
     signRawHash := fun _ _ _ _ => inr "0xSIG";
     submitSimple := fun _ _ _ => inr "0xHASH";
     waitForTransaction := fun _ h => inr h;
     view := fun t _ => inr [match t with O => "1000000" | S _ => "2000000" end];
     getAccountAPTAmount :=
       fun t _ => inr match t with O => 100000000%Z | S _ => 250000000%Z end |}.

(** A 64-character key that is not hexadecimal. *)
Definition keyNotHex : string := "zz" ++ slice 2 key64.

Definition emailAccount : JSValue :=
  JSObject [("type", JSStr "email"); ("address", JSStr "user@example.com")].

Definition aptosAccount (publicKeyHex : string) : JSValue :=
  JSObject [("type", JSStr "wallet"); ("chainType", JSStr "aptos");
            ("address", JSStr "0xA"); ("publicKey", JSStr publicKeyHex)].

(** An aptos-tagged record that lacks its [address]. *)
Definition aptosAccountNoAddress : JSValue :=
  JSObject [("type", JSStr "wallet"); ("chainType", JSStr "aptos");
            ("publicKey", JSStr key64)].

Definition userWith (account : JSValue) : User :=
  {| linkedAccounts := Some [emailAccount; account] |}.

(** The transfer form filled in: recipient [0xB] and the given amount. *)
Definition transferForm (amount : string) : MovementTx.UI :=
  {| MovementTx.recipientAddress := "0xB"; MovementTx.amount := amount;
     MovementTx.isLoading := false; MovementTx.txStatus := [];
     MovementTx.txHash := ""; MovementTx.walletBalance := "0";
     MovementTx.creatingWallet := false; MovementTx.addressError := "" |}.

(** The coin-flip page with the given pot on display. *)
Definition playing (pot : string) : Home.UI :=
  {| Home.choice := 1%float; Home.potBalance := pot; Home.isLoading := false;
     Home.txStatus := []; Home.lastResult := None; Home.txHash := "";
     Home.creatingWallet := false |}.

End Scenario.

(** ** Reasoning about handlers *)

(** [wp m Q w]: running [m] from the world [w] ends in a result and a world
    that satisfy [Q]. *)
Definition wp {UI A : Type} (m : M UI A) (Q : Exc A -> World UI -> Prop)
    (w : World UI) : Prop :=
  Q (fst (m w)) (snd (m w)).

(** What the transfer page displays while a confirmation wait is pending. *)
Definition waitShows (e : Call * MovementTx.UI) : Prop :=
  match fst e with
  | WaitForTransaction h =>
      MovementTx.txHash (snd e) = h
      /\ MovementTx.txStatus (snd e)
         = [Lit "Transaction submitted! Waiting for confirmation..."]
  | _ => True
  end.

(** ** src/lib/aptos-utils.ts: address display *)

Module AddressFormat.

(** The first [n] code units of [s]. *)
Fixpoint take (n : nat) (s : string) : string :=
  match n, s with
  | O, _ => EmptyString
  | S _, EmptyString => EmptyString
  | S n', String c rest => String c (take n' rest)
  end.

(** [s.slice(start, end)] for integral arguments ([end] omitted is [None]):
    a negative index counts from the end, and both are clamped to the
    string. *)
Definition sliceRange (start : Z) (stop : option Z) (s : string) : string :=
  let len := Z.of_nat (String.length s) in
  let clamp := fun i : Z => if (i <? 0)%Z then Z.max (len + i) 0 else Z.min i len in
  let from := clamp start in
  let to := match stop with Some e => clamp e | None => len end in
  take (Z.to_nat (to - from)) (JSString.slice (Z.to_nat from) s).

(** [formatAddress(address, length)], for an integral [length]. *)
Definition formatAddress (address : string) (length : Z) : string :=
  if JSString.isEmpty address then ""
  else if (Z.of_nat (String.length address) <=? length * 2)%Z then address
  else sliceRange 0 (Some length) address ++ "..."
         ++ sliceRange (- length) None address.

End AddressFormat.

(** ** The Movement transfer page with the inline logic

    The page component that precedes the one above in the sources: it
    resolves the wallet inline, cleans the public key inline and converts
    the amount with [parseInt]. *)

Module MovementTxInline.
Import JSString JSNumber.
Local Open Scope monad_scope.

(** The [useState] cells of this [MovementTxPage]. *)
Record UI : Type :=
  { recipientAddress : string;
    amount : string;
    isLoading : bool;
    txStatus : StatusLine;
    txHash : string;
    walletBalance : string }.

Definition initial : UI :=
  {| recipientAddress := ""; amount := "1"; isLoading := false; txStatus := [];
     txHash := ""; walletBalance := "0" |}.

Definition setIsLoading (v : bool) : M UI unit :=
  update (fun u => {| recipientAddress := recipientAddress u; amount := amount u;
                      isLoading := v; txStatus := txStatus u; txHash := txHash u;
                      walletBalance := walletBalance u |}).

Definition setTxStatus (v : StatusLine) : M UI unit :=
  update (fun u => {| recipientAddress := recipientAddress u; amount := amount u;
                      isLoading := isLoading u; txStatus := v; txHash := txHash u;
                      walletBalance := walletBalance u |}).

Definition setTxHash (v : string) : M UI unit :=
  update (fun u => {| recipientAddress := recipientAddress u; amount := amount u;
                      isLoading := isLoading u; txStatus := txStatus u; txHash := v;
                      walletBalance := walletBalance u |}).

Definition setWalletBalance (v : string) : M UI unit :=
  update (fun u => {| recipientAddress := recipientAddress u; amount := amount u;
                      isLoading := isLoading u; txStatus := txStatus u;
                      txHash := txHash u; walletBalance := v |}).

(** [fetchWalletBalance(address)]. *)
Definition fetchWalletBalance (env : Env) (address : string) : M UI unit :=
  tryCatch
    (result <- await (GetAccountAPTAmount (JSStr address))
                     (fun t => getAccountAPTAmount env t (JSStr address)) ;;
     setWalletBalance (amountToString result))
    (fun error => (* console.error *) setWalletBalance "0").

(** [BigInt(x)] for a number: a [RangeError] unless [x] is an integer (the
    engine's message also names the number). *)
Definition numberToBigInt (x : float) : Exc Z :=
  match Prim2SF x with
  | S754_zero _ => inr 0%Z
  | S754_finite s m e =>
      let v := Z.shiftl (if s then Z.neg m else Z.pos m) e in
      if (Z.shiftl v (- e) =? (if s then Z.neg m else Z.pos m))%Z
      then inr v
      else inl (ThrownError "The number cannot be converted to a BigInt because it is not an integer")
  | S754_infinity _ | S754_nan =>
      inl (ThrownError "The number cannot be converted to a BigInt because it is not an integer")
  end.

(** The body of the [try] of [handleTransaction], once the key has its 64
    characters. *)
Definition transfer (env : Env) (walletAddress publicKeyHex : string)
    (recipientAddress amount : string) : M UI unit :=
  address <- lift (accountAddressFrom env (JSStr walletAddress)) ;;
  recipientAddr <- lift (accountAddressFrom env (JSStr (trim recipientAddress))) ;;
  amountInOctas <- lift (numberToBigInt (parseInt amount * 100000000)%float) ;;
  let data := MovementTx.coinTransfer recipientAddr amountInOctas in
  rawTxn <- await (BuildSimple address data) (fun t => buildSimple env t address data) ;;
  let hash := signingMessageHex env rawTxn in
  rawSignature <- await (SignRawHash (JSStr walletAddress) "aptos" hash)
                        (fun t => signRawHash env t (JSStr walletAddress) "aptos" hash) ;;
  senderAuthenticator <- lift (newAuthenticator env publicKeyHex (signatureHex rawSignature)) ;;
  pending <- await (SubmitSimple rawTxn senderAuthenticator)
                   (fun t => submitSimple env t rawTxn senderAuthenticator) ;;
  setTxHash pending ;;
  setTxStatus [Lit "Transaction submitted! Waiting for confirmation..."] ;;
  executed <- await (WaitForTransaction pending) (fun t => waitForTransaction env t pending) ;;
  setTxStatus [Lit ("✅ Transaction successful! Hash: " ++ executed)] ;;
  fetchWalletBalance env walletAddress.

(** [handleTransaction()]. *)
Definition handleTransaction (env : Env) (authenticated : bool) (user : option User)
  : M UI unit :=
  match authenticated, user with
  | true, Some user =>
      match InlineResolver.resolve user with
      | None => setTxStatus [Lit "Please create a Move wallet first"]
      | Some moveWallet =>
          state <- current ;;
          if isEmpty (trim (recipientAddress state))
          then setTxStatus [Lit "Please enter a recipient address"]
          else
            let walletAddress := InlineResolver.address moveWallet in
            let publicKeyHex := InlineResolver.publicKey moveWallet in
            if isEmpty walletAddress || isEmpty publicKeyHex
            then setTxStatus [Lit "Wallet not properly configured"]
            else
              setIsLoading true ;;
              setTxStatus [] ;;
              tryFinally
                (tryCatch
                   (let publicKeyHex :=
                      if startsWith "0x" (toLowerCase publicKeyHex)
                      then slice 2 publicKeyHex else publicKeyHex in
                    let publicKeyHex :=
                      if (String.length publicKeyHex =? 66)%nat
                         && startsWith "00" publicKeyHex
                      then slice 2 publicKeyHex else publicKeyHex in
                    if negb (String.length publicKeyHex =? 64)%nat
                    then
                      setTxStatus [Lit "Invalid public key format"] ;;
                      setIsLoading false
                    else
                      transfer env walletAddress publicKeyHex
                               (recipientAddress state) (amount state))
                   (fun error =>
                      let errorMessage :=
                        match error with
                        | ThrownError message => message
                        | _ => "Transaction failed"
                        end in
                      setTxStatus [Lit ("❌ Error: " ++ errorMessage)]
                      (* console.error *)))
                (setIsLoading false)
      end
  | _, _ => setTxStatus [Lit "Please connect your wallet first"]
  end.

End MovementTxInline.

(** ** The shape of an action

    The remote calls of one action, in the order of the pipeline and each
    fed with the answer of the stage before it: a transaction is built;
    its signing message is sent to the signer under the chain tag; the
    built transaction is submitted with the signer's answer, cut by
    [signatureHex]; the hash that the submission returned is waited for;
    only reads follow. *)

Definition isRead (c : Call) : Prop :=
  match c with
  | View _ | GetAccountAPTAmount _ => True
  | _ => False
  end.

Inductive Pipeline (env : Env) : list Call -> Prop :=
| NothingSent : Pipeline env []
| Built (sender : Address) (data : EntryCall) :
    Pipeline env [BuildSimple sender data]
| Signing (sender : Address) (data : EntryCall) (rawTxn : RawTxn) (address : JSValue) :
    buildSimple env 0 sender data = inr rawTxn ->
    Pipeline env [BuildSimple sender data;
                  SignRawHash address "aptos" (signingMessageHex env rawTxn)]
| Submitting (sender : Address) (data : EntryCall) (rawTxn : RawTxn) (address : JSValue)
    (rawSignature publicKeyHex : string) :
    buildSimple env 0 sender data = inr rawTxn ->
    signRawHash env 1 address "aptos" (signingMessageHex env rawTxn) = inr rawSignature ->
    Pipeline env [BuildSimple sender data;
                  SignRawHash address "aptos" (signingMessageHex env rawTxn);
                  SubmitSimple rawTxn {| authPublicKey := publicKeyHex;
                                         authSignature := signatureHex rawSignature |}]
| Confirming (sender : Address) (data : EntryCall) (rawTxn : RawTxn) (address : JSValue)
    (rawSignature publicKeyHex pending : string) (reads : list Call) :
    buildSimple env 0 sender data = inr rawTxn ->
    signRawHash env 1 address "aptos" (signingMessageHex env rawTxn) = inr rawSignature ->
    submitSimple env 2 rawTxn {| authPublicKey := publicKeyHex;
                                 authSignature := signatureHex rawSignature |}
      = inr pending ->
    Forall isRead reads ->
    Pipeline env ([BuildSimple sender data;
                   SignRawHash address "aptos" (signingMessageHex env rawTxn);
                   SubmitSimple rawTxn {| authPublicKey := publicKeyHex;
                                          authSignature := signatureHex rawSignature |};
                   WaitForTransaction pending] ++ reads).

(** ** How an action reports its outcome *)

(** A transfer on the Movement page has passed its guards: the visitor is
    signed in, the hook resolved the wallet [w], the recipient is not blank
    and parses, both fields of [w] are truthy, and [cleanPublicKey] returned
    [key]. *)
Definition transferStarted (env : Env) (auth : bool) (user : option User)
    (u : MovementTx.UI) (w : AptosHooks.AptosWallet) (key : string) : Prop :=
  auth = true
  /\ user <> None
  /\ AptosHooks.useAptosWallet user = Some w
  /\ JSString.isEmpty (JSString.trim (MovementTx.recipientAddress u)) = false
  /\ returns (accountAddressFrom env
                (JSStr (JSString.trim (MovementTx.recipientAddress u)))) = true
  /\ JSObj.truthy (AptosHooks.address w) = true
  /\ JSObj.truthy (AptosHooks.publicKey w) = true
  /\ MovementTx.cleanPublicKeyOf (AptosHooks.publicKey w) = inr key.

(** The report of a transfer on the Movement page, given the calls [cs] it
    made and the state [final] it left, from the state [u].  One clause per
    way the handler can end: a guard that stops it, a local step that
    throws, a remote call that throws, and the confirmed transfer. *)
Definition transferReport (env : Env) (auth : bool) (user : option User)
    (u : MovementTx.UI) (cs : list Call) (final : MovementTx.UI) : Prop :=
  let recipient := JSString.trim (MovementTx.recipientAddress u) in
  let stopped := fun status : string =>
    cs = [] /\ MovementTx.txStatus final = [Lit status] in
  let failed := fun e : Thrown =>
    MovementTx.txStatus final = [Lit ("‚ùå Error: " ++ AptosUtils.getErrorMessage e)] in
  (* the guards, in the order of the source *)
  (auth = false \/ user = None -> stopped "Please connect your wallet first")
  /\ (auth = true -> user <> None -> AptosHooks.useAptosWallet user = None ->
      stopped "Please create a Move wallet first")
  /\ (forall w,
      auth = true -> user <> None -> AptosHooks.useAptosWallet user = Some w ->
      JSString.isEmpty recipient = true ->
      stopped "Please enter a recipient address"
      /\ MovementTx.addressError final = "Recipient address is required")
  /\ (forall w,
      auth = true -> user <> None -> AptosHooks.useAptosWallet user = Some w ->
      JSString.isEmpty recipient = false ->
      returns (accountAddressFrom env (JSStr recipient)) = false ->
      stopped "Invalid recipient address format"
      /\ MovementTx.addressError final = "Please enter a valid Aptos address")
  /\ (forall w,
      auth = true -> user <> None -> AptosHooks.useAptosWallet user = Some w ->
      JSString.isEmpty recipient = false ->
      returns (accountAddressFrom env (JSStr recipient)) = true ->
      JSObj.truthy (AptosHooks.address w) = false
      \/ JSObj.truthy (AptosHooks.publicKey w) = false ->
      stopped "Wallet not properly configured")
  /\ (forall w e,
      auth = true -> user <> None -> AptosHooks.useAptosWallet user = Some w ->
      JSString.isEmpty recipient = false ->
      returns (accountAddressFrom env (JSStr recipient)) = true ->
      JSObj.truthy (AptosHooks.address w) = true ->
      JSObj.truthy (AptosHooks.publicKey w) = true ->
      MovementTx.cleanPublicKeyOf (AptosHooks.publicKey w) = inl e ->
      stopped "Invalid public key format")
  (* the local steps before the build *)
  /\ (forall w key e,
      transferStarted env auth user u w key ->
      accountAddressFrom env (AptosHooks.address w) = inl e ->
      cs = [] /\ failed e /\ MovementTx.txHash final = MovementTx.txHash u)
  /\ (forall w key sender e,
      transferStarted env auth user u w key ->
      accountAddressFrom env (AptosHooks.address w) = inr sender ->
      AptosUtils.aptToOctas (JSNumber.orZero (JSNumber.parseFloat (MovementTx.amount u)))
        = inl e ->
      cs = [] /\ failed e /\ MovementTx.txHash final = MovementTx.txHash u)
  /\ (forall w key sender to octas,
      transferStarted env auth user u w key ->
      accountAddressFrom env (AptosHooks.address w) = inr sender ->
      accountAddressFrom env (JSStr recipient) = inr to ->
      AptosUtils.aptToOctas (JSNumber.orZero (JSNumber.parseFloat (MovementTx.amount u)))
        = inr octas ->
      List.hd_error cs = Some (BuildSimple sender (MovementTx.coinTransfer to octas)))
  (* the remote calls, and the authenticator between them *)
  /\ (forall sender data e,
      In (BuildSimple sender data) cs -> buildSimple env 0 sender data = inl e ->
      List.length cs = 1 /\ failed e /\ MovementTx.txHash final = MovementTx.txHash u)
  /\ (forall address chainType hash e,
      In (SignRawHash address chainType hash) cs ->
      signRawHash env 1 address chainType hash = inl e ->
      List.length cs = 2 /\ failed e /\ MovementTx.txHash final = MovementTx.txHash u)
  /\ (forall w key address chainType hash rawSignature e,
      transferStarted env auth user u w key ->
      In (SignRawHash address chainType hash) cs ->
      signRawHash env 1 address chainType hash = inr rawSignature ->
      newAuthenticator env key (signatureHex rawSignature) = inl e ->
      List.length cs = 2 /\ failed e /\ MovementTx.txHash final = MovementTx.txHash u)
  /\ (forall txn a e,
      In (SubmitSimple txn a) cs -> submitSimple env 2 txn a = inl e ->
      List.length cs = 3 /\ failed e /\ MovementTx.txHash final = MovementTx.txHash u)
  /\ (forall pending e,
      In (WaitForTransaction pending) cs -> waitForTransaction env 3 pending = inl e ->
      List.length cs = 4 /\ failed e /\ MovementTx.txHash final = pending)
  /\ (forall pending executed,
      In (WaitForTransaction pending) cs ->
      waitForTransaction env 3 pending = inr executed ->
      List.length cs = 5
      /\ MovementTx.txStatus final = [Lit ("‚úÖ Transaction successful! Hash: " ++ executed)]
      /\ MovementTx.txHash final = pending).

(** A play has passed its guards: the visitor is signed in as [usr], the
    inline resolver found the account [acct] with both fields non-empty, and
    [cleanPublicKey] returned [key]. *)
Definition playStarted (auth : bool) (user : option User)
    (usr : User) (acct : InlineResolver.AptosLinkedAccount) (key : string) : Prop :=
  auth = true
  /\ user = Some usr
  /\ InlineResolver.resolve usr = Some acct
  /\ JSString.isEmpty (InlineResolver.address acct) = false
  /\ JSString.isEmpty (InlineResolver.publicKey acct) = false
  /\ AptosUtils.cleanPublicKey (InlineResolver.publicKey acct) = inr key.

(** The same for a play; after a confirmed play the last call is the
    second read of the pot. *)
Definition playReport (env : Env) (auth : bool) (user : option User)
    (u : Home.UI) (cs : list Call) (final : Home.UI) : Prop :=
  let stopped := fun status : string =>
    cs = [] /\ Home.txStatus final = [Lit status] in
  let failed := fun e : Thrown =>
    Home.txStatus final = [Lit ("Error: " ++ AptosUtils.getErrorMessage e)]
    /\ Home.lastResult final = None in
  (* the guards, in the order of the source *)
  (auth = false \/ user = None -> stopped "Please connect your wallet first")
  /\ (forall usr,
      auth = true -> user = Some usr -> InlineResolver.resolve usr = None ->
      stopped "Please create an Aptos wallet first")
  /\ (forall usr acct,
      auth = true -> user = Some usr -> InlineResolver.resolve usr = Some acct ->
      JSString.isEmpty (InlineResolver.address acct) = true
      \/ JSString.isEmpty (InlineResolver.publicKey acct) = true ->
      stopped "Wallet not properly configured")
  /\ (forall usr acct e,
      auth = true -> user = Some usr -> InlineResolver.resolve usr = Some acct ->
      JSString.isEmpty (InlineResolver.address acct) = false ->
      JSString.isEmpty (InlineResolver.publicKey acct) = false ->
      AptosUtils.cleanPublicKey (InlineResolver.publicKey acct) = inl e ->
      stopped "Invalid public key format" /\ Home.lastResult final = None)
  (* the local step before the build *)
  /\ (forall usr acct key e,
      playStarted auth user usr acct key ->
      accountAddressFrom env (JSStr (InlineResolver.address acct)) = inl e ->
      cs = [] /\ failed e /\ Home.txHash final = Home.txHash u)
  /\ (forall usr acct key sender,
      playStarted auth user usr acct key ->
      accountAddressFrom env (JSStr (InlineResolver.address acct)) = inr sender ->
      List.hd_error cs = Some (BuildSimple sender (Home.playCall (Home.choice u))))
  (* the remote calls, and the authenticator between them *)
  /\ (forall sender data e,
      In (BuildSimple sender data) cs -> buildSimple env 0 sender data = inl e ->
      List.length cs = 1 /\ failed e /\ Home.txHash final = Home.txHash u)
  /\ (forall address chainType hash e,
      In (SignRawHash address chainType hash) cs ->
      signRawHash env 1 address chainType hash = inl e ->
      List.length cs = 2 /\ failed e /\ Home.txHash final = Home.txHash u)
  /\ (forall usr acct key address chainType hash rawSignature e,
      playStarted auth user usr acct key ->
      In (SignRawHash address chainType hash) cs ->
      signRawHash env 1 address chainType hash = inr rawSignature ->
      newAuthenticator env key (signatureHex rawSignature) = inl e ->
      List.length cs = 2 /\ failed e /\ Home.txHash final = Home.txHash u)
  /\ (forall txn a e,
      In (SubmitSimple txn a) cs -> submitSimple env 2 txn a = inl e ->
      List.length cs = 3 /\ failed e /\ Home.txHash final = Home.txHash u)
  /\ (forall pending e,
      In (WaitForTransaction pending) cs -> waitForTransaction env 3 pending = inl e ->
      List.length cs = 4 /\ failed e /\ Home.txHash final = Home.txHash u)
  /\ (forall pending executed,
      In (WaitForTransaction pending) cs ->
      waitForTransaction env 3 pending = inr executed ->
      List.length cs = 6 /\ Home.txHash final = pending)
  /\ (forall payload e,
      List.nth_error cs 5 = Some (View payload) -> view env 5 payload = inl e ->
      failed e)
  /\ (forall payload result,
      List.nth_error cs 5 = Some (View payload) -> view env 5 payload = inr result ->
      Home.lastResult final <> None).

(** ** For whom, and with what, an action calls *)

(** A call of a transfer on the Movement page, for the wallet [w] that the
    hook resolved and the form in [u]. *)
Definition transferCallFor (env : Env) (w : AptosHooks.AptosWallet) (u : MovementTx.UI)
    (c : Call) : Prop :=
  match c with
  | BuildSimple sender data =>
      accountAddressFrom env (AptosHooks.address w) = inr sender
      /\ exists recipient octas,
          accountAddressFrom env (JSStr (JSString.trim (MovementTx.recipientAddress u)))
            = inr recipient
          /\ AptosUtils.aptToOctas (JSNumber.orZero (JSNumber.parseFloat (MovementTx.amount u)))
             = inr octas
          /\ data = MovementTx.coinTransfer recipient octas
  | SignRawHash address _ _ => address = AptosHooks.address w
  | SubmitSimple _ a =>
      MovementTx.cleanPublicKeyOf (AptosHooks.publicKey w) = inr (authPublicKey a)
  | WaitForTransaction _ => True
  | View _ => False
  | GetAccountAPTAmount address => address = AptosHooks.address w
  end.

(** A call of a transfer on the Movement page with the inline logic, for the
    account [acct] resolved inline and the form in [u]. *)
Definition inlineTransferCallFor (env : Env) (acct : InlineResolver.AptosLinkedAccount)
    (u : MovementTxInline.UI) (c : Call) : Prop :=
  match c with
  | BuildSimple sender data =>
      accountAddressFrom env (JSStr (InlineResolver.address acct)) = inr sender
      /\ exists recipient octas,
          accountAddressFrom env
            (JSStr (JSString.trim (MovementTxInline.recipientAddress u))) = inr recipient
          /\ MovementTxInline.numberToBigInt
               (JSNumber.parseInt (MovementTxInline.amount u) * 100000000)%float
             = inr octas
          /\ data = MovementTx.coinTransfer recipient octas
  | SignRawHash address _ _ => address = JSStr (InlineResolver.address acct)
  | SubmitSimple _ a =>
      AptosUtils.cleanPublicKey (InlineResolver.publicKey acct) = inr (authPublicKey a)
  | WaitForTransaction _ => True
  | View _ => False
  | GetAccountAPTAmount address => address = JSStr (InlineResolver.address acct)
  end.

(** A call of a play, for the account [acct] resolved inline and the choice
    in [u]. *)
Definition playCallFor (env : Env) (acct : InlineResolver.AptosLinkedAccount)
    (u : Home.UI) (c : Call) : Prop :=
  match c with
  | BuildSimple sender data =>
      accountAddressFrom env (JSStr (InlineResolver.address acct)) = inr sender
      /\ data = Home.playCall (Home.choice u)
  | SignRawHash address _ _ => address = JSStr (InlineResolver.address acct)
  | SubmitSimple _ a =>
      AptosUtils.cleanPublicKey (InlineResolver.publicKey acct) = inr (authPublicKey a)
  | WaitForTransaction _ => True
  | View payload => payload = Home.getPotBalance
  | GetAccountAPTAmount _ => False
  end.

(** ** Polls that overlap

    The interval does not wait for a poll: the promise that
    [fetchPotBalance()] or [fetchBalance()] returns is awaited by nobody,
    so a period may begin while earlier reads are unanswered, and the
    answers may arrive in any order.  A poll is therefore split at its
    [await]. *)

(** [fetchPotBalance] up to its [await]. *)
Definition potIssue (env : Env) : M Home.UI (list string) :=
  await (View Home.getPotBalance) (fun t => view env t Home.getPotBalance).

(** [fetchPotBalance] from the answer to its read on. *)
Definition potArrives (answer : Exc (list string)) : M Home.UI unit :=
  (tryCatch
     (result <- lift answer ;;
      Home.setPotBalance (first result))
     (fun error => ret tt (* console.error *)))%monad.

(** [fetchBalance] up to its [await], for a wallet with the truthy
    [address]. *)
Definition balanceIssue (env : Env) (address : JSValue) : M BalanceHook.UI Z :=
  (BalanceHook.setLoading true ;;
   BalanceHook.setError None ;;
   accountAddress <- lift (accountAddressFrom env address) ;;
   await (GetAccountAPTAmount (JSStr accountAddress))
         (fun t => getAccountAPTAmount env t (JSStr accountAddress)))%monad.

(** [fetchBalance] from the answer to its read on; a throw before the
    read is handled by the same [catch] and [finally]. *)
Definition balanceArrives (answer : Exc Z) : M BalanceHook.UI unit :=
  (tryFinally
     (tryCatch
        (balanceOctas <- lift answer ;;
         BalanceHook.setBalance
           (AptosUtils.octasToAPT (AptosUtils.OctasString (amountToString balanceOctas))))
        (fun err =>
           let errorMessage :=
             match err with
             | ThrownError message => message
             | _ => "Failed to fetch balance"
             end in
           BalanceHook.setError (Some errorMessage) (* console.error *)))
     (BalanceHook.setLoading false))%monad.

(** What happens to a polling component: the interval fires, or the answer
    to the read that was issued at time [issued] arrives. *)
Inductive PollEvent : Type :=
| Fires
| Arrives (issued : nat).

Section Overlapping.
Context {UI A : Type}.
Variable issue : M UI A.
Variable arrives : Exc A -> M UI unit.

(** The component, and the reads that are unanswered: when each was issued
    and what the collaborator answers to it. *)
Record Polling : Type := { page : World UI; pending : list (nat * Exc A) }.

Definition answerTo (issued : nat) (p : Polling) : option (Exc A) :=
  option_map snd (List.find (fun r => Nat.eqb (fst r) issued) (pending p)).

(** A firing runs the poll up to its [await], and to its end when it
    throws before any read; an arrival runs the rest of the poll it belongs
    to on the state that is then on display. *)
Definition pollEvent (p : Polling) (e : PollEvent) : Polling :=
  match e with
  | Fires =>
      let (answer, w) := issue (page p) in
      if (List.length (trace w) =? List.length (trace (page p)))%nat
      then {| page := snd (arrives answer w); pending := pending p |}
      else {| page := w;
              pending := (pending p ++ [(List.length (trace (page p)), answer)])%list |}
  | Arrives issued =>
      match answerTo issued p with
      | Some answer =>
          {| page := snd (arrives answer (page p));
             pending := List.filter (fun r => negb (Nat.eqb (fst r) issued)) (pending p) |}
      | None => p
      end
  end.

Definition pollEvents (p : Polling) (events : list PollEvent) : Polling :=
  List.fold_left pollEvent events p.

End Overlapping.

Arguments Polling : clear implicits.

(** The pot poller of the coin-flip page, and the balance hook for a wallet
    with the truthy [address], from the state [u] and through [events]. *)
Definition potPolls (env : Env) (events : list PollEvent) (u : Home.UI)
  : Polling Home.UI (list string) :=
  pollEvents (potIssue env) potArrives
    {| page := {| ui := u; trace := [] |}; pending := [] |} events.

Definition balancePolls (env : Env) (address : JSValue) (events : list PollEvent)
    (u : BalanceHook.UI) : Polling BalanceHook.UI Z :=
  pollEvents (balanceIssue env address) balanceArrives
    {| page := {| ui := u; trace := [] |}; pending := [] |} events.

(** What is pending was answered by the collaborator, with [answer], when
    it was issued. *)
Definition answered {UI A : Type} (answer : nat -> Exc A) (p : Polling UI A) : Prop :=
  Forall (fun r => snd r = answer (fst r)) (pending p).

(** An event that publishes nothing new: a firing, or the arrival of the
    answer to a read that threw. *)
Definition fails {A : Type} (answer : nat -> Exc A) (e : PollEvent) : Prop :=
  match e with
  | Fires => True
  | Arrives k => exists thrown, answer k = inl thrown
  end.

(** The firings among [events]. *)
Definition firings (events : list PollEvent) : nat :=
  List.length (List.filter (fun e => match e with Fires => true | Arrives _ => false end)
                 events).

(** The events of [n] polls from time [t] on, each answered before the
    next begins. *)
Fixpoint oneByOne (t n : nat) : list PollEvent :=
  match n with
  | O => []
  | S n' => Fires :: Arrives t :: oneByOne (S t) n'
  end.

(** Decimal digits only. *)
Fixpoint allDecimalDigits (s : string) : bool :=
  match s with
  | EmptyString => true
  | String c rest =>
      (48 <=? nat_of_ascii c)%nat && (nat_of_ascii c <=? 57)%nat && allDecimalDigits rest
  end.

(** * Properties *)

Section StringFacts.
Import JSString.

Lemma length_slice (n : nat) (s : string) :
  String.length (slice n s) = String.length s - n.
Proof.
  revert s; induction n as [|n IH]; intros s.
  - simpl. lia.
  - destruct s as [|c s]; simpl; [reflexivity | apply IH].
Qed.

Lemma hex_lower_not_x (c : ascii) :
  isHexDigit c = true -> lowerChar c <> "x"%char.
Proof.
  destruct c as [[] [] [] [] [] [] [] []]; vm_compute; congruence.
Qed.

(** A string of hex digits never carries the [0x] marker. *)
Lemma hex_not_prefixed (s : string) :
  isHexString s = true -> startsWith "0x" (toLowerCase s) = false.
Proof.
  destruct s as [|c1 [|c2 s]]; cbn [isHexString toLowerCase startsWith];
    intros H; try reflexivity.
  - apply andb_false_r.
  - apply andb_prop in H as [_ H]. apply andb_prop in H as [H2 _].
    destruct (Ascii.eqb "x" (lowerChar c2)) eqn:E.
    + apply Ascii.eqb_eq in E. exfalso.
      apply (hex_lower_not_x c2 H2). symmetry. exact E.
    + rewrite andb_false_r. reflexivity.
Qed.

Lemma zero_zero_not_prefixed (s : string) :
  startsWith "00" s = true -> startsWith "0x" (toLowerCase s) = false.
Proof.
  destruct s as [|c1 [|c2 s]]; cbn [toLowerCase startsWith]; try discriminate.
  - rewrite andb_false_r. discriminate.
  - intros H. apply andb_prop in H as [_ H]. apply andb_prop in H as [H _].
    apply Ascii.eqb_eq in H. subst c2. apply andb_false_r.
Qed.

End StringFacts.

Section CleanPublicKey.
Import JSString AptosUtils.

Lemma cleanPublicKey_stripped (s : string) :
  cleanPublicKey s =
    if (String.length (strippedKey s) =? 64)%nat
    then inr (strippedKey s)
    else inl (ThrownError ("Invalid public key length: "
                             ++ ofNat (String.length (strippedKey s))
                             ++ ", expected 64")).
Proof.
  unfold cleanPublicKey, strippedKey.
  destruct (startsWith "0x" (toLowerCase s));
    match goal with
    | |- context [(?a =? 66)%nat && ?b] => destruct ((a =? 66)%nat && b)
    end;
    match goal with
    | |- context [(?a =? 64)%nat] => destruct (a =? 64)%nat
    end; reflexivity.
Qed.

Lemma cleanPublicKey_length (s r : string) :
  cleanPublicKey s = inr r -> String.length r = 64.
Proof.
  rewrite cleanPublicKey_stripped.
  destruct (String.length (strippedKey s) =? 64)%nat eqn:E; [|discriminate].
  intros [= <-]. apply Nat.eqb_eq. exact E.
Qed.

Lemma cleanPublicKey_throws (s : string) :
  String.length (strippedKey s) <> 64 -> exists e, cleanPublicKey s = inl e.
Proof.
  intros H. rewrite cleanPublicKey_stripped.
  destruct (String.length (strippedKey s) =? 64)%nat eqn:E.
  - apply Nat.eqb_eq in E. contradiction.
  - eexists. reflexivity.
Qed.

Lemma cleanPublicKey_fixed (r : string) :
  String.length r = 64 -> startsWith "0x" (toLowerCase r) = false ->
  cleanPublicKey r = inr r.
Proof.
  intros L P. unfold cleanPublicKey. rewrite P, L.
  change ((64 =? 66)%nat && startsWith "00" r) with false.
  cbv iota. rewrite L. reflexivity.
Qed.

End CleanPublicKey.

(** ** Key normalisation *)

(** C5 (amended): [cleanPublicKey] is idempotent on every input on which it
    succeeds with a result that does not itself begin with [0x] or [0X] --
    in particular whenever the result consists of hex digits: applying it
    again returns the same 64-character string.  And on every 66-character
    string that begins with ["00"] it returns the last 64 characters. *)
Theorem cleanPublicKey_idempotent_unprefixed :
  (forall s r : string,
      AptosUtils.cleanPublicKey s = inr r ->
      JSString.startsWith "0x" (JSString.toLowerCase r) = false ->
      String.length r = 64 /\ AptosUtils.cleanPublicKey r = inr r)
  /\ (forall s r : string,
      AptosUtils.cleanPublicKey s = inr r ->
      JSString.isHexString r = true ->
      AptosUtils.cleanPublicKey r = inr r)
  /\ (forall s : string,
      String.length s = 66 ->
      JSString.startsWith "00" s = true ->
      AptosUtils.cleanPublicKey s = inr (JSString.lastChars 64 s)).
Proof.
  split; [|split].
  - intros s r H P. pose proof (cleanPublicKey_length s r H) as L.
    split; [exact L | apply cleanPublicKey_fixed; assumption].
  - intros s r H X. apply cleanPublicKey_fixed.
    + exact (cleanPublicKey_length s r H).
    + apply hex_not_prefixed. exact X.
  - intros s L Z. unfold AptosUtils.cleanPublicKey, JSString.lastChars.
    rewrite (zero_zero_not_prefixed s Z), L, Z.
    change ((66 =? 66)%nat && true) with true. cbv iota.
    rewrite length_slice, L. reflexivity.
Qed.

Lemma cleanPublicKey_idempotent_unprefixed_witness :
  AptosUtils.cleanPublicKey Scenario.key64 = inr Scenario.key64
  /\ AptosUtils.cleanPublicKey Scenario.key66 = inr (JSString.lastChars 64 Scenario.key66).
Proof.
  split.
  - apply (proj1 (proj2 cleanPublicKey_idempotent_unprefixed)
             ("0x" ++ Scenario.key64)%string Scenario.key64); reflexivity.
  - apply (proj2 (proj2 cleanPublicKey_idempotent_unprefixed) Scenario.key66);
      reflexivity.
Defined.

(** C5, as stated, fails: on [0x0x] followed by 62 hex digits the
    normalisation succeeds, and applied to its own result it throws. *)
Lemma cleanPublicKey_not_idempotent :
  AptosUtils.cleanPublicKey Scenario.keyTwicePrefixed
    = inr ("0x" ++ JSString.slice 2 Scenario.key64)%string
  /\ AptosUtils.cleanPublicKey ("0x" ++ JSString.slice 2 Scenario.key64)%string
    = inl (ThrownError "Invalid public key length: 62, expected 64").
Proof. split; reflexivity. Qed.

(** ** Address validation *)

Lemma isValidAddress_run (env : Env) (address : string) :
  isValidAddress env address
  = inr (returns (accountAddressFrom env (JSStr address))).
Proof.
  unfold isValidAddress, Exn.tryCatch, Exn.bind, returns.
  destruct (accountAddressFrom env (JSStr address)); reflexivity.
Qed.

(** C8: [isValidAddress] never throws: it returns [true] when the address
    parser accepts the string and [false] when the parser throws. *)
Theorem isValidAddress_total (env : Env) (address : string) :
  isValidAddress env address
    = inr (returns (accountAddressFrom env (JSStr address)))
  /\ (forall a, accountAddressFrom env (JSStr address) = inr a ->
             isValidAddress env address = inr true)
  /\ (forall e, accountAddressFrom env (JSStr address) = inl e ->
             isValidAddress env address = inr false).
Proof.
  split; [apply isValidAddress_run|].
  split; intros x H; rewrite isValidAddress_run, H; reflexivity.
Qed.

Lemma isValidAddress_total_witness :
  isValidAddress (Scenario.answering "0") "0xB" = inr true
  /\ isValidAddress (Scenario.answering "0") "not an address" = inr false.
Proof.
  split.
  - exact (proj1 (proj2 (isValidAddress_total (Scenario.answering "0") "0xB"))
             "0xB" eq_refl).
  - exact (proj2 (proj2 (isValidAddress_total (Scenario.answering "0") "not an address"))
             (ThrownError "Invalid address") eq_refl).
Defined.

(** ** The account resolver *)

(** The inline resolver of the pages fails closed: what it returns are the
    two string fields of the first record tagged ["aptos"], and when that
    record lacks one of them as a string it returns nothing. *)
Theorem inline_resolver_fails_closed (user : User) :
  (forall acct : InlineResolver.AptosLinkedAccount,
      InlineResolver.resolve user = Some acct ->
      exists accounts record,
        linkedAccounts user = Some accounts
        /\ List.find hasAptosChainType accounts = Some record
        /\ JSObj.getProperty "address" record = JSStr (InlineResolver.address acct)
        /\ JSObj.getProperty "publicKey" record = JSStr (InlineResolver.publicKey acct))
  /\ (forall accounts record,
         linkedAccounts user = Some accounts ->
         List.find hasAptosChainType accounts = Some record ->
         JSObj.isString (JSObj.getProperty "address" record)
         && JSObj.isString (JSObj.getProperty "publicKey" record) = false ->
         InlineResolver.resolve user = None).
Proof.
  unfold InlineResolver.resolve, InlineResolver.isAptosAccount. split.
  - intros acct H.
    destruct (linkedAccounts user) as [accounts|]; [|discriminate].
    destruct (List.find hasAptosChainType accounts) as [record|] eqn:F; [|discriminate].
    exists accounts, record.
    destruct (hasAptosChainType record && JSObj.hasProperty "address" record
              && JSObj.hasProperty "publicKey" record); [|discriminate].
    destruct (JSObj.getProperty "address" record); try discriminate.
    destruct (JSObj.getProperty "publicKey" record); try discriminate.
    injection H as <-. repeat split; try reflexivity. exact F.
  - intros accounts record A F S. rewrite A, F.
    destruct (hasAptosChainType record && JSObj.hasProperty "address" record
              && JSObj.hasProperty "publicKey" record); [|reflexivity].
    destruct (JSObj.getProperty "address" record); try reflexivity.
    destruct (JSObj.getProperty "publicKey" record); try reflexivity.
    discriminate S.
Qed.

Lemma inline_resolver_fails_closed_witness :
  InlineResolver.resolve (Scenario.userWith Scenario.aptosAccountNoAddress) = None.
Proof.
  apply (proj2 (inline_resolver_fails_closed
                  (Scenario.userWith Scenario.aptosAccountNoAddress))
           [Scenario.emailAccount; Scenario.aptosAccountNoAddress]
           Scenario.aptosAccountNoAddress); reflexivity.
Defined.

(** C1 at a record tagged ["aptos"] that lacks its [address]: the hook
    returns a pair whose [address] is [undefined], where the inline
    resolver of the pages reports no account. *)
Theorem useAptosWallet_partial_pair :
  AptosHooks.useAptosWallet (Some (Scenario.userWith Scenario.aptosAccountNoAddress))
    = Some {| AptosHooks.address := JSUndefined;
              AptosHooks.publicKey := JSStr Scenario.key64 |}
  /\ option_map AptosHooks.fullyPopulated
       (AptosHooks.useAptosWallet (Some (Scenario.userWith Scenario.aptosAccountNoAddress)))
     = Some false
  /\ InlineResolver.resolve (Scenario.userWith Scenario.aptosAccountNoAddress) = None.
Proof. repeat split. Qed.

(** ** The interval loop and the pollers *)

Section Interval.
Context {UI : Type}.
Variable callback : M UI unit.
Variable c : Call.
Hypothesis callback_returns : forall w, fst (callback w) = inr tt.
Hypothesis callback_calls :
  forall w, List.map fst (trace (snd (callback w))) = (List.map fst (trace w) ++ [c])%list.

Lemma everyInterval_step (n : nat) (w : World UI) :
  everyInterval (S n) callback w = everyInterval n callback (snd (callback w)).
Proof.
  cbn [everyInterval]. unfold bind.
  pose proof (callback_returns w) as R.
  destruct (callback w) as [[e|[]] w']; simpl in *; [discriminate | reflexivity].
Qed.

Lemma everyInterval_last (n : nat) (w : World UI) :
  everyInterval (S n) callback w = callback (snd (everyInterval n callback w)).
Proof.
  revert w; induction n as [|n IH]; intros w.
  - rewrite everyInterval_step. cbn [everyInterval]. unfold ret. cbn [snd].
    pose proof (callback_returns w) as R.
    destruct (callback w) as [[e|[]] w']; simpl in *; [discriminate | reflexivity].
  - rewrite everyInterval_step. rewrite IH. rewrite <- everyInterval_step.
    reflexivity.
Qed.

Lemma everyInterval_runs (n : nat) (w : World UI) :
  fst (everyInterval n callback w) = inr tt
  /\ List.map fst (trace (snd (everyInterval n callback w)))
     = (List.map fst (trace w) ++ List.repeat c n)%list.
Proof.
  revert w; induction n as [|n IH]; intros w.
  - simpl. rewrite app_nil_r. split; reflexivity.
  - rewrite everyInterval_step. destruct (IH (snd (callback w))) as [R T].
    split; [exact R|]. rewrite T, callback_calls, <- app_assoc. reflexivity.
Qed.

End Interval.

Section Pollers.
Variable env : Env.

Lemma fetchPotBalance_run (w : World Home.UI) :
  Home.fetchPotBalance env w
  = (inr tt,
     {| ui := match view env (List.length (trace w)) Home.getPotBalance with
              | inr result => ui (snd (Home.setPotBalance (first result) w))
              | inl _ => ui w
              end;
        trace := trace w ++ [(View Home.getPotBalance, ui w)] |}).
Proof.
  unfold Home.fetchPotBalance, tryCatch, bind, await, Home.setPotBalance, update, ret.
  destruct (view env (List.length (trace w)) Home.getPotBalance); reflexivity.
Qed.

Lemma fetchPotBalance_returns (w : World Home.UI) :
  fst (Home.fetchPotBalance env w) = inr tt.
Proof. rewrite fetchPotBalance_run. reflexivity. Qed.

Lemma fetchPotBalance_calls (w : World Home.UI) :
  List.map fst (trace (snd (Home.fetchPotBalance env w)))
  = (List.map fst (trace w) ++ [View Home.getPotBalance])%list.
Proof. rewrite fetchPotBalance_run. cbn [snd trace]. apply map_app. Qed.

Lemma fetchWalletBalance_run (address : JSValue) (w : World MovementTx.UI) :
  MovementTx.fetchWalletBalance env address w
  = (inr tt,
     {| ui := ui (snd (MovementTx.setWalletBalance
                         match getAccountAPTAmount env (List.length (trace w)) address with
                         | inr result => amountToString result
                         | inl _ => "0"
                         end w));
        trace := trace w ++ [(GetAccountAPTAmount address, ui w)] |}).
Proof.
  unfold MovementTx.fetchWalletBalance, tryCatch, bind, await,
    MovementTx.setWalletBalance, update.
  destruct (getAccountAPTAmount env (List.length (trace w)) address); reflexivity.
Qed.

Lemma fetchBalance_returns (wallet : option AptosHooks.AptosWallet)
    (w : World BalanceHook.UI) :
  fst (BalanceHook.fetchBalance env wallet w) = inr tt.
Proof.
  unfold BalanceHook.fetchBalance.
  destruct (BalanceHook.walletAddress wallet) as [address|]; [|reflexivity].
  unfold tryFinally, tryCatch, bind, await, lift, BalanceHook.setLoading,
    BalanceHook.setError, BalanceHook.setBalance, update.
  cbn [ui trace].
  destruct (accountAddressFrom env address) as [e|a]; [reflexivity|].
  destruct (getAccountAPTAmount env _ (JSStr a)); reflexivity.
Qed.

Lemma fetchBalance_calls (wallet : option AptosHooks.AptosWallet)
    (address : JSValue) (a : Address) (w : World BalanceHook.UI) :
  BalanceHook.walletAddress wallet = Some address ->
  accountAddressFrom env address = inr a ->
  List.map fst (trace (snd (BalanceHook.fetchBalance env wallet w)))
  = (List.map fst (trace w) ++ [GetAccountAPTAmount (JSStr a)])%list.
Proof.
  intros W A. unfold BalanceHook.fetchBalance. rewrite W.
  unfold tryFinally, tryCatch, bind, await, lift, BalanceHook.setLoading,
    BalanceHook.setError, BalanceHook.setBalance, update.
  cbn [ui trace]. rewrite A.
  destruct (getAccountAPTAmount env _ (JSStr a)); cbn [snd trace]; apply map_app.
Qed.

End Pollers.

(** C9: whatever the collaborators answer -- any poll may throw -- the
    polling loops return normally and every scheduled poll is made: after
    [ticks] periods the pot poller has issued [ticks + 1] reads; the balance
    hook never lets an error escape a poll either, and issues one read per
    period once the wallet address parses. *)
Theorem pollers_survive_errors (env : Env) (ticks : nat) :
  (forall u : Home.UI,
      fst (run (Home.pollPot env true ticks) u) = inr tt
      /\ calls (Home.pollPot env true ticks) u
         = List.repeat (View Home.getPotBalance) (S ticks))
  /\ (forall (wallet : option AptosHooks.AptosWallet) (u : BalanceHook.UI),
      fst (run (BalanceHook.pollBalance env wallet ticks) u) = inr tt
      /\ forall address a,
          BalanceHook.walletAddress wallet = Some address ->
          accountAddressFrom env address = inr a ->
          calls (BalanceHook.pollBalance env wallet ticks) u
          = List.repeat (GetAccountAPTAmount (JSStr a)) (S ticks)).
Proof.
  split.
  - intros u.
    pose proof (everyInterval_runs (Home.fetchPotBalance env) (View Home.getPotBalance)
                  (fetchPotBalance_returns env) (fetchPotBalance_calls env)) as R.
    assert (E : run (Home.pollPot env true ticks) u
                = everyInterval (S ticks) (Home.fetchPotBalance env)
                    {| ui := u; trace := [] |}) by reflexivity.
    unfold calls. rewrite E.
    exact (R (S ticks) {| ui := u; trace := [] |}).
  - intros wallet u.
    assert (E : run (BalanceHook.pollBalance env wallet ticks) u
                = everyInterval (S ticks) (BalanceHook.fetchBalance env wallet)
                    {| ui := u; trace := [] |}) by reflexivity.
    unfold calls. rewrite E. split.
    + revert u E. generalize (S ticks) as n. intros n u _.
      generalize ({| ui := u; trace := [] |}) as w.
      induction n as [|n IH]; intros w; [reflexivity|].
      cbn [everyInterval]. unfold bind.
      pose proof (fetchBalance_returns env wallet w) as F.
      destruct (BalanceHook.fetchBalance env wallet w) as [[e|[]] w'];
        simpl in F; [discriminate | apply IH].
    + intros address a W A.
      apply (everyInterval_runs (BalanceHook.fetchBalance env wallet)
               (GetAccountAPTAmount (JSStr a))
               (fetchBalance_returns env wallet)
               (fun w => fetchBalance_calls env wallet address a w W A)).
Qed.

Lemma pollers_survive_errors_witness :
  calls (Home.pollPot Scenario.down true 3) Home.initial
  = List.repeat (View Home.getPotBalance) 4
  /\ calls (BalanceHook.pollBalance Scenario.down
              (Some {| AptosHooks.address := JSStr "0xA";
                       AptosHooks.publicKey := JSStr Scenario.key64 |}) 3)
       BalanceHook.initial
     = List.repeat (GetAccountAPTAmount (JSStr "0xA")) 4.
Proof.
  split.
  - exact (proj2 (proj1 (pollers_survive_errors Scenario.down 3) Home.initial)).
  - exact (proj2 (proj2 (pollers_survive_errors Scenario.down 3)
                    (Some {| AptosHooks.address := JSStr "0xA";
                             AptosHooks.publicKey := JSStr Scenario.key64 |})
                    BalanceHook.initial)
             (JSStr "0xA") "0xA" eq_refl eq_refl).
Defined.

(** C10: the two pollers differ on the error branch.  A wallet-balance read
    that throws makes [fetchWalletBalance] publish ["0"], whatever balance
    was on display; a pot read that throws makes [fetchPotBalance] leave the
    whole state, and so the pot on display, as it was.  Neither lets the
    error escape. *)
Theorem pollers_disagree_on_error (env : Env) :
  (forall (address : JSValue) (w : World MovementTx.UI) (e : Thrown),
      getAccountAPTAmount env (List.length (trace w)) address = inl e ->
      fst (MovementTx.fetchWalletBalance env address w) = inr tt
      /\ MovementTx.walletBalance (ui (snd (MovementTx.fetchWalletBalance env address w)))
         = "0")
  /\ (forall (w : World Home.UI) (e : Thrown),
      view env (List.length (trace w)) Home.getPotBalance = inl e ->
      fst (Home.fetchPotBalance env w) = inr tt
      /\ ui (snd (Home.fetchPotBalance env w)) = ui w).
Proof.
  split.
  - intros address w e H. rewrite fetchWalletBalance_run, H. split; reflexivity.
  - intros w e H. rewrite fetchPotBalance_run, H. split; reflexivity.
Qed.

Lemma pollers_disagree_on_error_witness :
  MovementTx.walletBalance
    (finalUI (MovementTx.fetchWalletBalance Scenario.down (JSStr "0xA"))
       (ui (snd (run (MovementTx.fetchWalletBalance (Scenario.answering "0") (JSStr "0xA"))
                   MovementTx.initial))))
  = "0"
  /\ Home.potBalance
       (finalUI (Home.fetchPotBalance Scenario.down)
          (ui (snd (run (Home.fetchPotBalance (Scenario.answering "2000000"))
                      Home.initial))))
     = "2000000".
Proof.
  split.
  - exact (proj2 (proj1 (pollers_disagree_on_error Scenario.down) (JSStr "0xA")
                    {| ui := ui (snd (run (MovementTx.fetchWalletBalance
                                             (Scenario.answering "0") (JSStr "0xA"))
                                        MovementTx.initial));
                       trace := [] |}
                    (ThrownError "Network Error") eq_refl)).
  - exact (f_equal Home.potBalance
             (proj2 (proj2 (pollers_disagree_on_error Scenario.down)
                       {| ui := ui (snd (run (Home.fetchPotBalance
                                                (Scenario.answering "2000000"))
                                           Home.initial));
                          trace := [] |}
                       (ThrownError "Network Error") eq_refl))).
Defined.

(** ** Rules for running a handler step by step *)

Section WpRules.
Context {UI : Type}.

Lemma wp_ret {A : Type} (x : A) (Q : Exc A -> World UI -> Prop) (w : World UI) :
  Q (inr x) w -> wp (ret x) Q w.
Proof. exact (fun H => H). Qed.

Lemma wp_lift {A : Type} (x : Exc A) (Q : Exc A -> World UI -> Prop) (w : World UI) :
  Q x w -> wp (lift x) Q w.
Proof. exact (fun H => H). Qed.

Lemma wp_current (Q : Exc UI -> World UI -> Prop) (w : World UI) :
  Q (inr (ui w)) w -> wp current Q w.
Proof. exact (fun H => H). Qed.

Lemma wp_update (f : UI -> UI) (Q : Exc unit -> World UI -> Prop) (w : World UI) :
  Q (inr tt) {| ui := f (ui w); trace := trace w |} -> wp (update f) Q w.
Proof. exact (fun H => H). Qed.

Lemma wp_await {A : Type} (c : Call) (answer : nat -> Exc A)
    (Q : Exc A -> World UI -> Prop) (w : World UI) :
  Q (answer (List.length (trace w)))
    {| ui := ui w; trace := trace w ++ [(c, ui w)] |} ->
  wp (await c answer) Q w.
Proof. exact (fun H => H). Qed.

Lemma wp_bind {A B : Type} (m : M UI A) (k : A -> M UI B)
    (Q : Exc B -> World UI -> Prop) (w : World UI) :
  wp m (fun r w' => match r with
                    | inr x => wp (k x) Q w'
                    | inl e => Q (inl e) w'
                    end) w ->
  wp (bind m k) Q w.
Proof. unfold wp, bind. destruct (m w) as [[e|x] w']; exact (fun H => H). Qed.

Lemma wp_tryCatch {A : Type} (body : M UI A) (handler : Thrown -> M UI A)
    (Q : Exc A -> World UI -> Prop) (w : World UI) :
  wp body (fun r w' => match r with
                       | inr x => Q (inr x) w'
                       | inl e => wp (handler e) Q w'
                       end) w ->
  wp (tryCatch body handler) Q w.
Proof. unfold wp, tryCatch. destruct (body w) as [[e|x] w']; exact (fun H => H). Qed.

Lemma wp_tryFinally {A : Type} (body : M UI A) (final : M UI unit)
    (Q : Exc A -> World UI -> Prop) (w : World UI) :
  wp body (fun r w' =>
             wp final (fun r' w'' => match r' with
                                     | inr _ => Q r w''
                                     | inl e => Q (inl e) w''
                                     end) w') w ->
  wp (tryFinally body final) Q w.
Proof.
  unfold wp, tryFinally. destruct (body w) as [r w']. cbn [fst snd].
  destruct (final w') as [[e|x] w'']; exact (fun H => H).
Qed.

End WpRules.

Ltac norm :=
  cbv beta iota zeta;
  cbn [ui trace snd fst List.map app List.length negb orb andb JSObj.truthy
       MovementTx.recipientAddress MovementTx.amount MovementTx.isLoading
       MovementTx.txStatus MovementTx.txHash MovementTx.walletBalance
       MovementTx.creatingWallet MovementTx.addressError
       Home.choice Home.potBalance Home.isLoading Home.txStatus Home.lastResult
       Home.txHash Home.creatingWallet].

Ltac innermost x :=
  lazymatch x with
  | context [match ?y with _ => _ end] => innermost y
  | _ => x
  end.

(** A branch point: follow a hypothesis that settles it, else split. *)
Ltac case_on x :=
  let y := innermost x in
  first [ match goal with H : y = _ |- _ => rewrite H end
        | match goal with
          | H : ?t = _ |- _ =>
              lazymatch y with context [t] => rewrite H end
          end
        | destruct y eqn:? ].

Ltac head_of m :=
  lazymatch m with
  | ?f _ => head_of f
  | _ => m
  end.

Ltac wp_step :=
  rewrite ?isValidAddress_run;
  lazymatch goal with
  | |- wp (bind _ _) _ _ => apply wp_bind
  | |- wp (ret _) _ _ => apply wp_ret
  | |- wp (lift _) _ _ => apply wp_lift
  | |- wp (update _) _ _ => apply wp_update
  | |- wp current _ _ => apply wp_current
  | |- wp (await _ _) _ _ => apply wp_await
  | |- wp (tryCatch _ _) _ _ => apply wp_tryCatch
  | |- wp (tryFinally _ _) _ _ => apply wp_tryFinally
  | |- wp (match ?x with _ => _ end) _ _ => case_on x
  | |- wp ?m _ _ => let h := head_of m in unfold h
  | |- match ?x with _ => _ end => case_on x
  end; norm.

Ltac wp_run := repeat wp_step.

Ltac each_event :=
  repeat first [ apply Forall_nil | apply Forall_cons ]; try exact I.

Lemma newAuthenticator_fields (env : Env) (k s : string) (a : Authenticator) :
  newAuthenticator env k s = inr a ->
  a = {| authPublicKey := k; authSignature := s |}.
Proof.
  unfold newAuthenticator.
  destruct (rejectsPublicKey env k); [discriminate|].
  destruct (rejectsSignature env s); [discriminate|].
  intros [= <-]. reflexivity.
Qed.

Ltac authenticators :=
  repeat match goal with
         | N : newAuthenticator _ _ _ = inr _ |- _ =>
             apply newAuthenticator_fields in N; subst
         end.

Ltac pipeline :=
  authenticators;
  first [ apply NothingSent
        | apply Built
        | eapply Signing; eassumption
        | eapply Submitting; eassumption
        | eapply Confirming; [eassumption | eassumption | eassumption | each_event] ].

(** ** The transfer page, step by step *)

Lemma handleTransaction_wait (env : Env) (auth : bool) (user : option User)
    (u : MovementTx.UI) :
  wp (MovementTx.handleTransaction env auth user)
     (fun _ w => Forall waitShows (trace w)) {| ui := u; trace := [] |}.
Proof. wp_run; each_event; split; reflexivity. Qed.

Lemma handleTransaction_pipeline (env : Env) (auth : bool) (user : option User)
    (u : MovementTx.UI) :
  wp (MovementTx.handleTransaction env auth user)
     (fun _ w => Pipeline env (List.map fst (trace w))) {| ui := u; trace := [] |}.
Proof. wp_run; pipeline. Qed.

Lemma handleTransaction_invalid_key (env : Env) (auth : bool) (user : option User)
    (u : MovementTx.UI) (w : AptosHooks.AptosWallet) (key : string) :
  AptosHooks.useAptosWallet user = Some w ->
  AptosHooks.publicKey w = JSStr key ->
  String.length (strippedKey key) <> 64 ->
  wp (MovementTx.handleTransaction env auth user)
     (fun r w' => r = inr tt /\ trace w' = []) {| ui := u; trace := [] |}.
Proof.
  intros W K L. destruct (cleanPublicKey_throws key L) as [e E].
  assert (E' : MovementTx.cleanPublicKeyOf (AptosHooks.publicKey w) = inl e)
    by (rewrite K; exact E).
  assert (E'' : MovementTx.cleanPublicKeyOf (JSStr key) = inl e) by exact E.
  wp_run; split; reflexivity.
Qed.

Lemma handleTransaction_invalid_key_status (env : Env) (user : User)
    (u : MovementTx.UI) (w : AptosHooks.AptosWallet) (key : string) :
  AptosHooks.useAptosWallet (Some user) = Some w ->
  AptosHooks.publicKey w = JSStr key ->
  String.length (strippedKey key) <> 64 ->
  JSString.isEmpty (JSString.trim (MovementTx.recipientAddress u)) = false ->
  returns (accountAddressFrom env
             (JSStr (JSString.trim (MovementTx.recipientAddress u)))) = true ->
  JSObj.truthy (AptosHooks.address w) = true ->
  JSString.isEmpty key = false ->
  wp (MovementTx.handleTransaction env true (Some user))
     (fun r w' =>
        MovementTx.txStatus (ui w') = [Lit "Invalid public key format"]
        /\ MovementTx.isLoading (ui w') = false)
     {| ui := u; trace := [] |}.
Proof.
  intros W K L R V A N. destruct (cleanPublicKey_throws key L) as [e E].
  assert (E' : MovementTx.cleanPublicKeyOf (JSStr key) = inl e) by exact E.
  wp_run; split; reflexivity.
Qed.

(** ** The coin-flip page, step by step *)

Lemma handlePlay_pipeline (env : Env) (auth : bool) (user : option User) (u : Home.UI) :
  wp (Home.handlePlay env auth user)
     (fun _ w => Pipeline env (List.map fst (trace w))) {| ui := u; trace := [] |}.
Proof. wp_run; pipeline. Qed.

Lemma handlePlay_invalid_key (env : Env) (auth : bool) (user : User) (u : Home.UI)
    (acct : InlineResolver.AptosLinkedAccount) :
  InlineResolver.resolve user = Some acct ->
  String.length (strippedKey (InlineResolver.publicKey acct)) <> 64 ->
  wp (Home.handlePlay env auth (Some user))
     (fun r w' => r = inr tt /\ trace w' = []) {| ui := u; trace := [] |}.
Proof.
  intros R L. destruct (cleanPublicKey_throws _ L) as [e E].
  wp_run; split; reflexivity.
Qed.

Lemma handlePlay_invalid_key_status (env : Env) (user : User) (u : Home.UI)
    (acct : InlineResolver.AptosLinkedAccount) :
  InlineResolver.resolve user = Some acct ->
  String.length (strippedKey (InlineResolver.publicKey acct)) <> 64 ->
  JSString.isEmpty (InlineResolver.address acct) = false ->
  JSString.isEmpty (InlineResolver.publicKey acct) = false ->
  wp (Home.handlePlay env true (Some user))
     (fun r w' =>
        Home.txStatus (ui w') = [Lit "Invalid public key format"]
        /\ Home.isLoading (ui w') = false)
     {| ui := u; trace := [] |}.
Proof.
  intros R L A N. destruct (cleanPublicKey_throws _ L) as [e E].
  wp_run; split; reflexivity.
Qed.

(** ** Signature normalisation *)

(** The submission of a pipeline carries the answer that the signer gave,
    at the second call, to the signing message of the submitted
    transaction, without its first two code units. *)
Lemma pipeline_submission (env : Env) (cs : list Call) (txn : RawTxn) (a : Authenticator) :
  Pipeline env cs ->
  In (SubmitSimple txn a) cs ->
  exists address rawSignature,
    In (SignRawHash address "aptos" (signingMessageHex env txn)) cs
    /\ signRawHash env 1 address "aptos" (signingMessageHex env txn) = inr rawSignature
    /\ authSignature a = signatureHex rawSignature.
Proof.
  intros P H. destruct P as [ | sender data | sender data rawTxn address B
                            | sender data rawTxn address rawSignature key B S
                            | sender data rawTxn address rawSignature key pending reads
                                B S U R ].
  - destruct H.
  - destruct H as [H|[]]; discriminate H.
  - destruct H as [H|[H|[]]]; discriminate H.
  - destruct H as [H|[H|[H|[]]]]; try discriminate H.
    injection H as <- <-. exists address, rawSignature.
    split; [right; left; reflexivity|]. split; [exact S | reflexivity].
  - cbn [app In] in H |- *.
    destruct H as [H|[H|[H|[H|H]]]]; try discriminate H.
    + injection H as <- <-. exists address, rawSignature.
      split; [right; left; reflexivity|]. split; [exact S | reflexivity].
    + exfalso. exact (proj1 (Forall_forall _ _) R _ H).
Qed.

(** C2: the handlers cut the first two code units off the signer's answer
    without looking at them ([rawSignature.slice(2)]).  A leading [0x] is
    removed; so are the first two characters of any other answer.  Every
    submission of the transfer page and of the coin-flip page carries the
    answer that the signer gave in this run to the signing message of the
    submitted transaction, cut in this way; and with a signer that answers
    [a1b2c3], which has no prefix, both pages submit the signature [b2c3]
    where the raw signature was to be left unchanged. *)
Theorem signature_is_cut_unconditionally :
  (forall raw : string, signatureHex ("0x" ++ raw) = raw)
  /\ (forall (c1 c2 : ascii) (rest : string),
         signatureHex (String c1 (String c2 rest)) = rest)
  /\ (forall (env : Env) (auth : bool) (user : option User) (u : MovementTx.UI)
             (txn : RawTxn) (a : Authenticator),
         In (SubmitSimple txn a) (calls (MovementTx.handleTransaction env auth user) u) ->
         exists address rawSignature,
           In (SignRawHash address "aptos" (signingMessageHex env txn))
              (calls (MovementTx.handleTransaction env auth user) u)
           /\ signRawHash env 1 address "aptos" (signingMessageHex env txn)
              = inr rawSignature
           /\ authSignature a = signatureHex rawSignature)
  /\ (forall (env : Env) (auth : bool) (user : option User) (u : Home.UI)
             (txn : RawTxn) (a : Authenticator),
         In (SubmitSimple txn a) (calls (Home.handlePlay env auth user) u) ->
         exists address rawSignature,
           In (SignRawHash address "aptos" (signingMessageHex env txn))
              (calls (Home.handlePlay env auth user) u)
           /\ signRawHash env 1 address "aptos" (signingMessageHex env txn)
              = inr rawSignature
           /\ authSignature a = signatureHex rawSignature)
  /\ JSString.startsWith "0x" "a1b2c3" = false
  /\ signatureHex "a1b2c3" = "b2c3"
  /\ calls (MovementTx.handleTransaction Scenario.unprefixedSigner true
              (Some (Scenario.userWith (Scenario.aptosAccount Scenario.key64))))
       (Scenario.transferForm "1.5")
     = [BuildSimple "0xA" (MovementTx.coinTransfer "0xB" 150000000);
        SignRawHash (JSStr "0xA") "aptos" "0xb5e97db07fa0bd0e";
        SubmitSimple "b5e97db07fa0bd0e"
          {| authPublicKey := Scenario.key64; authSignature := "b2c3" |};
        WaitForTransaction "0xHASH";
        GetAccountAPTAmount (JSStr "0xA")]
  /\ calls (Home.handlePlay Scenario.unprefixedSigner true
              (Some (Scenario.userWith (Scenario.aptosAccount Scenario.key64))))
       (Scenario.playing "2000000")
     = [BuildSimple "0xA" (Home.playCall 1%float);
        SignRawHash (JSStr "0xA") "aptos" "0xb5e97db07fa0bd0e";
        SubmitSimple "b5e97db07fa0bd0e"
          {| authPublicKey := Scenario.key64; authSignature := "b2c3" |};
        WaitForTransaction "0xHASH";
        View Home.getPotBalance;
        View Home.getPotBalance].
Proof.
  split; [reflexivity|]. split; [reflexivity|]. split; [|split].
  - intros env auth user u txn a H.
    exact (pipeline_submission env _ txn a (handleTransaction_pipeline env auth user u) H).
  - intros env auth user u txn a H.
    exact (pipeline_submission env _ txn a (handlePlay_pipeline env auth user u) H).
  - vm_compute. repeat split.
Qed.

Lemma signature_is_cut_unconditionally_witness :
  exists address rawSignature,
    In (SignRawHash address "aptos"
          (signingMessageHex Scenario.unprefixedSigner "b5e97db07fa0bd0e"))
       (calls (MovementTx.handleTransaction Scenario.unprefixedSigner true
                 (Some (Scenario.userWith (Scenario.aptosAccount Scenario.key64))))
          (Scenario.transferForm "1.5"))
    /\ signRawHash Scenario.unprefixedSigner 1 address "aptos"
         (signingMessageHex Scenario.unprefixedSigner "b5e97db07fa0bd0e")
       = inr rawSignature
    /\ "b2c3" = signatureHex rawSignature.
Proof.
  apply (proj1 (proj2 (proj2 signature_is_cut_unconditionally))
           Scenario.unprefixedSigner true
           (Some (Scenario.userWith (Scenario.aptosAccount Scenario.key64)))
           (Scenario.transferForm "1.5") "b5e97db07fa0bd0e"
           {| authPublicKey := Scenario.key64; authSignature := "b2c3" |}).
  vm_compute. right. right. left. reflexivity.
Defined.

(** ** The hash on display during the confirmation wait *)

(** C3 on the two handlers.  In [handleTransaction] every confirmation wait
    is issued with the pending hash and the status "submitted" already on
    display.  In [handlePlay] the hash is stored only after the wait has
    returned: during the wait the page still shows the old (empty) hash, and
    when the wait fails the hash is never shown. *)
Theorem txHash_on_display_during_wait :
  (forall (env : Env) (auth : bool) (user : option User) (u : MovementTx.UI)
          (h : string) (shown : MovementTx.UI),
      In (WaitForTransaction h, shown)
         (trace (snd (run (MovementTx.handleTransaction env auth user) u))) ->
      MovementTx.txHash shown = h
      /\ MovementTx.txStatus shown
         = [Lit "Transaction submitted! Waiting for confirmation..."])
  /\ List.map (fun e => (fst e, Home.txHash (snd e)))
       (trace (snd (run (Home.handlePlay (Scenario.answering "0") true
                           (Some (Scenario.userWith (Scenario.aptosAccount Scenario.key64))))
                      (Scenario.playing "2000000"))))
     = [(BuildSimple "0xA" (Home.playCall 1%float), "");
        (SignRawHash (JSStr "0xA") "aptos" "0xb5e97db07fa0bd0e", "");
        (SubmitSimple "b5e97db07fa0bd0e"
           {| authPublicKey := Scenario.key64; authSignature := "SIG" |}, "");
        (WaitForTransaction "0xHASH", "");
        (View Home.getPotBalance, "0xHASH");
        (View Home.getPotBalance, "0xHASH")]
  /\ Home.txHash
       (finalUI (Home.handlePlay (Scenario.unconfirmed "0") true
                   (Some (Scenario.userWith (Scenario.aptosAccount Scenario.key64))))
          (Scenario.playing "2000000")) = ""
  /\ MovementTx.txHash
       (finalUI (MovementTx.handleTransaction (Scenario.unconfirmed "0") true
                   (Some (Scenario.userWith (Scenario.aptosAccount Scenario.key64))))
          (Scenario.transferForm "1.5")) = "0xHASH".
Proof.
  split.
  - intros env auth user u h shown H.
    pose proof (handleTransaction_wait env auth user u) as F. unfold wp in F.
    exact (proj1 (Forall_forall _ _) F _ H).
  - vm_compute. repeat split.
Qed.

(** ** Unit conversion *)

(** C4 at the inputs the specification names, and at an input with two
    fractional digits on which the round trip is not exact.  The amount
    ["1.5"] reaches the builder as [150000000] octas and [0.000000005]
    converts to [0]; but [0.57 * 100000000] is [56999999.99999999] in
    binary64, so [aptToOctas] returns one octa less than [57000000], the
    conversion back gives [0.56999999], and a transfer of ["0.57"] is built
    with [56999999]. *)
Theorem aptToOctas_evaluated :
  AptosUtils.aptToOctas (JSNumber.parseFloat "0.000000005") = inr 0%Z
  /\ AptosUtils.aptToOctas (JSNumber.parseFloat "1.5") = inr 150000000%Z
  /\ PrimFloat.eqb (AptosUtils.octasToAPT (AptosUtils.OctasBigInt 150000000))
       (JSNumber.parseFloat "1.5") = true
  /\ List.hd_error
       (calls (MovementTx.handleTransaction (Scenario.answering "0") true
                 (Some (Scenario.userWith (Scenario.aptosAccount Scenario.key64))))
          (Scenario.transferForm "1.5"))
     = Some (BuildSimple "0xA" (MovementTx.coinTransfer "0xB" 150000000))
  /\ AptosUtils.aptToOctas (JSNumber.parseFloat "0.57") = inr 56999999%Z
  /\ PrimFloat.eqb (AptosUtils.octasToAPT (AptosUtils.OctasBigInt 56999999))
       (JSNumber.parseFloat "0.57") = false
  /\ PrimFloat.eqb (AptosUtils.octasToAPT (AptosUtils.OctasBigInt 56999999))
       (JSNumber.parseFloat "0.56999999") = true
  /\ List.hd_error
       (calls (MovementTx.handleTransaction (Scenario.answering "0") true
                 (Some (Scenario.userWith (Scenario.aptosAccount Scenario.key64))))
          (Scenario.transferForm "0.57"))
     = Some (BuildSimple "0xA" (MovementTx.coinTransfer "0xB" 56999999)).
Proof. vm_compute. repeat split. Qed.

(** ** Key validation before the network *)

(** C6 (amended): when the resolved public key, after the optional [0x]
    and the optional leading [00] of a 66-character string are stripped, is
    not 64 characters long -- whatever the characters are --
    [handleTransaction] and [handlePlay] return without a single call to the
    network or the signer; and once the guards that precede the key check
    are passed, the status on display is "Invalid public key format" and the
    loading flag is cleared.  Nothing but the length is checked: a key that
    is 64 characters long after the stripping is returned by
    [cleanPublicKey]. *)
Theorem invalid_key_halts_before_network (env : Env) :
  (forall (auth : bool) (user : option User) (u : MovementTx.UI)
          (w : AptosHooks.AptosWallet) (key : string),
      AptosHooks.useAptosWallet user = Some w ->
      AptosHooks.publicKey w = JSStr key ->
      String.length (strippedKey key) <> 64 ->
      fst (run (MovementTx.handleTransaction env auth user) u) = inr tt
      /\ calls (MovementTx.handleTransaction env auth user) u = [])
  /\ (forall (user : User) (u : MovementTx.UI)
             (w : AptosHooks.AptosWallet) (key : string),
      AptosHooks.useAptosWallet (Some user) = Some w ->
      AptosHooks.publicKey w = JSStr key ->
      String.length (strippedKey key) <> 64 ->
      JSString.isEmpty (JSString.trim (MovementTx.recipientAddress u)) = false ->
      returns (accountAddressFrom env
                 (JSStr (JSString.trim (MovementTx.recipientAddress u)))) = true ->
      JSObj.truthy (AptosHooks.address w) = true ->
      JSString.isEmpty key = false ->
      MovementTx.txStatus (finalUI (MovementTx.handleTransaction env true (Some user)) u)
        = [Lit "Invalid public key format"]
      /\ MovementTx.isLoading (finalUI (MovementTx.handleTransaction env true (Some user)) u)
         = false)
  /\ (forall (auth : bool) (user : User) (u : Home.UI)
             (acct : InlineResolver.AptosLinkedAccount),
      InlineResolver.resolve user = Some acct ->
      String.length (strippedKey (InlineResolver.publicKey acct)) <> 64 ->
      fst (run (Home.handlePlay env auth (Some user)) u) = inr tt
      /\ calls (Home.handlePlay env auth (Some user)) u = [])
  /\ (forall (user : User) (u : Home.UI) (acct : InlineResolver.AptosLinkedAccount),
      InlineResolver.resolve user = Some acct ->
      String.length (strippedKey (InlineResolver.publicKey acct)) <> 64 ->
      JSString.isEmpty (InlineResolver.address acct) = false ->
      JSString.isEmpty (InlineResolver.publicKey acct) = false ->
      Home.txStatus (finalUI (Home.handlePlay env true (Some user)) u)
        = [Lit "Invalid public key format"]
      /\ Home.isLoading (finalUI (Home.handlePlay env true (Some user)) u) = false)
  /\ (forall key : string,
      String.length (strippedKey key) = 64 ->
      AptosUtils.cleanPublicKey key = inr (strippedKey key)).
Proof.
  split; [|split; [|split; [|split]]].
  - intros auth user u w key W K L.
    destruct (handleTransaction_invalid_key env auth user u w key W K L) as [R T].
    split; [exact R|]. unfold calls, run. rewrite T. reflexivity.
  - intros user u w key W K L R V A N.
    exact (handleTransaction_invalid_key_status env user u w key W K L R V A N).
  - intros auth user u acct R L.
    destruct (handlePlay_invalid_key env auth user u acct R L) as [R' T].
    split; [exact R'|]. unfold calls, run. rewrite T. reflexivity.
  - intros user u acct R L A N.
    exact (handlePlay_invalid_key_status env user u acct R L A N).
  - intros key L. rewrite cleanPublicKey_stripped, L. reflexivity.
Qed.

Lemma invalid_key_halts_before_network_witness :
  calls (MovementTx.handleTransaction (Scenario.answering "0") true
           (Some (Scenario.userWith (Scenario.aptosAccount Scenario.key70))))
    (Scenario.transferForm "1.5") = []
  /\ MovementTx.txStatus
       (finalUI (MovementTx.handleTransaction (Scenario.answering "0") true
                   (Some (Scenario.userWith (Scenario.aptosAccount Scenario.key70))))
          (Scenario.transferForm "1.5"))
     = [Lit "Invalid public key format"].
Proof.
  split.
  - apply (proj1 (invalid_key_halts_before_network (Scenario.answering "0")) true
             (Some (Scenario.userWith (Scenario.aptosAccount Scenario.key70)))
             (Scenario.transferForm "1.5")
             {| AptosHooks.address := JSStr "0xA";
                AptosHooks.publicKey := JSStr Scenario.key70 |}
             Scenario.key70);
      [reflexivity | reflexivity | vm_compute; discriminate].
  - apply (proj1 (proj2 (invalid_key_halts_before_network (Scenario.answering "0")))
             (Scenario.userWith (Scenario.aptosAccount Scenario.key70))
             (Scenario.transferForm "1.5")
             {| AptosHooks.address := JSStr "0xA";
                AptosHooks.publicKey := JSStr Scenario.key70 |}
             Scenario.key70);
      try reflexivity; vm_compute; discriminate.
Defined.

(** C6, as stated, fails on a key of 64 characters that are not all
    hexadecimal: the length check passes, both pages build and ask the
    signer, and only then does the [Ed25519PublicKey] constructor reject the
    key, which is reported as an error of the transaction and not as an
    invalid key format. *)
Lemma key_of_64_non_hex_characters_reaches_the_network :
  String.length (strippedKey Scenario.keyNotHex) = 64
  /\ JSString.isHexString Scenario.keyNotHex = false
  /\ AptosUtils.cleanPublicKey Scenario.keyNotHex = inr Scenario.keyNotHex
  /\ calls (MovementTx.handleTransaction Scenario.checkingKeys true
              (Some (Scenario.userWith (Scenario.aptosAccount Scenario.keyNotHex))))
       (Scenario.transferForm "1.5")
     = [BuildSimple "0xA" (MovementTx.coinTransfer "0xB" 150000000);
        SignRawHash (JSStr "0xA") "aptos" "0xb5e97db07fa0bd0e"]
  /\ MovementTx.txStatus
       (finalUI (MovementTx.handleTransaction Scenario.checkingKeys true
                   (Some (Scenario.userWith (Scenario.aptosAccount Scenario.keyNotHex))))
          (Scenario.transferForm "1.5"))
     <> [Lit "Invalid public key format"]
  /\ calls (Home.handlePlay Scenario.checkingKeys true
              (Some (Scenario.userWith (Scenario.aptosAccount Scenario.keyNotHex))))
       (Scenario.playing "2000000")
     = [BuildSimple "0xA" (Home.playCall 1%float);
        SignRawHash (JSStr "0xA") "aptos" "0xb5e97db07fa0bd0e"]
  /\ Home.txStatus
       (finalUI (Home.handlePlay Scenario.checkingKeys true
                   (Some (Scenario.userWith (Scenario.aptosAccount Scenario.keyNotHex))))
          (Scenario.playing "2000000"))
     = [Lit "Error: Hex string contains invalid hex characters."].
Proof. vm_compute. repeat split. discriminate. Qed.

(** ** Win/loss inference *)

Section Inference.
Variables (env : Env) (user : User) (u : Home.UI).
Variables (acct : InlineResolver.AptosLinkedAccount) (key : string) (address : Address).
Variables (rawTxn : RawTxn) (rawSignature : string) (auth : Authenticator).
Variables (pending executed : string) (potAfter : list string).

(** The play is confirmed: the wallet resolves, every stage answers, and
    the pot is read again after the confirmation. *)
Hypothesis resolved : InlineResolver.resolve user = Some acct.
Hypothesis has_address : JSString.isEmpty (InlineResolver.address acct) = false.
Hypothesis has_key : JSString.isEmpty (InlineResolver.publicKey acct) = false.
Hypothesis key_ok : AptosUtils.cleanPublicKey (InlineResolver.publicKey acct) = inr key.
Hypothesis address_ok :
  accountAddressFrom env (JSStr (InlineResolver.address acct)) = inr address.
Hypothesis built :
  buildSimple env 0 address (Home.playCall (Home.choice u)) = inr rawTxn.
Hypothesis signed :
  signRawHash env 1 (JSStr (InlineResolver.address acct)) "aptos"
    (signingMessageHex env rawTxn) = inr rawSignature.
Hypothesis assembled :
  newAuthenticator env key (signatureHex rawSignature) = inr auth.
Hypothesis submitted : submitSimple env 2 rawTxn auth = inr pending.
Hypothesis confirmed : waitForTransaction env 3 pending = inr executed.
Hypothesis reread : view env 5 Home.getPotBalance = inr potAfter.

(** The pot before and after, as [handlePlay] reads them. *)
Let before : float := JSNumber.parseInt (Home.potBalance u).
Let after : float := JSNumber.parseInt (first potAfter).

Lemma handlePlay_confirmed :
  wp (Home.handlePlay env true (Some user))
     (fun r w' =>
        r = inr tt
        /\ (PrimFloat.eqb after 0 && PrimFloat.ltb 0 before = true ->
            Home.lastResult (ui w') = Some Home.win
            /\ Home.txStatus (ui w')
               = [Lit "🎉 YOU WON! You took ";
                  Num ((before + Home.BET_AMOUNT) / 100000000)%float;
                  Lit " APT!"])
        /\ (PrimFloat.eqb after 0 && PrimFloat.ltb 0 before = false ->
            PrimFloat.ltb before after = true ->
            Home.lastResult (ui w') = Some Home.lose
            /\ Home.txStatus (ui w')
               = [Lit "😢 You lost. Your 0.01 APT is now in the pot."])
        /\ (PrimFloat.eqb after 0 && PrimFloat.ltb 0 before = false ->
            PrimFloat.ltb before after = false ->
            Home.lastResult (ui w') = Some Home.win
            /\ Home.txStatus (ui w') = [Lit "🎉 YOU WON THE JACKPOT!"]))
     {| ui := u; trace := [] |}.
Proof.
  subst before after. wp_run.
  all: repeat split; try reflexivity; intros; congruence.
Qed.

(** C7: after a confirmed play, with the pot on display before the play
    and the pot read back after it: a pot that is now [0] and was positive
    is a win; otherwise a pot that grew is a loss; every other case is
    reported as the jackpot win. *)
Theorem handlePlay_infers_result :
  let final := finalUI (Home.handlePlay env true (Some user)) u in
  (PrimFloat.eqb after 0 = true -> PrimFloat.ltb 0 before = true ->
   Home.lastResult final = Some Home.win
   /\ Home.txStatus final
      = [Lit "🎉 YOU WON! You took ";
         Num ((before + Home.BET_AMOUNT) / 100000000)%float;
         Lit " APT!"])
  /\ (PrimFloat.eqb after 0 && PrimFloat.ltb 0 before = false ->
      PrimFloat.ltb before after = true ->
      Home.lastResult final = Some Home.lose
      /\ Home.txStatus final = [Lit "😢 You lost. Your 0.01 APT is now in the pot."])
  /\ (PrimFloat.eqb after 0 && PrimFloat.ltb 0 before = false ->
      PrimFloat.ltb before after = false ->
      Home.lastResult final = Some Home.win
      /\ Home.txStatus final = [Lit "🎉 YOU WON THE JACKPOT!"]).
Proof.
  intros final. destruct handlePlay_confirmed as [_ [W [L J]]].
  split; [|split].
  - intros A B. apply W. rewrite A, B. reflexivity.
  - exact L.
  - exact J.
Qed.

End Inference.

Lemma handlePlay_infers_result_witness :
  Home.lastResult
    (finalUI (Home.handlePlay (Scenario.answering "0") true
                (Some (Scenario.userWith (Scenario.aptosAccount Scenario.key64))))
       (Scenario.playing "2000000")) = Some Home.win
  /\ Home.lastResult
       (finalUI (Home.handlePlay (Scenario.answering "1000000") true
                   (Some (Scenario.userWith (Scenario.aptosAccount Scenario.key64))))
          (Scenario.playing "0")) = Some Home.lose.
Proof.
  split.
  - refine (proj1 (proj1 (handlePlay_infers_result (Scenario.answering "0")
                     (Scenario.userWith (Scenario.aptosAccount Scenario.key64))
                     (Scenario.playing "2000000")
                     {| InlineResolver.address := "0xA";
                        InlineResolver.publicKey := Scenario.key64 |}
                     Scenario.key64 "0xA" "b5e97db07fa0bd0e" "0xSIG"
                     {| authPublicKey := Scenario.key64; authSignature := "SIG" |}
                     "0xHASH" "0xHASH" ["0"]
                     eq_refl eq_refl eq_refl eq_refl eq_refl eq_refl eq_refl eq_refl
                     eq_refl eq_refl eq_refl) _ _)); vm_compute; reflexivity.
  - refine (proj1 (proj1 (proj2 (handlePlay_infers_result (Scenario.answering "1000000")
                     (Scenario.userWith (Scenario.aptosAccount Scenario.key64))
                     (Scenario.playing "0")
                     {| InlineResolver.address := "0xA";
                        InlineResolver.publicKey := Scenario.key64 |}
                     Scenario.key64 "0xA" "b5e97db07fa0bd0e" "0xSIG"
                     {| authPublicKey := Scenario.key64; authSignature := "SIG" |}
                     "0xHASH" "0xHASH" ["1000000"]
                     eq_refl eq_refl eq_refl eq_refl eq_refl eq_refl eq_refl eq_refl
                     eq_refl eq_refl eq_refl)) _ _)); vm_compute; reflexivity.
Defined.

(** * Further properties of the sources *)

(** ** Strings *)

Section MoreStringFacts.
Import JSString AddressFormat.

Lemma string_length_app (a b : string) :
  String.length (a ++ b) = String.length a + String.length b.
Proof. induction a as [|c a IH]; simpl; [reflexivity | rewrite IH; reflexivity]. Qed.

Lemma slice_slice (a b : nat) (s : string) : slice a (slice b s) = slice (b + a) s.
Proof.
  revert s; induction b as [|b IH]; intros s; [reflexivity|].
  destruct s as [|c s]; simpl; [destruct a; reflexivity | apply IH].
Qed.

Lemma take_slice (n : nat) (s : string) : take n s ++ slice n s = s.
Proof.
  revert s; induction n as [|n IH]; intros s; [reflexivity|].
  destruct s as [|c s]; simpl; [reflexivity | rewrite IH; reflexivity].
Qed.

Lemma length_take (n : nat) (s : string) :
  String.length (take n s) = Nat.min n (String.length s).
Proof.
  revert s; induction n as [|n IH]; intros s; [reflexivity|].
  destruct s as [|c s]; simpl; [reflexivity | rewrite IH; reflexivity].
Qed.

Lemma take_app (a b : string) : take (String.length a) (a ++ b) = a.
Proof. induction a as [|c a IH]; simpl; [destruct b | rewrite IH]; reflexivity. Qed.

Lemma slice_app (a b : string) : slice (String.length a) (a ++ b) = b.
Proof. induction a as [|c a IH]; simpl; [reflexivity | exact IH]. Qed.

Lemma take_all (n : nat) (s : string) : String.length s <= n -> take n s = s.
Proof.
  revert s; induction n as [|n IH]; intros s L.
  - destruct s; [reflexivity | simpl in L; lia].
  - destruct s as [|c s]; simpl in *; [reflexivity | rewrite IH; [reflexivity | lia]].
Qed.

Lemma app_cancel_l (p a b : string) : p ++ a = p ++ b -> a = b.
Proof. induction p as [|c p IH]; simpl; [exact (fun H => H) | intros [= H]; exact (IH H)]. Qed.

Lemma app_cancel_r (a b t : string) : a ++ t = b ++ t -> a = b.
Proof.
  intros H.
  assert (L : String.length a = String.length b).
  { apply (f_equal String.length) in H. rewrite !string_length_app in H. lia. }
  rewrite <- (take_app a t), <- (take_app b t), H, L. reflexivity.
Qed.

Lemma strippedKey_is_slice (s : string) :
  exists k, (k = 0 \/ k = 2 \/ k = 4) /\ strippedKey s = slice k s.
Proof.
  unfold strippedKey.
  destruct (startsWith "0x" (toLowerCase s)).
  - destruct ((String.length (slice 2 s) =? 66)%nat && startsWith "00" (slice 2 s)).
    + exists 4. rewrite slice_slice. auto.
    + exists 2. auto.
  - destruct ((String.length s =? 66)%nat && startsWith "00" s).
    + exists 2. auto.
    + exists 0. auto.
Qed.

End MoreStringFacts.

(** ** Key normalisation: what comes back *)

(** What [cleanPublicKey] returns is always the last 64 characters of what
    it was given: the input is the result behind a prefix of 0, 2 or 4
    characters, so only inputs of 64, 66 or 68 characters are accepted, and
    no character of the key is changed. *)
Theorem cleanPublicKey_returns_last_64 (s r : string) :
  AptosUtils.cleanPublicKey s = inr r ->
  r = JSString.lastChars 64 s
  /\ (exists prefix, s = prefix ++ r
                     /\ (String.length prefix = 0 \/ String.length prefix = 2
                         \/ String.length prefix = 4))
  /\ (String.length s = 64 \/ String.length s = 66 \/ String.length s = 68).
Proof.
  intros H. pose proof (cleanPublicKey_length s r H) as L.
  rewrite cleanPublicKey_stripped in H.
  destruct (String.length (strippedKey s) =? 64)%nat; [|discriminate].
  injection H as <-.
  destruct (strippedKey_is_slice s) as [k [K E]].
  rewrite E in *. rewrite length_slice in L.
  assert (S : String.length s = 64 + k) by lia.
  split; [|split].
  - unfold JSString.lastChars. rewrite S. f_equal. lia.
  - exists (AddressFormat.take k s). split.
    + symmetry. apply take_slice.
    + rewrite length_take. lia.
  - lia.
Qed.

Lemma cleanPublicKey_returns_last_64_witness :
  Scenario.key64 = JSString.lastChars 64 ("0x00" ++ Scenario.key64)
  /\ (exists prefix, "0x00" ++ Scenario.key64 = prefix ++ Scenario.key64
                     /\ (String.length prefix = 0 \/ String.length prefix = 2
                         \/ String.length prefix = 4))
  /\ (String.length ("0x00" ++ Scenario.key64) = 64
      \/ String.length ("0x00" ++ Scenario.key64) = 66
      \/ String.length ("0x00" ++ Scenario.key64) = 68).
Proof.
  exact (cleanPublicKey_returns_last_64 ("0x00" ++ Scenario.key64) Scenario.key64 eq_refl).
Defined.

(** ** The two resolvers *)

Lemma getProperty_string_has (key x : string) (record : JSValue) :
  JSObj.getProperty key record = JSStr x -> JSObj.hasProperty key record = true.
Proof.
  unfold JSObj.getProperty, JSObj.hasProperty.
  destruct record; try discriminate.
  destruct (JSObj.lookup key props); [reflexivity | discriminate].
Qed.

(** The hook and the inline resolver agree wherever the pair is complete:
    the inline resolver returns the account [(a, k)] exactly when
    [useAptosWallet] returns the pair of the strings [a] and [k]; and the
    hook returns [null] exactly when no linked record is tagged ["aptos"]
    (or there is no list of linked accounts). *)
Theorem resolvers_agree_on_complete_records (user : User) :
  (forall a k : string,
      InlineResolver.resolve user
        = Some {| InlineResolver.address := a; InlineResolver.publicKey := k |}
      <-> AptosHooks.useAptosWallet (Some user)
        = Some {| AptosHooks.address := JSStr a; AptosHooks.publicKey := JSStr k |})
  /\ (AptosHooks.useAptosWallet (Some user) = None
      <-> match linkedAccounts user with
          | Some accounts => List.existsb hasAptosChainType accounts = false
          | None => True
          end).
Proof.
  unfold InlineResolver.resolve, AptosHooks.useAptosWallet. split.
  - intros a k. destruct (linkedAccounts user) as [accounts|]; [|split; discriminate].
    destruct (List.find hasAptosChainType accounts) as [record|] eqn:F;
      [|split; discriminate].
    apply List.find_some in F as [_ T].
    unfold InlineResolver.isAptosAccount. rewrite T. cbn [andb]. split.
    + destruct (JSObj.hasProperty "address" record && JSObj.hasProperty "publicKey" record);
        [|discriminate].
      destruct (JSObj.getProperty "address" record); try discriminate.
      destruct (JSObj.getProperty "publicKey" record); try discriminate.
      intros [= -> ->]. reflexivity.
    + intros [= A K].
      rewrite (getProperty_string_has _ _ _ A), (getProperty_string_has _ _ _ K), A, K.
      reflexivity.
  - destruct (linkedAccounts user) as [accounts|]; [|split; [exact (fun _ => I) | reflexivity]].
    destruct (List.find hasAptosChainType accounts) as [record|] eqn:F.
    + split; [discriminate|]. intros E. apply List.find_some in F as [I T].
      assert (X : List.existsb hasAptosChainType accounts = true)
        by (apply List.existsb_exists; exists record; split; assumption).
      rewrite X in E. discriminate.
    + split; [|reflexivity]. intros _.
      destruct (List.existsb hasAptosChainType accounts) eqn:X; [|reflexivity].
      apply List.existsb_exists in X as [record [I T]].
      pose proof (List.find_none _ _ F record I) as N. rewrite T in N. discriminate.
Qed.

(** ** Explorer links *)

(** A link identifies its transaction: for a given network, two hashes with
    the same Aptos explorer link are equal, and so are two hashes with the
    same Movement explorer link. *)
Theorem explorer_links_identify_the_hash :
  (forall h1 h2 network : string,
      AptosUtils.getExplorerLink h1 network = AptosUtils.getExplorerLink h2 network ->
      h1 = h2)
  /\ (forall h1 h2 : string,
      AptosUtils.getMovementExplorerLink h1 = AptosUtils.getMovementExplorerLink h2 ->
      h1 = h2).
Proof.
  unfold AptosUtils.getExplorerLink, AptosUtils.getMovementExplorerLink. split.
  - intros h1 h2 network H.
    apply app_cancel_l in H. apply app_cancel_l in H.
    exact (app_cancel_r _ _ _ H).
  - intros h1 h2 H. apply app_cancel_l in H. exact (app_cancel_r _ _ _ H).
Qed.

(** ** Address display *)

Section FormatAddress.
Import JSString AddressFormat.

Lemma app_assoc_string (a b c : string) : (a ++ b) ++ c = a ++ (b ++ c).
Proof. induction a as [|x a IH]; simpl; [reflexivity | rewrite IH; reflexivity]. Qed.

Lemma sliceRange_head (n : nat) (a : string) :
  n <= String.length a -> sliceRange 0 (Some (Z.of_nat n)) a = take n a.
Proof.
  intros L. unfold sliceRange. cbv zeta.
  change (0 <? 0)%Z with false. cbv iota.
  destruct (Z.of_nat n <? 0)%Z eqn:N; [apply Z.ltb_lt in N; lia|].
  replace (Z.min 0 (Z.of_nat (String.length a))) with 0%Z by lia.
  replace (Z.to_nat (Z.min (Z.of_nat n) (Z.of_nat (String.length a)) - 0)) with n by lia.
  reflexivity.
Qed.

Lemma sliceRange_tail (n : nat) (a : string) :
  1 <= n -> n <= String.length a ->
  sliceRange (- Z.of_nat n) None a = lastChars n a.
Proof.
  intros P L. unfold sliceRange, lastChars. cbv zeta.
  destruct (- Z.of_nat n <? 0)%Z eqn:N; [|apply Z.ltb_ge in N; lia].
  replace (Z.to_nat (Z.max (Z.of_nat (String.length a) + - Z.of_nat n) 0))
    with (String.length a - n) by lia.
  apply take_all. rewrite length_slice. lia.
Qed.

Lemma formatAddress_long (n : nat) (a : string) :
  1 <= n -> 2 * n < String.length a ->
  formatAddress a (Z.of_nat n) = take n a ++ "..." ++ lastChars n a.
Proof.
  intros P L. unfold formatAddress.
  destruct a as [|c a]; [simpl in L; lia|]. cbn [isEmpty].
  destruct (Z.of_nat (String.length (String c a)) <=? Z.of_nat n * 2)%Z eqn:E;
    [apply Z.leb_le in E; lia|].
  rewrite sliceRange_head by lia. rewrite sliceRange_tail by lia. reflexivity.
Qed.

Lemma formatAddress_short (n : nat) (a : string) :
  String.length a <= 2 * n -> formatAddress a (Z.of_nat n) = a.
Proof.
  intros L. unfold formatAddress. destruct a as [|c a]; [reflexivity|]. cbn [isEmpty].
  destruct (Z.of_nat (String.length (String c a)) <=? Z.of_nat n * 2)%Z eqn:E;
    [reflexivity | apply Z.leb_gt in E; lia].
Qed.

End FormatAddress.

(** [formatAddress] with a positive [length] of [n]: an address of at most
    [2n] characters is returned as it is; a longer one becomes its first [n]
    characters, three dots and its last [n] characters, [2n + 3] characters
    in all -- which is longer than the address itself when that has [2n + 1]
    or [2n + 2] characters; and formatting a formatted address changes
    nothing.  With a [length] of [0] nothing is cut: the dots are put in
    front of the whole address. *)
Theorem formatAddress_shape (a : string) (n : nat) :
  (String.length a <= 2 * n -> AddressFormat.formatAddress a (Z.of_nat n) = a)
  /\ (1 <= n -> 2 * n < String.length a ->
      AddressFormat.formatAddress a (Z.of_nat n)
        = AddressFormat.take n a ++ "..." ++ JSString.lastChars n a
      /\ String.length (AddressFormat.formatAddress a (Z.of_nat n)) = 2 * n + 3)
  /\ (1 <= n ->
      AddressFormat.formatAddress (AddressFormat.formatAddress a (Z.of_nat n)) (Z.of_nat n)
        = AddressFormat.formatAddress a (Z.of_nat n))
  /\ (a <> "" -> AddressFormat.formatAddress a 0 = "..." ++ a).
Proof.
  assert (Long : 1 <= n -> 2 * n < String.length a ->
                 String.length (AddressFormat.take n a) = n
                 /\ String.length (JSString.lastChars n a) = n).
  { intros P L. rewrite length_take. unfold JSString.lastChars.
    rewrite length_slice. lia. }
  split; [apply formatAddress_short|]. split; [|split].
  - intros P L. rewrite (formatAddress_long n a P L). split; [reflexivity|].
    destruct (Long P L) as [T S]. rewrite !string_length_app, T, S. simpl. lia.
  - intros P. destruct (Nat.le_gt_cases (String.length a) (2 * n)) as [L|L].
    + rewrite !(formatAddress_short n a L). reflexivity.
    + destruct (Long P L) as [T S]. rewrite (formatAddress_long n a P L).
      set (p := AddressFormat.take n a) in *. set (q := JSString.lastChars n a) in *.
      rewrite formatAddress_long; [|exact P|rewrite !string_length_app, T, S; simpl; lia].
      f_equal.
      * rewrite <- T at 1. apply take_app.
      * f_equal. unfold JSString.lastChars.
        rewrite !string_length_app, T, S.
        replace (n + (String.length "..." + n) - n) with (String.length (p ++ "..."))
          by (rewrite string_length_app, T; simpl; lia).
        rewrite <- app_assoc_string. apply slice_app.
  - intros N. unfold AddressFormat.formatAddress.
    destruct a as [|c a]; [contradiction|]. cbn [JSString.isEmpty].
    change (Z.of_nat (String.length (String c a)) <=? 0 * 2)%Z
      with (Z.of_nat (String.length (String c a)) <=? 0)%Z.
    destruct (Z.of_nat (String.length (String c a)) <=? 0)%Z eqn:E;
      [apply Z.leb_le in E; simpl in E; lia|].
    change (- 0)%Z with (Z.of_nat 0).
    rewrite (sliceRange_head 0) by lia.
    unfold AddressFormat.sliceRange. cbv zeta.
    change (Z.of_nat 0 <? 0)%Z with false. cbv iota.
    replace (Z.to_nat (Z.min (Z.of_nat 0) (Z.of_nat (String.length (String c a)))))
      with 0 by lia.
    replace (Z.to_nat (Z.of_nat (String.length (String c a))
                       - Z.min (Z.of_nat 0) (Z.of_nat (String.length (String c a)))))
      with (String.length (String c a)) by lia.
    cbn [JSString.slice AddressFormat.take append].
    rewrite take_all by lia. reflexivity.
Qed.

Lemma formatAddress_shape_witness :
  AddressFormat.formatAddress Home.CONTRACT_ADDRESS 6 = "0x10bc...b2b55e"
  /\ String.length (AddressFormat.formatAddress "0x12345678901" 6) = 15.
Proof.
  split.
  - exact (proj1 (proj1 (proj2 (formatAddress_shape Home.CONTRACT_ADDRESS 6))
                    ltac:(lia) ltac:(vm_compute; lia))).
  - exact (proj2 (proj1 (proj2 (formatAddress_shape "0x12345678901" 6))
                    ltac:(lia) ltac:(vm_compute; lia))).
Defined.

(** ** Stepping through every page *)

Ltac norm_all :=
  cbv beta iota zeta;
  cbn [ui trace snd fst List.map app List.length negb orb andb JSObj.truthy
       MovementTx.recipientAddress MovementTx.amount MovementTx.isLoading
       MovementTx.txStatus MovementTx.txHash MovementTx.walletBalance
       MovementTx.creatingWallet MovementTx.addressError
       MovementTxInline.recipientAddress MovementTxInline.amount
       MovementTxInline.isLoading MovementTxInline.txStatus
       MovementTxInline.txHash MovementTxInline.walletBalance
       BalanceHook.balance BalanceHook.loading BalanceHook.error
       Home.choice Home.potBalance Home.isLoading Home.txStatus Home.lastResult
       Home.txHash Home.creatingWallet].

Ltac wp_step_all :=
  rewrite ?isValidAddress_run;
  lazymatch goal with
  | |- wp (bind _ _) _ _ => apply wp_bind
  | |- wp (ret _) _ _ => apply wp_ret
  | |- wp (lift _) _ _ => apply wp_lift
  | |- wp (update _) _ _ => apply wp_update
  | |- wp current _ _ => apply wp_current
  | |- wp (await _ _) _ _ => apply wp_await
  | |- wp (tryCatch _ _) _ _ => apply wp_tryCatch
  | |- wp (tryFinally _ _) _ _ => apply wp_tryFinally
  | |- wp (match ?x with _ => _ end) _ _ => case_on x
  | |- wp ?m _ _ => let h := head_of m in unfold h
  | |- match ?x with _ => _ end => case_on x
  end; norm_all.

Ltac wp_run_all := repeat wp_step_all.

Lemma handleTransactionInline_pipeline (env : Env) (auth : bool) (user : option User)
    (u : MovementTxInline.UI) :
  wp (MovementTxInline.handleTransaction env auth user)
     (fun _ w => Pipeline env (List.map fst (trace w))) {| ui := u; trace := [] |}.
Proof. wp_run_all; pipeline. Qed.

(** ** The stages of an action *)

(** Every action of the three pages -- a play, a transfer on either
    Movement page -- makes its remote calls in the order of the pipeline,
    each stage fed with the answer of the one before: nothing is signed but
    the signing message of the transaction that was built, nothing is
    submitted but that transaction with the signer's answer (cut by
    [slice(2)]), nothing is waited for but the hash the submission
    returned, and after the wait only reads are made. *)
Theorem actions_follow_the_pipeline (env : Env) (auth : bool) (user : option User) :
  (forall u, Pipeline env (calls (MovementTx.handleTransaction env auth user) u))
  /\ (forall u, Pipeline env (calls (Home.handlePlay env auth user) u))
  /\ (forall u, Pipeline env (calls (MovementTxInline.handleTransaction env auth user) u)).
Proof.
  split; [|split]; intros u.
  - exact (handleTransaction_pipeline env auth user u).
  - exact (handlePlay_pipeline env auth user u).
  - exact (handleTransactionInline_pipeline env auth user u).
Qed.

(** ** What an action always leaves behind *)

Ltac settle :=
  repeat split;
  first [ reflexivity
        | left; reflexivity
        | right; split; reflexivity
        | right; cbn [In]; tauto ].

Lemma handleTransaction_leaves (env : Env) (auth : bool) (user : option User)
    (u : MovementTx.UI) :
  wp (MovementTx.handleTransaction env auth user)
     (fun r w =>
        r = inr tt
        /\ (MovementTx.isLoading (ui w) = false
            \/ (trace w = [] /\ MovementTx.isLoading (ui w) = MovementTx.isLoading u))
        /\ (MovementTx.txHash (ui w) = MovementTx.txHash u
            \/ In (WaitForTransaction (MovementTx.txHash (ui w))) (List.map fst (trace w))))
     {| ui := u; trace := [] |}.
Proof. wp_run_all; settle. Qed.

Lemma handleTransactionInline_leaves (env : Env) (auth : bool) (user : option User)
    (u : MovementTxInline.UI) :
  wp (MovementTxInline.handleTransaction env auth user)
     (fun r w =>
        r = inr tt
        /\ (MovementTxInline.isLoading (ui w) = false
            \/ (trace w = []
                /\ MovementTxInline.isLoading (ui w) = MovementTxInline.isLoading u))
        /\ (MovementTxInline.txHash (ui w) = MovementTxInline.txHash u
            \/ In (WaitForTransaction (MovementTxInline.txHash (ui w)))
                  (List.map fst (trace w))))
     {| ui := u; trace := [] |}.
Proof. wp_run_all; settle. Qed.

Lemma handlePlay_leaves (env : Env) (auth : bool) (user : option User) (u : Home.UI) :
  wp (Home.handlePlay env auth user)
     (fun r w =>
        r = inr tt
        /\ (Home.isLoading (ui w) = false
            \/ (trace w = [] /\ Home.isLoading (ui w) = Home.isLoading u))
        /\ (Home.txHash (ui w) = Home.txHash u
            \/ In (WaitForTransaction (Home.txHash (ui w))) (List.map fst (trace w))))
     {| ui := u; trace := [] |}.
Proof. wp_run_all; settle. Qed.

(** Whatever the collaborators answer and whatever the user holds, the three
    action handlers return normally (no exception escapes them); they end
    with the loading flag cleared, unless they stopped at a guard before any
    remote call, in which case the flag is as it was; and the transaction
    hash on display is either the one shown before or a hash for which a
    confirmation wait was issued in this action. *)
Theorem actions_return_and_clear_loading (env : Env) (auth : bool) (user : option User) :
  (forall u,
      fst (run (MovementTx.handleTransaction env auth user) u) = inr tt
      /\ (MovementTx.isLoading (finalUI (MovementTx.handleTransaction env auth user) u) = false
          \/ (calls (MovementTx.handleTransaction env auth user) u = []
              /\ MovementTx.isLoading (finalUI (MovementTx.handleTransaction env auth user) u)
                 = MovementTx.isLoading u))
      /\ (MovementTx.txHash (finalUI (MovementTx.handleTransaction env auth user) u)
          = MovementTx.txHash u
          \/ In (WaitForTransaction
                   (MovementTx.txHash (finalUI (MovementTx.handleTransaction env auth user) u)))
                (calls (MovementTx.handleTransaction env auth user) u)))
  /\ (forall u,
      fst (run (MovementTxInline.handleTransaction env auth user) u) = inr tt
      /\ (MovementTxInline.isLoading
            (finalUI (MovementTxInline.handleTransaction env auth user) u) = false
          \/ (calls (MovementTxInline.handleTransaction env auth user) u = []
              /\ MovementTxInline.isLoading
                   (finalUI (MovementTxInline.handleTransaction env auth user) u)
                 = MovementTxInline.isLoading u))
      /\ (MovementTxInline.txHash
            (finalUI (MovementTxInline.handleTransaction env auth user) u)
          = MovementTxInline.txHash u
          \/ In (WaitForTransaction
                   (MovementTxInline.txHash
                      (finalUI (MovementTxInline.handleTransaction env auth user) u)))
                (calls (MovementTxInline.handleTransaction env auth user) u)))
  /\ (forall u,
      fst (run (Home.handlePlay env auth user) u) = inr tt
      /\ (Home.isLoading (finalUI (Home.handlePlay env auth user) u) = false
          \/ (calls (Home.handlePlay env auth user) u = []
              /\ Home.isLoading (finalUI (Home.handlePlay env auth user) u)
                 = Home.isLoading u))
      /\ (Home.txHash (finalUI (Home.handlePlay env auth user) u) = Home.txHash u
          \/ In (WaitForTransaction (Home.txHash (finalUI (Home.handlePlay env auth user) u)))
                (calls (Home.handlePlay env auth user) u))).
Proof.
  split; [|split]; intros u.
  - destruct (handleTransaction_leaves env auth user u) as [R [L H]].
    split; [exact R|]. split; [|exact H].
    destruct L as [L|[T L]]; [left; exact L | right].
    split; [unfold calls, run; rewrite T; reflexivity | exact L].
  - destruct (handleTransactionInline_leaves env auth user u) as [R [L H]].
    split; [exact R|]. split; [|exact H].
    destruct L as [L|[T L]]; [left; exact L | right].
    split; [unfold calls, run; rewrite T; reflexivity | exact L].
  - destruct (handlePlay_leaves env auth user u) as [R [L H]].
    split; [exact R|]. split; [|exact H].
    destruct L as [L|[T L]]; [left; exact L | right].
    split; [unfold calls, run; rewrite T; reflexivity | exact L].
Qed.

(** ** How each outcome of an action is reported *)

Ltac which_call :=
  repeat match goal with
         | H : List.nth_error _ _ = Some _ |- _ =>
             cbn [List.nth_error] in H; first [discriminate H | injection H as H]
         end;
  repeat match goal with
         | H : In _ (_ :: _) |- _ => destruct H as [H|H]
         | H : In _ [] |- _ => destruct H
         end;
  try discriminate;
  repeat match goal with
         | H : BuildSimple _ _ = BuildSimple _ _ |- _ => injection H as <- <-
         | H : SignRawHash _ _ _ = SignRawHash _ _ _ |- _ => injection H as <- <- <-
         | H : SubmitSimple _ _ = SubmitSimple _ _ |- _ => injection H as <- <-
         | H : WaitForTransaction _ = WaitForTransaction _ |- _ => injection H as <-
         end.

Ltac tidy :=
  unfold transferStarted, playStarted in *;
  repeat match goal with
         | H : _ /\ _ |- _ => destruct H
         | H : _ \/ _ |- _ => destruct H
         | H : negb _ = true |- _ => apply negb_true_iff in H
         | H : negb _ = false |- _ => apply negb_false_iff in H
         | H : _ || _ = false |- _ => apply orb_false_iff in H
         | H : _ || _ = true |- _ => apply orb_true_iff in H
         end.

Ltac reported :=
  repeat first [progress intros | split];
  tidy; which_call; cbn [List.hd_error]; try congruence.

Lemma handleTransaction_report (env : Env) (auth : bool) (user : option User)
    (u : MovementTx.UI) :
  wp (MovementTx.handleTransaction env auth user)
     (fun _ w => transferReport env auth user u (List.map fst (trace w)) (ui w))
     {| ui := u; trace := [] |}.
Proof. unfold transferReport. wp_run_all; reported. Qed.

Lemma handlePlay_report (env : Env) (auth : bool) (user : option User) (u : Home.UI) :
  wp (Home.handlePlay env auth user)
     (fun _ w => playReport env auth user u (List.map fst (trace w)) (ui w))
     {| ui := u; trace := [] |}.
Proof. unfold playReport. wp_run_all; reported. Qed.



(** Every outcome of a play is reported.  A guard that stops the handler
    makes no call and shows its own message, and so does a public key that
    [cleanPublicKey] rejects.  Past the guards, a wallet address that does
    not parse is reported as an error without a call; otherwise the first
    call is the build of the play.  When the build, the signer, the
    submission or the confirmation wait throws, or the authenticator cannot
    be constructed from the signer's answer, the last call made is the one
    that threw (the signer's, for the authenticator), the status reads
    "Error:" with the message, no result is shown and the hash on display
    is the one shown before.  When the wait returns, the hash is put on
    display and the pot is read twice; if the second read throws, the
    confirmed play is reported as an error with no result, and if it
    answers, a result is always shown. *)
Theorem play_outcomes_are_reported (env : Env) (auth : bool) (user : option User)
    (u : Home.UI) :
  playReport env auth user u
    (calls (Home.handlePlay env auth user) u)
    (finalUI (Home.handlePlay env auth user) u).
Proof. exact (handlePlay_report env auth user u). Qed.

Lemma play_outcomes_are_reported_witness :
  Home.txStatus
    (finalUI (Home.handlePlay (Scenario.unconfirmed "0") true
                (Some (Scenario.userWith (Scenario.aptosAccount Scenario.key64))))
       (Scenario.playing "2000000"))
  = [Lit "Error: Transaction timed out"]
  /\ Home.txStatus
       (finalUI (Home.handlePlay Scenario.checkingKeys true
                   (Some (Scenario.userWith (Scenario.aptosAccount Scenario.keyNotHex))))
          (Scenario.playing "2000000"))
     = [Lit "Error: Hex string contains invalid hex characters."]
  /\ Home.txStatus
       (finalUI (Home.handlePlay (Scenario.answering "0") true
                   (Some (Scenario.userWith Scenario.aptosAccountNoAddress)))
          (Scenario.playing "2000000"))
     = [Lit "Please create an Aptos wallet first"].
Proof.
  split; [|split].
  - destruct (play_outcomes_are_reported (Scenario.unconfirmed "0") true
                (Some (Scenario.userWith (Scenario.aptosAccount Scenario.key64)))
                (Scenario.playing "2000000"))
      as (_ & _ & _ & _ & _ & _ & _ & _ & _ & _ & W & _).
    refine (proj1 (proj1 (proj2 (W "0xHASH" (ThrownError "Transaction timed out")
                                   _ eq_refl))));
      vm_compute; tauto.
  - destruct (play_outcomes_are_reported Scenario.checkingKeys true
                (Some (Scenario.userWith (Scenario.aptosAccount Scenario.keyNotHex)))
                (Scenario.playing "2000000"))
      as (_ & _ & _ & _ & _ & _ & _ & _ & W & _).
    refine (proj1 (proj1 (proj2 (W (Scenario.userWith
                                      (Scenario.aptosAccount Scenario.keyNotHex))
                                   {| InlineResolver.address := "0xA";
                                      InlineResolver.publicKey := Scenario.keyNotHex |}
                                   Scenario.keyNotHex (JSStr "0xA") "aptos"
                                   "0xb5e97db07fa0bd0e" "0xSIG"
                                   (ThrownError "Hex string contains invalid hex characters.")
                                   _ _ eq_refl eq_refl))));
      [vm_compute; repeat split | vm_compute; tauto].
  - destruct (play_outcomes_are_reported (Scenario.answering "0") true
                (Some (Scenario.userWith Scenario.aptosAccountNoAddress))
                (Scenario.playing "2000000"))
      as (_ & W & _).
    exact (proj2 (W (Scenario.userWith Scenario.aptosAccountNoAddress)
                    eq_refl eq_refl eq_refl)).
Defined.

(** ** For whom, and with what, an action calls *)

Ltac rewrite_tests :=
  repeat match goal with
         | H : ?x = true |- context [?x] => rewrite H
         | H : ?x = false |- context [?x] => rewrite H
         end.

Ltac for_the_wallet :=
  authenticators; each_event;
  cbn [transferCallFor inlineTransferCallFor playCallFor authPublicKey];
  try reflexivity; try assumption;
  try (split; [assumption|]; try do 2 eexists; repeat split; solve [eassumption | reflexivity]);
  try (unfold AptosUtils.cleanPublicKey; rewrite_tests; reflexivity).

Lemma handleTransaction_for_the_wallet (env : Env) (auth : bool) (user : option User)
    (u : MovementTx.UI) :
  wp (MovementTx.handleTransaction env auth user)
     (fun _ w' =>
        match AptosHooks.useAptosWallet user with
        | Some w => Forall (transferCallFor env w u) (List.map fst (trace w'))
        | None => trace w' = []
        end)
     {| ui := u; trace := [] |}.
Proof. wp_run_all; for_the_wallet. Qed.

Lemma handleTransactionInline_for_the_wallet (env : Env) (auth : bool) (user : User)
    (u : MovementTxInline.UI) :
  wp (MovementTxInline.handleTransaction env auth (Some user))
     (fun _ w' =>
        match InlineResolver.resolve user with
        | Some acct => Forall (inlineTransferCallFor env acct u) (List.map fst (trace w'))
        | None => trace w' = []
        end)
     {| ui := u; trace := [] |}.
Proof. wp_run_all; for_the_wallet. Qed.

Lemma handlePlay_for_the_wallet (env : Env) (auth : bool) (user : User) (u : Home.UI) :
  wp (Home.handlePlay env auth (Some user))
     (fun _ w' =>
        match InlineResolver.resolve user with
        | Some acct => Forall (playCallFor env acct u) (List.map fst (trace w'))
        | None => trace w' = []
        end)
     {| ui := u; trace := [] |}.
Proof. wp_run_all; for_the_wallet. Qed.

(** Every remote call of an action is made for the wallet that was resolved
    and with what the page holds.  On the Movement page the transaction is
    built for the parsed address of the hook's wallet as a
    [0x1::coin::transfer] to the parsed, trimmed recipient of the form, of
    [aptToOctas(parseFloat(amount) || 0)] octas; the signer and the balance
    read are asked for that wallet's address; and a submission carries the
    normalised public key of that wallet.  The page with the inline logic
    does the same with the inline account, the amount
    [BigInt(parseInt(amount) * 100000000)], and a key that is exactly what
    [cleanPublicKey] returns.  A play is built for the inline account as
    [coin_flip::play] of the chosen side, and reads nothing but the pot. *)
Theorem actions_call_for_the_resolved_wallet (env : Env) (auth : bool) :
  (forall (user : option User) (u : MovementTx.UI),
      match AptosHooks.useAptosWallet user with
      | Some w => Forall (transferCallFor env w u)
                    (calls (MovementTx.handleTransaction env auth user) u)
      | None => calls (MovementTx.handleTransaction env auth user) u = []
      end)
  /\ (forall (user : User) (u : MovementTxInline.UI),
      match InlineResolver.resolve user with
      | Some acct => Forall (inlineTransferCallFor env acct u)
                       (calls (MovementTxInline.handleTransaction env auth (Some user)) u)
      | None => calls (MovementTxInline.handleTransaction env auth (Some user)) u = []
      end)
  /\ (forall (user : User) (u : Home.UI),
      match InlineResolver.resolve user with
      | Some acct => Forall (playCallFor env acct u)
                       (calls (Home.handlePlay env auth (Some user)) u)
      | None => calls (Home.handlePlay env auth (Some user)) u = []
      end).
Proof.
  split; [|split].
  - intros user u. pose proof (handleTransaction_for_the_wallet env auth user u) as H.
    unfold wp in H. unfold calls, run.
    destruct (AptosHooks.useAptosWallet user); [exact H | rewrite H; reflexivity].
  - intros user u. pose proof (handleTransactionInline_for_the_wallet env auth user u) as H.
    unfold wp in H. unfold calls, run.
    destruct (InlineResolver.resolve user); [exact H | rewrite H; reflexivity].
  - intros user u. pose proof (handlePlay_for_the_wallet env auth user u) as H.
    unfold wp in H. unfold calls, run.
    destruct (InlineResolver.resolve user); [exact H | rewrite H; reflexivity].
Qed.

(** ** An amount that is not a number *)

Lemma handleTransaction_amount_nan (env : Env) (auth : bool) (user : option User)
    (u : MovementTx.UI) :
  JSNumber.parseFloat (MovementTx.amount u) = PrimFloat.nan ->
  wp (MovementTx.handleTransaction env auth user)
     (fun _ w' =>
        Forall (fun c => match c with
                         | BuildSimple _ data =>
                             exists recipient, data = MovementTx.coinTransfer recipient 0
                         | _ => True
                         end) (List.map fst (trace w')))
     {| ui := u; trace := [] |}.
Proof.
  intros N.
  assert (E : AptosUtils.aptToOctas (JSNumber.orZero (JSNumber.parseFloat (MovementTx.amount u)))
              = inr 0%Z) by (rewrite N; vm_compute; reflexivity).
  wp_run_all; each_event; eexists; reflexivity.
Qed.

Lemma handleTransactionInline_amount_nan (env : Env) (auth : bool) (user : option User)
    (u : MovementTxInline.UI) :
  JSNumber.parseInt (MovementTxInline.amount u) = PrimFloat.nan ->
  wp (MovementTxInline.handleTransaction env auth user)
     (fun r w' => r = inr tt /\ trace w' = []) {| ui := u; trace := [] |}.
Proof.
  intros N.
  assert (E : MovementTxInline.numberToBigInt
                (JSNumber.parseInt (MovementTxInline.amount u) * 100000000)%float
              = inl (ThrownError "The number cannot be converted to a BigInt because it is not an integer"))
    by (rewrite N; vm_compute; reflexivity).
  wp_run_all; split; reflexivity.
Qed.

(** The two Movement pages treat an amount that does not parse (an empty
    field, for one) differently.  The page that uses the utilities turns
    [NaN] into [0]: whenever it builds, it builds a transfer of [0] octas.
    The page with the inline logic fails on [BigInt(NaN)] before it builds:
    it makes no remote call at all. *)
Theorem amount_that_is_not_a_number (env : Env) (auth : bool) (user : option User) :
  (forall (u : MovementTx.UI) (sender : Address) (data : EntryCall),
      JSNumber.parseFloat (MovementTx.amount u) = PrimFloat.nan ->
      In (BuildSimple sender data) (calls (MovementTx.handleTransaction env auth user) u) ->
      exists recipient, data = MovementTx.coinTransfer recipient 0)
  /\ (forall u : MovementTxInline.UI,
      JSNumber.parseInt (MovementTxInline.amount u) = PrimFloat.nan ->
      fst (run (MovementTxInline.handleTransaction env auth user) u) = inr tt
      /\ calls (MovementTxInline.handleTransaction env auth user) u = []).
Proof.
  split.
  - intros u sender data N H.
    pose proof (handleTransaction_amount_nan env auth user u N) as F. unfold wp in F.
    exact (proj1 (Forall_forall _ _) F _ H).
  - intros u N.
    destruct (handleTransactionInline_amount_nan env auth user u N) as [R T].
    split; [exact R|]. unfold calls, run. rewrite T. reflexivity.
Qed.

Lemma amount_that_is_not_a_number_witness :
  (exists recipient,
      MovementTx.coinTransfer "0xB" 0 = MovementTx.coinTransfer recipient 0)
  /\ calls (MovementTxInline.handleTransaction (Scenario.answering "0") true
              (Some (Scenario.userWith (Scenario.aptosAccount Scenario.key64))))
       {| MovementTxInline.recipientAddress := "0xB"; MovementTxInline.amount := "";
          MovementTxInline.isLoading := false; MovementTxInline.txStatus := [];
          MovementTxInline.txHash := ""; MovementTxInline.walletBalance := "0" |}
     = [].
Proof.
  split.
  - apply (proj1 (amount_that_is_not_a_number (Scenario.answering "0") true
                    (Some (Scenario.userWith (Scenario.aptosAccount Scenario.key64))))
             (Scenario.transferForm "") "0xA" (MovementTx.coinTransfer "0xB" 0) eq_refl).
    vm_compute. left. reflexivity.
  - apply (proj2 (amount_that_is_not_a_number (Scenario.answering "0") true
                    (Some (Scenario.userWith (Scenario.aptosAccount Scenario.key64))))
             {| MovementTxInline.recipientAddress := "0xB"; MovementTxInline.amount := "";
                MovementTxInline.isLoading := false; MovementTxInline.txStatus := [];
                MovementTxInline.txHash := ""; MovementTxInline.walletBalance := "0" |}
             eq_refl).
Defined.

(** ** A recipient that is blank or does not parse *)

Lemma handleTransaction_blank_recipient (env : Env) (auth : bool) (user : option User)
    (u : MovementTx.UI) :
  JSString.isEmpty (JSString.trim (MovementTx.recipientAddress u)) = true ->
  wp (MovementTx.handleTransaction env auth user)
     (fun r w' => trace w' = []
                  /\ MovementTx.isLoading (ui w') = MovementTx.isLoading u
                  /\ MovementTx.txHash (ui w') = MovementTx.txHash u)
     {| ui := u; trace := [] |}.
Proof. intros B. wp_run_all; repeat split; reflexivity. Qed.

Lemma handleTransaction_bad_recipient (env : Env) (auth : bool) (user : option User)
    (u : MovementTx.UI) :
  returns (accountAddressFrom env
             (JSStr (JSString.trim (MovementTx.recipientAddress u)))) = false ->
  wp (MovementTx.handleTransaction env auth user)
     (fun r w' => trace w' = []
                  /\ MovementTx.isLoading (ui w') = MovementTx.isLoading u
                  /\ MovementTx.txHash (ui w') = MovementTx.txHash u)
     {| ui := u; trace := [] |}.
Proof. intros B. wp_run_all; repeat split; reflexivity. Qed.

Lemma handleTransaction_bad_recipient_status (env : Env) (user : User)
    (u : MovementTx.UI) (w : AptosHooks.AptosWallet) :
  AptosHooks.useAptosWallet (Some user) = Some w ->
  JSString.isEmpty (JSString.trim (MovementTx.recipientAddress u)) = false ->
  returns (accountAddressFrom env
             (JSStr (JSString.trim (MovementTx.recipientAddress u)))) = false ->
  wp (MovementTx.handleTransaction env true (Some user))
     (fun r w' => MovementTx.txStatus (ui w') = [Lit "Invalid recipient address format"]
                  /\ MovementTx.addressError (ui w') = "Please enter a valid Aptos address")
     {| ui := u; trace := [] |}.
Proof. intros W N B. wp_run_all; split; reflexivity. Qed.

Lemma handleTransactionInline_blank_recipient (env : Env) (auth : bool)
    (user : option User) (u : MovementTxInline.UI) :
  JSString.isEmpty (JSString.trim (MovementTxInline.recipientAddress u)) = true ->
  wp (MovementTxInline.handleTransaction env auth user)
     (fun r w' => trace w' = []) {| ui := u; trace := [] |}.
Proof. intros B. wp_run_all; reflexivity. Qed.

Lemma handleTransactionInline_bad_recipient (env : Env) (auth : bool)
    (user : option User) (u : MovementTxInline.UI) (e : Thrown) :
  accountAddressFrom env (JSStr (JSString.trim (MovementTxInline.recipientAddress u)))
    = inl e ->
  wp (MovementTxInline.handleTransaction env auth user)
     (fun r w' => trace w' = []) {| ui := u; trace := [] |}.
Proof. intros B. wp_run_all; reflexivity. Qed.

(** A recipient that is blank, or that the address parser rejects, never
    reaches the network: on either Movement page the handler makes no
    remote call.  The page that uses the utilities stops before it touches
    the loading flag or the hash, and for a signed-in user with a wallet
    reports a non-blank unparsable recipient as "Invalid recipient address
    format", with the field error "Please enter a valid Aptos address". *)
Theorem bad_recipient_never_reaches_the_network (env : Env) :
  (forall (auth : bool) (user : option User) (u : MovementTx.UI),
      JSString.isEmpty (JSString.trim (MovementTx.recipientAddress u)) = true
      \/ returns (accountAddressFrom env
                    (JSStr (JSString.trim (MovementTx.recipientAddress u)))) = false ->
      calls (MovementTx.handleTransaction env auth user) u = []
      /\ MovementTx.isLoading (finalUI (MovementTx.handleTransaction env auth user) u)
         = MovementTx.isLoading u
      /\ MovementTx.txHash (finalUI (MovementTx.handleTransaction env auth user) u)
         = MovementTx.txHash u)
  /\ (forall (user : User) (u : MovementTx.UI) (w : AptosHooks.AptosWallet),
      AptosHooks.useAptosWallet (Some user) = Some w ->
      JSString.isEmpty (JSString.trim (MovementTx.recipientAddress u)) = false ->
      returns (accountAddressFrom env
                 (JSStr (JSString.trim (MovementTx.recipientAddress u)))) = false ->
      MovementTx.txStatus (finalUI (MovementTx.handleTransaction env true (Some user)) u)
        = [Lit "Invalid recipient address format"]
      /\ MovementTx.addressError
           (finalUI (MovementTx.handleTransaction env true (Some user)) u)
         = "Please enter a valid Aptos address")
  /\ (forall (auth : bool) (user : option User) (u : MovementTxInline.UI),
      JSString.isEmpty (JSString.trim (MovementTxInline.recipientAddress u)) = true
      \/ returns (accountAddressFrom env
                    (JSStr (JSString.trim (MovementTxInline.recipientAddress u)))) = false ->
      calls (MovementTxInline.handleTransaction env auth user) u = []).
Proof.
  split; [|split].
  - intros auth user u [B|B].
    + destruct (handleTransaction_blank_recipient env auth user u B) as [T R].
      split; [unfold calls, run; rewrite T; reflexivity | exact R].
    + destruct (handleTransaction_bad_recipient env auth user u B) as [T R].
      split; [unfold calls, run; rewrite T; reflexivity | exact R].
  - intros user u w W N B.
    exact (handleTransaction_bad_recipient_status env user u w W N B).
  - intros auth user u [B|B].
    + pose proof (handleTransactionInline_blank_recipient env auth user u B) as T.
      unfold wp in T. unfold calls, run. rewrite T. reflexivity.
    + destruct (accountAddressFrom env
                  (JSStr (JSString.trim (MovementTxInline.recipientAddress u))))
        as [e|a] eqn:E; [|discriminate B].
      pose proof (handleTransactionInline_bad_recipient env auth user u e E) as T.
      unfold wp in T. unfold calls, run. rewrite T. reflexivity.
Qed.

Lemma bad_recipient_never_reaches_the_network_witness :
  calls (MovementTx.handleTransaction (Scenario.answering "0") true
           (Some (Scenario.userWith (Scenario.aptosAccount Scenario.key64))))
    {| MovementTx.recipientAddress := "  bob  "; MovementTx.amount := "1";
       MovementTx.isLoading := false; MovementTx.txStatus := [];
       MovementTx.txHash := ""; MovementTx.walletBalance := "0";
       MovementTx.creatingWallet := false; MovementTx.addressError := "" |} = [].
Proof.
  exact (proj1 (proj1 (bad_recipient_never_reaches_the_network (Scenario.answering "0"))
                  true (Some (Scenario.userWith (Scenario.aptosAccount Scenario.key64)))
                  {| MovementTx.recipientAddress := "  bob  "; MovementTx.amount := "1";
                     MovementTx.isLoading := false; MovementTx.txStatus := [];
                     MovementTx.txHash := ""; MovementTx.walletBalance := "0";
                     MovementTx.creatingWallet := false; MovementTx.addressError := "" |}
                  (or_intror eq_refl))).
Defined.

(** ** A pot that cannot be read as a number *)

Lemma ltb_nan_r (x : float) : PrimFloat.ltb x PrimFloat.nan = false.
Proof.
  rewrite ltb_spec. change (Prim2SF PrimFloat.nan) with S754_nan.
  unfold SFltb, SFcompare. destruct (Prim2SF x) as [| | |[] ? ?]; reflexivity.
Qed.

Lemma ltb_nan_l (x : float) : PrimFloat.ltb PrimFloat.nan x = false.
Proof.
  rewrite ltb_spec. change (Prim2SF PrimFloat.nan) with S754_nan. reflexivity.
Qed.

Lemma handlePlay_pot_nan (env : Env) (auth : bool) (user : option User) (u : Home.UI)
    (result : list string) :
  view env 5 Home.getPotBalance = inr result ->
  JSNumber.parseInt (first result) = PrimFloat.nan
  \/ JSNumber.parseInt (Home.potBalance u) = PrimFloat.nan ->
  wp (Home.handlePlay env auth user)
     (fun r w' =>
        List.length (trace w') = 6 ->
        Home.lastResult (ui w') = Some Home.win
        /\ Home.txStatus (ui w') = [Lit "🎉 YOU WON THE JACKPOT!"])
     {| ui := u; trace := [] |}.
Proof.
  intros V N.
  assert (T1 : PrimFloat.eqb (JSNumber.parseInt (first result)) 0
               && PrimFloat.ltb 0 (JSNumber.parseInt (Home.potBalance u)) = false).
  { destruct N as [N|N]; rewrite N; [reflexivity|].
    rewrite ltb_nan_r. apply andb_false_r. }
  assert (T2 : PrimFloat.ltb (JSNumber.parseInt (Home.potBalance u))
                 (JSNumber.parseInt (first result)) = false).
  { destruct N as [N|N]; rewrite N; [apply ltb_nan_r | apply ltb_nan_l]. }
  wp_run_all; intros L; first [discriminate L | split; reflexivity].
Qed.

(** When the pot read back after a confirmed play does not parse as a
    number (an empty answer reads as [undefined]), or the pot on display
    before the play did not, neither comparison of the inference can hold:
    the play is reported as a win of the jackpot, whatever happened on
    chain. *)
Theorem unreadable_pot_is_reported_as_jackpot (env : Env) (auth : bool)
    (user : option User) (u : Home.UI) (result : list string) :
  view env 5 Home.getPotBalance = inr result ->
  JSNumber.parseInt (first result) = PrimFloat.nan
  \/ JSNumber.parseInt (Home.potBalance u) = PrimFloat.nan ->
  List.length (calls (Home.handlePlay env auth user) u) = 6 ->
  Home.lastResult (finalUI (Home.handlePlay env auth user) u) = Some Home.win
  /\ Home.txStatus (finalUI (Home.handlePlay env auth user) u)
     = [Lit "🎉 YOU WON THE JACKPOT!"].
Proof.
  intros V N L. apply (handlePlay_pot_nan env auth user u result V N).
  unfold calls, run in L. rewrite length_map in L. exact L.
Qed.

Lemma unreadable_pot_is_reported_as_jackpot_witness :
  Home.lastResult
    (finalUI (Home.handlePlay (Scenario.answering "") true
                (Some (Scenario.userWith (Scenario.aptosAccount Scenario.key64))))
       (Scenario.playing "2000000")) = Some Home.win
  /\ Home.txStatus
       (finalUI (Home.handlePlay (Scenario.answering "") true
                   (Some (Scenario.userWith (Scenario.aptosAccount Scenario.key64))))
          (Scenario.playing "2000000"))
     = [Lit "🎉 YOU WON THE JACKPOT!"].
Proof.
  apply (unreadable_pot_is_reported_as_jackpot (Scenario.answering "") true
           (Some (Scenario.userWith (Scenario.aptosAccount Scenario.key64)))
           (Scenario.playing "2000000") [""] eq_refl (or_introl eq_refl)).
  vm_compute. reflexivity.
Defined.

(** ** The balance hook, poll by poll *)

Lemma fetchBalance_poll (env : Env) (wallet : option AptosHooks.AptosWallet)
    (w : World BalanceHook.UI) :
  let w' := snd (BalanceHook.fetchBalance env wallet w) in
  let message := fun e : Thrown => match e with
                                   | ThrownError m => m
                                   | _ => "Failed to fetch balance"
                                   end in
  match BalanceHook.walletAddress wallet with
  | None =>
      trace w' = trace w
      /\ BalanceHook.balance (ui w') = 0%float
      /\ BalanceHook.loading (ui w') = BalanceHook.loading (ui w)
      /\ BalanceHook.error (ui w') = BalanceHook.error (ui w)
  | Some address =>
      BalanceHook.loading (ui w') = false
      /\ match accountAddressFrom env address with
         | inl e =>
             trace w' = trace w
             /\ BalanceHook.balance (ui w') = BalanceHook.balance (ui w)
             /\ BalanceHook.error (ui w') = Some (message e)
         | inr a =>
             match getAccountAPTAmount env (List.length (trace w)) (JSStr a) with
             | inl e =>
                 BalanceHook.balance (ui w') = BalanceHook.balance (ui w)
                 /\ BalanceHook.error (ui w') = Some (message e)
             | inr octas =>
                 BalanceHook.balance (ui w')
                   = AptosUtils.octasToAPT (AptosUtils.OctasString (amountToString octas))
                 /\ BalanceHook.error (ui w') = None
             end
         end
  end.
Proof.
  cbv zeta. unfold BalanceHook.fetchBalance.
  destruct (BalanceHook.walletAddress wallet) as [address|]; [|repeat split].
  unfold tryFinally, tryCatch, bind, await, lift, BalanceHook.setLoading,
    BalanceHook.setError, BalanceHook.setBalance, update.
  cbn [ui trace].
  destruct (accountAddressFrom env address) as [e|a]; [repeat split|].
  destruct (getAccountAPTAmount env _ (JSStr a)); repeat split.
Qed.

(** ** Polls that overlap *)

(** The two halves of a poll, run one after the other, are the poll. *)
Lemma fetchPotBalance_split (env : Env) (w : World Home.UI) :
  Home.fetchPotBalance env w
  = potArrives (fst (potIssue env w)) (snd (potIssue env w)).
Proof.
  unfold Home.fetchPotBalance, potArrives, potIssue, tryCatch, bind, await, lift.
  cbn [fst snd].
  destruct (view env (List.length (trace w)) Home.getPotBalance); reflexivity.
Qed.

Lemma fetchBalance_split (env : Env) (wallet : option AptosHooks.AptosWallet)
    (address : JSValue) (w : World BalanceHook.UI) :
  BalanceHook.walletAddress wallet = Some address ->
  BalanceHook.fetchBalance env wallet w
  = balanceArrives (fst (balanceIssue env address w)) (snd (balanceIssue env address w)).
Proof.
  intros W. unfold BalanceHook.fetchBalance. rewrite W.
  unfold balanceArrives, balanceIssue, tryFinally, tryCatch, bind, await, lift,
    BalanceHook.setLoading, BalanceHook.setError, BalanceHook.setBalance, update.
  cbn [ui trace fst snd].
  destruct (accountAddressFrom env address) as [e|a]; [reflexivity|].
  cbn [fst snd].
  destruct (getAccountAPTAmount env _ (JSStr a)); reflexivity.
Qed.

Section OverlappingFacts.
Context {UI A B : Type}.
Variable issue : M UI A.
Variable arrives : Exc A -> M UI unit.
Variable call : Call.
Variable answer : nat -> Exc A.
Variable value : UI -> B.
Variable publish : A -> B.

(** The poll issues one read and leaves the value on display alone; the
    rest of it publishes an answer, keeps the value when the read threw,
    makes no call and lets nothing escape. *)
Hypothesis issue_run :
  forall w, exists shown,
    issue w = (answer (List.length (trace w)),
               {| ui := shown; trace := trace w ++ [(call, shown)] |})
    /\ value shown = value (ui w).
Hypothesis arrives_returns :
  forall r w, fst (arrives r w) = inr tt /\ trace (snd (arrives r w)) = trace w.
Hypothesis arrives_publishes :
  forall x w, value (ui (snd (arrives (inr x) w))) = publish x.
Hypothesis arrives_keeps :
  forall e w, value (ui (snd (arrives (inl e) w))) = value (ui w).

Let step := pollEvent issue arrives.
Let steps := pollEvents issue arrives.

Lemma fires_run (p : Polling UI A) :
  exists shown,
    step p Fires
    = {| page := {| ui := shown;
                    trace := trace (page p) ++ [(call, shown)] |};
         pending := pending p
                    ++ [(List.length (trace (page p)),
                         answer (List.length (trace (page p))))] |}
    /\ value shown = value (ui (page p)).
Proof.
  destruct (issue_run (page p)) as [shown [E V]]. exists shown. split; [|exact V].
  unfold step, pollEvent. rewrite E. cbn [trace].
  rewrite List.length_app. cbn [List.length].
  replace (List.length (trace (page p)) + 1 =? List.length (trace (page p)))%nat
    with false; [reflexivity|].
  symmetry. apply Nat.eqb_neq. lia.
Qed.

Lemma answerTo_pending (k : nat) (p : Polling UI A) (r : Exc A) :
  answerTo k p = Some r -> In (k, r) (pending p).
Proof.
  unfold answerTo.
  destruct (List.find (fun r0 => fst r0 =? k)%nat (pending p)) as [[k' r']|] eqn:F;
    [|discriminate].
  intros [= <-]. apply List.find_some in F as [I E].
  cbn [fst snd] in *. apply Nat.eqb_eq in E. subst k'. exact I.
Qed.

Lemma step_answered (p : Polling UI A) (e : PollEvent) :
  answered answer p -> answered answer (step p e).
Proof.
  intros H. destruct e as [|k].
  - destruct (fires_run p) as [shown [E _]]. rewrite E. unfold answered. cbn [pending].
    apply Forall_app. split; [exact H|]. constructor; [reflexivity | constructor].
  - unfold step, pollEvent. destruct (answerTo k p); [|exact H].
    unfold answered. cbn [pending]. apply Forall_forall. intros r I.
    apply List.filter_In in I as [I _].
    exact (proj1 (Forall_forall _ _) H r I).
Qed.

Lemma step_calls (p : Polling UI A) (e : PollEvent) :
  List.map fst (trace (page (step p e)))
  = (List.map fst (trace (page p))
     ++ match e with Fires => [call] | Arrives _ => [] end)%list.
Proof.
  destruct e as [|k].
  - destruct (fires_run p) as [shown [E _]]. rewrite E. cbn [page trace].
    apply List.map_app.
  - rewrite List.app_nil_r. unfold step, pollEvent.
    destruct (answerTo k p) as [r|]; [|reflexivity].
    cbn [page]. rewrite (proj2 (arrives_returns r (page p))). reflexivity.
Qed.

Lemma steps_answered (events : list PollEvent) (p : Polling UI A) :
  answered answer p -> answered answer (steps p events).
Proof.
  revert p. induction events as [|e events IH]; intros p H; [exact H|].
  apply (IH (step p e)). apply step_answered. exact H.
Qed.

Lemma steps_calls (events : list PollEvent) (p : Polling UI A) :
  List.map fst (trace (page (steps p events)))
  = (List.map fst (trace (page p)) ++ List.repeat call (firings events))%list.
Proof.
  revert p. induction events as [|e events IH]; intros p.
  - cbn. rewrite List.app_nil_r. reflexivity.
  - change (steps p (e :: events)) with (steps (step p e) events).
    rewrite IH, step_calls, <- List.app_assoc. destruct e; reflexivity.
Qed.

Lemma step_keeps (p : Polling UI A) (e : PollEvent) :
  answered answer p -> fails answer e ->
  value (ui (page (step p e))) = value (ui (page p)).
Proof.
  intros H F. destruct e as [|k].
  - destruct (fires_run p) as [shown [E V]]. rewrite E. exact V.
  - unfold step, pollEvent. destruct (answerTo k p) as [r|] eqn:R; [|reflexivity].
    apply answerTo_pending in R.
    pose proof (proj1 (Forall_forall _ _) H _ R) as Q. cbn [fst snd] in Q.
    destruct F as [thrown T]. rewrite Q, T. cbn [page]. apply arrives_keeps.
Qed.

Lemma steps_keep (events : list PollEvent) (p : Polling UI A) :
  answered answer p -> Forall (fails answer) events ->
  value (ui (page (steps p events))) = value (ui (page p)).
Proof.
  revert p. induction events as [|e events IH]; intros p H F; [reflexivity|].
  change (steps p (e :: events)) with (steps (step p e) events).
  inversion F as [|? ? F1 F2]; subst.
  rewrite (IH (step p e) (step_answered p e H) F2). apply step_keeps; assumption.
Qed.

(** The value on display is what the last answer to arrive published,
    whenever its read was issued. *)
Lemma last_arrival (before after : list PollEvent) (k : nat) (x : A) (p : Polling UI A) :
  answered answer p ->
  answerTo k (steps p before) = Some (inr x) ->
  Forall (fails answer) after ->
  value (ui (page (steps p (before ++ Arrives k :: after)))) = publish x.
Proof.
  intros H R F. unfold steps, pollEvents. rewrite List.fold_left_app.
  change (value (ui (page (steps (step (steps p before) (Arrives k)) after)))
          = publish x).
  rewrite steps_keep; [| apply step_answered, steps_answered; exact H | exact F].
  unfold step, pollEvent. fold steps. rewrite R. cbn [page]. apply arrives_publishes.
Qed.

(** Polls that are answered one by one are the runs of the interval loop. *)
Lemma oneByOne_run (callback : M UI unit) (n : nat) (p : Polling UI A) :
  (forall w, callback w = arrives (fst (issue w)) (snd (issue w))) ->
  pending p = [] ->
  steps p (oneByOne (List.length (trace (page p))) n)
  = {| page := snd (everyInterval n callback (page p)); pending := [] |}.
Proof.
  intros C. revert p. induction n as [|n IH]; intros p E.
  - destruct p as [w l]. cbn in E. subst l. reflexivity.
  - cbn [oneByOne].
    change (steps (step (step p Fires) (Arrives (List.length (trace (page p)))))
              (oneByOne (S (List.length (trace (page p)))) n)
            = {| page := snd (everyInterval (S n) callback (page p)); pending := [] |}).
    assert (R : forall w, fst (callback w) = inr tt)
      by (intros w; rewrite C; apply arrives_returns).
    rewrite (everyInterval_step callback R).
    destruct (fires_run p) as [shown [F _]].
    destruct (issue_run (page p)) as [shown' [I _]].
    assert (S1 : step (step p Fires) (Arrives (List.length (trace (page p))))
                 = {| page := snd (callback (page p)); pending := [] |}).
    { unfold step at 1. unfold pollEvent at 1. fold step.
      unfold step, pollEvent. rewrite C.
      destruct (issue (page p)) as [r w] eqn:Q. cbn [fst snd].
      injection I as -> ->. cbn [trace]. rewrite List.length_app. cbn [List.length].
      replace (List.length (trace (page p)) + 1 =? List.length (trace (page p)))%nat
        with false by (symmetry; apply Nat.eqb_neq; lia).
      unfold answerTo. cbn [pending page]. rewrite E. cbn [app List.find fst snd].
      rewrite Nat.eqb_refl. cbn [option_map snd List.filter fst negb].
      rewrite Nat.eqb_refl. reflexivity. }
    rewrite S1.
    replace (S (List.length (trace (page p))))
      with (List.length (trace (page {| page := snd (callback (page p));
                                        pending := @nil (nat * Exc A) |}))).
    + apply IH. reflexivity.
    + cbn [page]. rewrite C, I. cbn [fst snd].
      rewrite (proj2 (arrives_returns _ _)). cbn [trace].
      rewrite List.length_app. cbn [List.length]. lia.
Qed.

End OverlappingFacts.

Section PollersOverlapping.
Variable env : Env.

Lemma potIssue_run (w : World Home.UI) :
  exists shown,
    potIssue env w
    = (view env (List.length (trace w)) Home.getPotBalance,
       {| ui := shown; trace := trace w ++ [(View Home.getPotBalance, shown)] |})
    /\ Home.potBalance shown = Home.potBalance (ui w).
Proof. exists (ui w). split; reflexivity. Qed.

Lemma potArrives_returns (r : Exc (list string)) (w : World Home.UI) :
  fst (potArrives r w) = inr tt /\ trace (snd (potArrives r w)) = trace w.
Proof. destruct r; split; reflexivity. Qed.

Variable address : JSValue.
Variable a : Address.
Hypothesis parses : accountAddressFrom env address = inr a.

Lemma balanceIssue_run (w : World BalanceHook.UI) :
  exists shown,
    balanceIssue env address w
    = (getAccountAPTAmount env (List.length (trace w)) (JSStr a),
       {| ui := shown; trace := trace w ++ [(GetAccountAPTAmount (JSStr a), shown)] |})
    /\ BalanceHook.balance shown = BalanceHook.balance (ui w).
Proof.
  exists {| BalanceHook.balance := BalanceHook.balance (ui w);
            BalanceHook.loading := true; BalanceHook.error := None |}.
  split; [|reflexivity].
  unfold balanceIssue, bind, await, lift, BalanceHook.setLoading, BalanceHook.setError,
    update.
  cbn [ui trace]. rewrite parses. reflexivity.
Qed.

Lemma balanceArrives_returns (r : Exc Z) (w : World BalanceHook.UI) :
  fst (balanceArrives r w) = inr tt /\ trace (snd (balanceArrives r w)) = trace w.
Proof. destruct r; split; reflexivity. Qed.

End PollersOverlapping.



(** ** The fraction of an amount on the page with the inline logic *)

Section ParseIntFacts.
Import JSString JSNumber.

Lemma decimal_digit_facts (c : ascii) :
  (48 <=? nat_of_ascii c)%nat && (nat_of_ascii c <=? 57)%nat = true ->
  isWhiteSpace c = false
  /\ (forall r, signOf (String c r) = (false, String c r))
  /\ (exists d, digitValue 10 c = Some d)
  /\ Ascii.eqb "x" c = false /\ Ascii.eqb "X" c = false.
Proof.
  destruct c as [[] [] [] [] [] [] [] []]; intros H; vm_compute in H;
    try discriminate H; repeat split; eexists; reflexivity.
Qed.

Lemma digits_stop (ds tail : string) (count : nat) (acc : Z) :
  allDecimalDigits ds = true ->
  (forall c r, tail = String c r -> digitValue 10 c = None) ->
  digits 10 (ds ++ tail) count acc
  = (fst (fst (digits 10 ds count acc)), snd (fst (digits 10 ds count acc)), tail).
Proof.
  revert count acc; induction ds as [|c ds IH]; intros count acc D T.
  - cbn [append digits fst snd]. destruct tail as [|c r]; [reflexivity|].
    cbn [digits]. rewrite (T c r eq_refl). reflexivity.
  - cbn [allDecimalDigits] in D. apply andb_prop in D as [D1 D2].
    destruct (decimal_digit_facts c D1) as [_ [_ [[d E] _]]].
    cbn [append digits]. rewrite E. apply IH; assumption.
Qed.

Lemma startsWith_cons (a b : ascii) (p s : string) :
  startsWith (String a p) (String b s) = Ascii.eqb a b && startsWith p s.
Proof. reflexivity. Qed.

Lemma no_hex_prefix (c1 : ascii) (ds t : string) :
  allDecimalDigits ds = true ->
  (forall c r, t = String c r -> Ascii.eqb "x" c = false /\ Ascii.eqb "X" c = false) ->
  startsWith "0x" (String c1 (ds ++ t)) || startsWith "0X" (String c1 (ds ++ t)) = false.
Proof.
  intros D T. rewrite !startsWith_cons.
  assert (X : startsWith "x" (ds ++ t) = false /\ startsWith "X" (ds ++ t) = false).
  { destruct ds as [|c2 ds].
    - cbn [append]. destruct t as [|c r]; [split; reflexivity|].
      destruct (T c r eq_refl) as [A B]. rewrite !startsWith_cons, A, B.
      split; reflexivity.
    - cbn [allDecimalDigits] in D. apply andb_prop in D as [D1 _].
      destruct (decimal_digit_facts c2 D1) as [_ [_ [_ [A B]]]].
      cbn [append]. rewrite !startsWith_cons, A, B. split; reflexivity. }
  destruct X as [A B]. rewrite A, B, !andb_false_r. reflexivity.
Qed.

(** [parseInt] stops at the decimal point. *)
Lemma parseInt_ignores_fraction (ds rest : string) :
  allDecimalDigits ds = true ->
  parseInt (ds ++ "." ++ rest) = parseInt ds.
Proof.
  intros D. destruct ds as [|c1 ds]; [reflexivity|].
  set (tail := "." ++ rest).
  assert (T : forall c r, tail = String c r -> digitValue 10 c = None).
  { intros c r [= <- _]. reflexivity. }
  assert (X : forall c r, tail = String c r ->
                          Ascii.eqb "x" c = false /\ Ascii.eqb "X" c = false).
  { intros c r [= <- _]. split; reflexivity. }
  clearbody tail. unfold parseInt.
  pose proof D as D'. cbn [allDecimalDigits] in D'. apply andb_prop in D' as [D1 D2].
  destruct (decimal_digit_facts c1 D1) as [W [S _]].
  cbn [append trimStart]. rewrite W, !S.
  rewrite (no_hex_prefix c1 ds tail D2 X).
  pose proof (no_hex_prefix c1 ds "" D2) as N.
  assert (E : ds ++ "" = ds)
    by (clear; induction ds as [|c ds IH]; simpl; [|rewrite IH]; reflexivity).
  rewrite E in N. rewrite N by (intros c r H; discriminate H).
  change (String c1 (ds ++ tail)) with (String c1 ds ++ tail).
  rewrite (digits_stop (String c1 ds) tail 0 0 D T).
  destruct (digits 10 (String c1 ds) 0 0) as [[count v] r]. reflexivity.
Qed.

End ParseIntFacts.

(** On the Movement page with the inline logic the amount is read with
    [parseInt], which stops at the decimal point: an amount typed as digits,
    a point and anything after it is built as the transfer of the whole
    number of coins before the point ([1.5] is sent as [1] coin), where the
    page that uses the utilities converts the fraction too. *)
Theorem inline_page_drops_the_fraction (env : Env) (auth : bool) (user : User)
    (u : MovementTxInline.UI) (ds rest : string) (sender : Address) (data : EntryCall) :
  MovementTxInline.amount u = ds ++ "." ++ rest ->
  allDecimalDigits ds = true ->
  In (BuildSimple sender data)
     (calls (MovementTxInline.handleTransaction env auth (Some user)) u) ->
  exists recipient octas,
    MovementTxInline.numberToBigInt (JSNumber.parseInt ds * 100000000)%float = inr octas
    /\ data = MovementTx.coinTransfer recipient octas.
Proof.
  intros A D H.
  pose proof (handleTransactionInline_for_the_wallet env auth user u) as F.
  unfold wp in F. unfold calls, run in H.
  destruct (InlineResolver.resolve user) as [acct|]; [|rewrite F in H; destruct H].
  pose proof (proj1 (Forall_forall _ _) F _ H) as [_ [recipient [octas [_ [O E]]]]].
  rewrite A, (parseInt_ignores_fraction ds rest D) in O.
  exists recipient, octas. split; assumption.
Qed.

Lemma inline_page_drops_the_fraction_witness :
  exists recipient octas,
    MovementTxInline.numberToBigInt (JSNumber.parseInt "1" * 100000000)%float = inr octas
    /\ MovementTx.coinTransfer "0xB" 100000000 = MovementTx.coinTransfer recipient octas.
Proof.
  apply (inline_page_drops_the_fraction (Scenario.answering "0") true
           (Scenario.userWith (Scenario.aptosAccount Scenario.key64))
           {| MovementTxInline.recipientAddress := "0xB"; MovementTxInline.amount := "1.5";
              MovementTxInline.isLoading := false; MovementTxInline.txStatus := [];
              MovementTxInline.txHash := ""; MovementTxInline.walletBalance := "0" |}
           "1" "5" "0xA" (MovementTx.coinTransfer "0xB" 100000000) eq_refl eq_refl).
  vm_compute. left. reflexivity.
Defined.

(** ** An incomplete pair from the hook *)

Lemma handleTransaction_incomplete_wallet (env : Env) (auth : bool) (user : option User)
    (u : MovementTx.UI) (w : AptosHooks.AptosWallet) :
  AptosHooks.useAptosWallet user = Some w ->
  negb (JSObj.truthy (AptosHooks.address w))
  || negb (JSObj.truthy (AptosHooks.publicKey w)) = true ->
  wp (MovementTx.handleTransaction env auth user)
     (fun r w' => trace w' = []
                  /\ MovementTx.isLoading (ui w') = MovementTx.isLoading u)
     {| ui := u; trace := [] |}.
Proof. intros W G. wp_run_all; split; reflexivity. Qed.

Lemma handleTransaction_key_not_a_string (env : Env) (auth : bool) (user : option User)
    (u : MovementTx.UI) (w : AptosHooks.AptosWallet) :
  AptosHooks.useAptosWallet user = Some w ->
  JSObj.isString (AptosHooks.publicKey w) = false ->
  wp (MovementTx.handleTransaction env auth user)
     (fun r w' => trace w' = []) {| ui := u; trace := [] |}.
Proof.
  intros W S.
  assert (E : MovementTx.cleanPublicKeyOf (AptosHooks.publicKey w)
              = inl (ThrownError "cleaned.toLowerCase is not a function"))
    by (destruct (AptosHooks.publicKey w); try reflexivity; discriminate S).
  wp_run_all; reflexivity.
Qed.

Lemma handleTransaction_incomplete_wallet_status (env : Env) (user : User)
    (u : MovementTx.UI) (w : AptosHooks.AptosWallet) :
  AptosHooks.useAptosWallet (Some user) = Some w ->
  negb (JSObj.truthy (AptosHooks.address w))
  || negb (JSObj.truthy (AptosHooks.publicKey w)) = true ->
  JSString.isEmpty (JSString.trim (MovementTx.recipientAddress u)) = false ->
  returns (accountAddressFrom env
             (JSStr (JSString.trim (MovementTx.recipientAddress u)))) = true ->
  wp (MovementTx.handleTransaction env true (Some user))
     (fun r w' => MovementTx.txStatus (ui w') = [Lit "Wallet not properly configured"])
     {| ui := u; trace := [] |}.
Proof. intros W G N V. wp_run_all; reflexivity. Qed.

(** The pair that [useAptosWallet] returns is not checked by the hook, but
    the transfer page stops an incomplete one before the network: when the
    address or the public key of the pair is missing or otherwise falsy, or
    the public key is not a string, [handleTransaction] makes no remote
    call; with a falsy field and a valid recipient, a signed-in user is told
    "Wallet not properly configured". *)
Theorem incomplete_wallet_never_reaches_the_network (env : Env) :
  (forall (auth : bool) (user : option User) (u : MovementTx.UI)
          (w : AptosHooks.AptosWallet),
      AptosHooks.useAptosWallet user = Some w ->
      JSObj.truthy (AptosHooks.address w) = false
      \/ JSObj.truthy (AptosHooks.publicKey w) = false
      \/ JSObj.isString (AptosHooks.publicKey w) = false ->
      calls (MovementTx.handleTransaction env auth user) u = [])
  /\ (forall (user : User) (u : MovementTx.UI) (w : AptosHooks.AptosWallet),
      AptosHooks.useAptosWallet (Some user) = Some w ->
      JSObj.truthy (AptosHooks.address w) = false
      \/ JSObj.truthy (AptosHooks.publicKey w) = false ->
      JSString.isEmpty (JSString.trim (MovementTx.recipientAddress u)) = false ->
      returns (accountAddressFrom env
                 (JSStr (JSString.trim (MovementTx.recipientAddress u)))) = true ->
      MovementTx.txStatus (finalUI (MovementTx.handleTransaction env true (Some user)) u)
      = [Lit "Wallet not properly configured"]).
Proof.
  split.
  - intros auth user u w W [A|[K|S]].
    + destruct (handleTransaction_incomplete_wallet env auth user u w W) as [T _];
        [rewrite A; reflexivity|].
      unfold calls, run. rewrite T. reflexivity.
    + destruct (handleTransaction_incomplete_wallet env auth user u w W) as [T _];
        [rewrite K; apply orb_true_r|].
      unfold calls, run. rewrite T. reflexivity.
    + pose proof (handleTransaction_key_not_a_string env auth user u w W S) as T.
      unfold wp in T. unfold calls, run. rewrite T. reflexivity.
  - intros user u w W G N V.
    apply (handleTransaction_incomplete_wallet_status env user u w W); try assumption.
    destruct G as [A|K]; [rewrite A; reflexivity | rewrite K; apply orb_true_r].
Qed.

Lemma incomplete_wallet_never_reaches_the_network_witness :
  calls (MovementTx.handleTransaction (Scenario.answering "0") true
           (Some (Scenario.userWith Scenario.aptosAccountNoAddress)))
    (Scenario.transferForm "1.5") = []
  /\ MovementTx.txStatus
       (finalUI (MovementTx.handleTransaction (Scenario.answering "0") true
                   (Some (Scenario.userWith Scenario.aptosAccountNoAddress)))
          (Scenario.transferForm "1.5"))
     = [Lit "Wallet not properly configured"].
Proof.
  split.
  - exact (proj1 (incomplete_wallet_never_reaches_the_network (Scenario.answering "0"))
             true (Some (Scenario.userWith Scenario.aptosAccountNoAddress))
             (Scenario.transferForm "1.5")
             {| AptosHooks.address := JSUndefined;
                AptosHooks.publicKey := JSStr Scenario.key64 |}
             eq_refl (or_introl eq_refl)).
  - exact (proj2 (incomplete_wallet_never_reaches_the_network (Scenario.answering "0"))
             (Scenario.userWith Scenario.aptosAccountNoAddress)
             (Scenario.transferForm "1.5")
             {| AptosHooks.address := JSUndefined;
                AptosHooks.publicKey := JSStr Scenario.key64 |}
             eq_refl (or_introl eq_refl) eq_refl eq_refl).
Defined.
